(** * EcoForge analysis pipeline: a shallow embedding

    The development follows the Python sources of the pipeline:
    [workflow.py] (orchestrator), [agents/synthesizer.py],
    [agents/refiner_loop.py], [agents/evaluator.py],
    [agents/supervisor.py], [agents/home_expert.py],
    [agents/transport_expert.py] and [agents/diet_expert.py].

    Conventions.
    - Python [float]s are modelled by exact rationals [Q]; every constant of
      the sources is a short decimal and is represented exactly.  A
      binary64 result can differ from the exact one in the last places,
      which matters where a comparison or [round] sits on a tie: the
      properties about such values are bounds, orders and tolerances
      that leave room for this difference, or they assume that the
      exact value is off the threshold.
    - Python [int]s are unbounded integers [Z].  Multiplying one by a
      [float] converts it first, which raises OverflowError beyond the
      largest double (about 1.8e308); the functions of the embedding are
      total, and a property that depends on the conversion assumes an
      integer of at most 300 digits.
    - Text is ASCII ([string] of the standard library).
    - A Python [dict] read through [.get(key, default)] becomes a record
      whose fields are [option]s; [None] is a missing key.
    - Intervention dictionaries that are shared between plans live in a
      store ([gmap nat Intervention]); plans hold references into it. *)

From Stdlib Require Import QArith Qround Qabs Lqa ZArith Lia.
From Stdlib Require Import String Ascii List Bool DecimalString.
From Stdlib Require Import Sorting.Sorted Sorting.Permutation.
From stdpp Require Import gmap.
Import ListNotations.

Local Open Scope string_scope.
Local Open Scope list_scope.

(** ** Python primitives *)

Module Py.

(** [c.lower()] on one ASCII character. *)
Definition lower_ascii (c : ascii) : ascii :=
  let n := nat_of_ascii c in
  if (65 <=? n)%nat && (n <=? 90)%nat then ascii_of_nat (n + 32) else c.

(** [s.lower()] *)
Fixpoint lower (s : string) : string :=
  match s with
  | EmptyString => EmptyString
  | String c r => String (lower_ascii c) (lower r)
  end.

(** [s.startswith(p)] *)
Fixpoint startswith (p s : string) : bool :=
  match p, s with
  | EmptyString, _ => true
  | String a p', String b s' => Ascii.eqb a b && startswith p' s'
  | String _ _, EmptyString => false
  end.

(** [needle in hay] for strings: substring test. *)
Fixpoint contains (needle hay : string) : bool :=
  startswith needle hay ||
  match hay with
  | EmptyString => false
  | String _ r => contains needle r
  end.

(** [any(k in text for k in keywords)] *)
Definition any_in (keywords : list string) (text : string) : bool :=
  existsb (fun k => contains k text) keywords.

(** [x in names] for a list of strings. *)
Definition str_in (x : string) (names : list string) : bool :=
  existsb (String.eqb x) names.

(** [len(s)] *)
Definition len (s : string) : nat := String.length s.

Definition is_digit (c : ascii) : bool :=
  let n := nat_of_ascii c in (48 <=? n)%nat && (n <=? 57)%nat.

Definition digit_val (c : ascii) : Z := Z.of_nat (nat_of_ascii c - 48).

(** [\s] on ASCII: space, tab, newline, vertical tab, form feed,
    carriage return, and the four separators FS, GS, RS, US (28 to 31),
    which Python's [re] counts as white space in a [str] pattern. *)
Definition is_space (c : ascii) : bool :=
  let n := nat_of_ascii c in
  (n =? 32)%nat || ((9 <=? n)%nat && (n <=? 13)%nat)
  || ((28 <=? n)%nat && (n <=? 31)%nat).

(** A decimal literal: the digits read as one integer, and the count of
    digits after the point. *)
Record decimal := Dec { mantissa : Z; frac_digits : nat }.

(** [float(text)] of a literal matched by [\d+(?:\.\d+)?]. *)
Definition to_float (d : decimal) : Q :=
  ((mantissa d # 1) / (Z.pow 10 (Z.of_nat (frac_digits d)) # 1))%Q.

(** Scanner state of [re.findall(r'(\d+(?:\.\d+)?)', text)]. *)
Inductive scan :=
| Idle
| InInt (n : Z)
| SawDot (n : Z)
| InFrac (m : Z) (k : nat).

Definition flush (st : scan) : list decimal :=
  match st with
  | Idle => []
  | InInt n | SawDot n => [Dec n 0]
  | InFrac m k => [Dec m k]
  end.

Definition scan_step (st : scan) (c : ascii) : scan * list decimal :=
  if is_digit c then
    match st with
    | Idle => (InInt (digit_val c), [])
    | InInt n => (InInt (10 * n + digit_val c), [])
    | SawDot n => (InFrac (10 * n + digit_val c) 1, [])
    | InFrac m k => (InFrac (10 * m + digit_val c) (S k), [])
    end
  else
    match st with
    | InInt n => if Ascii.eqb c "."%char then (SawDot n, []) else (Idle, [Dec n 0])
    | _ => (Idle, flush st)
    end.

Fixpoint findall_from (st : scan) (s : string) : list decimal :=
  match s with
  | EmptyString => flush st
  | String c r =>
      let '(st', out) := scan_step st c in out ++ findall_from st' r
  end.

(** [re.findall(r'(\d+(?:\.\d+)?)', text)], left to right. *)
Definition findall_numbers (text : string) : list decimal :=
  findall_from Idle text.

(** [numbers[-1]] when the list is not empty. *)
Definition last_opt {A} (l : list A) : option A :=
  match rev l with
  | [] => None
  | x :: _ => Some x
  end.

(** [float(numbers[-1]) if numbers else dflt] *)
Definition last_number_or (dflt : Q) (text : string) : Q :=
  match last_opt (findall_numbers text) with
  | Some d => to_float d
  | None => dflt
  end.

(** [round(x, n)]: nearest multiple of [10^-n], ties to the even one. *)
Definition round (n : nat) (x : Q) : Q :=
  let scale := Z.pow 10 (Z.of_nat n) in
  let y := (x * (scale # 1))%Q in
  let f := Qfloor y in
  let r := (y - (f # 1))%Q in
  let up :=
    match (r ?= (1 # 2))%Q with
    | Lt => false
    | Gt => true
    | Eq => Z.odd f
    end in
  (((if up then f + 1 else f)%Z # 1) / (scale # 1))%Q.

(** [min(a, b)] and [max(a, b)] on numbers (first argument on ties). *)
Definition min (a b : Q) : Q := if Qlt_le_dec b a then b else a.
Definition max (a b : Q) : Q := if Qlt_le_dec a b then b else a.

Definition ltb (a b : Q) : bool := if Qlt_le_dec a b then true else false.
Definition leb (a b : Q) : bool := if Qlt_le_dec b a then false else true.

(** [sum(l)] *)
Definition sum (l : list Q) : Q := fold_left Qplus l 0%Q.

Section Sorted.
Context {A : Type} (key : A -> Q).

(** Insertion of [x], which preceded every element of [l] in the input,
    into [l] already sorted by decreasing key: [x] passes only the
    elements with a strictly larger key. *)
Fixpoint insert_desc (x : A) (l : list A) : list A :=
  match l with
  | [] => [x]
  | y :: r => if ltb (key x) (key y) then y :: insert_desc x r else x :: l
  end.

(** [sorted(l, key=key, reverse=True)]: stable, decreasing key. *)
Definition sorted_desc (l : list A) : list A :=
  fold_right insert_desc [] l.
End Sorted.

End Py.

(** ** Data model *)

(** An intervention (and a recommendation of a domain estimator): a Python
    dictionary over the keys below.  Keys that the pipeline never reads
    (["cost"], ["nutrition_impact"]) are not represented. *)
Record Intervention := mkIntervention {
  domain : option string;
  action : option string;
  impact : option string;
  priority : option string;
  co2_reduction : option string;
  cost_impact : option string;
  feasibility : option string;
  urgency : option string;
  synergy_multiplier : option Q;
  implementation_tips : option (list string);
  success_criteria : option (list string);
  timeline : option string;
  resources_needed : option (list string)
}.

(** The dictionary [{}]. *)
Definition empty_intervention : Intervention :=
  mkIntervention None None None None None None None None None None None None None.

(** [d.get(key, dflt)] *)
Definition get {A} (o : option A) (dflt : A) : A :=
  match o with Some v => v | None => dflt end.

(** Truthiness of [d.get(key)] for a list-valued key. *)
Definition truthy_list {A} (o : option (list A)) : bool :=
  match o with Some (_ :: _) => true | _ => false end.

(** [transport_patterns] as built by the transport estimator. *)
Record TransportPatterns := mkTransportPatterns {
  primary_vehicle : string;
  daily_distance : Q;
  weekly_flights : Z;
  flight_distance : Z;
  public_transport_usage : string;
  walking_biking : string;
  luxury_transport : bool
}.

(** [dietary_patterns] as built by the diet estimator. *)
Record DietaryPatterns := mkDietaryPatterns {
  diet_type : string;
  meat_frequency : string;
  meat_types : list string;
  dairy_consumption : string;
  local_food : string;
  organic_preference : bool;
  meal_frequency : Z;
  luxury_foods : bool
}.

(** [energy_patterns] as built by the home estimator. *)
Record EnergyPatterns := mkEnergyPatterns {
  home_size : string;
  heating_type : string;
  cooling_usage : string;
  appliance_efficiency : string;
  lighting_type : string;
  insulation_quality : string;
  renewable_energy : bool
}.

(** [shopping_patterns] as built by the shopping estimator. *)
Record ShoppingPatterns := mkShoppingPatterns {
  shopping_frequency : string;
  luxury_purchases : bool;
  fast_fashion : bool;
  electronics_upgrade_cycle : string;
  second_hand_preference : bool;
  brand_consciousness : string;
  impulse_buying : string;
  bulk_buying : bool;
  online_vs_physical : string
}.

(** The dictionary a domain estimator returns. *)
Record DomainAnalysis := mkDomainAnalysis {
  agent_id : string;
  carbon_footprint : option Q;
  efficiency_score : option Q;
  recommendations : option (list Intervention);
  key_findings : option (list string);
  energy_patterns : option EnergyPatterns;
  transport_patterns : option TransportPatterns;
  dietary_patterns : option DietaryPatterns;
  shopping_patterns : option ShoppingPatterns
}.

(** [agent_analyses]: a dictionary from domain name to analysis, in
    insertion order. *)
Definition AgentAnalyses := list (string * DomainAnalysis).

(** [agent_analyses.get(name)] *)
Fixpoint lookup_domain (name : string) (a : AgentAnalyses) : option DomainAnalysis :=
  match a with
  | [] => None
  | (k, v) :: r => if String.eqb k name then Some v else lookup_domain name r
  end.

Record Synergy := mkSynergy {
  synergy_type : string;
  synergy_domains : list string;
  synergy_description : string;
  multiplier : Q;
  combined_impact : string;
  implementation_order : list string
}.

Record DomainSummary := mkDomainSummary {
  summary_carbon_footprint : Q;
  summary_efficiency_score : Q;
  summary_key_findings : list string;
  improvement_potential : string
}.

(** [impact_analysis]; [A] is the representation of an intervention in a
    plan: the dictionary itself, or a reference to it. *)
Record ImpactAnalysis (A : Type) := mkImpactAnalysis {
  total_potential_reduction : Q;
  implementation_timeline : gmap string string;
  quick_wins : list A;
  high_impact_projects : list A
}.
Arguments mkImpactAnalysis {A}.
Arguments total_potential_reduction {A}.
Arguments implementation_timeline {A}.
Arguments quick_wins {A}.
Arguments high_impact_projects {A}.

Record SynergyCluster := mkSynergyCluster {
  cluster_type : string;
  cluster_description : string;
  cluster_domains : list string;
  cluster_order : list string;
  cluster_impact : string
}.

Record IntegratedPlan (A : Type) := mkIntegratedPlan {
  phase_1_immediate : list A;
  phase_2_short_term : list A;
  phase_3_long_term : list A;
  synergy_clusters : list SynergyCluster
}.
Arguments mkIntegratedPlan {A}.

(** The dictionary [synthesize] returns. *)
Record SynthesisResult (A : Type) := mkSynthesisResult {
  synthesis_agent_id : string;
  total_carbon_footprint : Q;
  domain_breakdown : list (string * DomainSummary);
  synergies : list Synergy;
  prioritized_actions : list A;
  impact_analysis : ImpactAnalysis A;
  integrated_plan : IntegratedPlan A;
  eco_score : Q;
  synthesis_confidence : Q
}.
Arguments mkSynthesisResult {A}.
Arguments synthesis_agent_id {A}.
Arguments total_carbon_footprint {A}.
Arguments domain_breakdown {A}.
Arguments synergies {A}.
Arguments prioritized_actions {A}.
Arguments impact_analysis {A}.
Arguments integrated_plan {A}.
Arguments eco_score {A}.
Arguments synthesis_confidence {A}.

(** [plan["prioritized_actions"] = l] on a copy of the dictionary. *)
Definition with_actions {A} (p : SynthesisResult A) (l : list A) : SynthesisResult A :=
  mkSynthesisResult (synthesis_agent_id p) (total_carbon_footprint p)
    (domain_breakdown p) (synergies p) l (impact_analysis p)
    (integrated_plan p) (eco_score p) (synthesis_confidence p).

(** ** Synthesizer ([agents/synthesizer.py]) *)

Module Synthesizer.
Local Open Scope Q_scope.

Definition agent_id : string := "synthesizer_master_005".

(** [self.domain_weights.get(name)] *)
Definition domain_weights (name : string) : option Q :=
  if String.eqb name "home" then Some 0.25
  else if String.eqb name "transport" then Some 0.35
  else if String.eqb name "diet" then Some 0.25
  else if String.eqb name "shopping" then Some 0.15
  else None.

Definition _calculate_total_footprint (a : AgentAnalyses) : Q :=
  Py.round 2
    (fold_left (fun total da => total + get (carbon_footprint (snd da)) 0) a 0).

Definition _assess_improvement_potential (an : DomainAnalysis) : string :=
  let efficiency := get (efficiency_score an) 0.5 in
  let footprint := get (carbon_footprint an) 0 in
  if Py.ltb efficiency 0.3 || Py.ltb 5 footprint then "high"
  else if Py.ltb efficiency 0.6 || Py.ltb 2 footprint then "medium"
  else "low".

Definition _get_domain_breakdown (a : AgentAnalyses) : list (string * DomainSummary) :=
  map (fun da =>
         (fst da,
          mkDomainSummary (get (carbon_footprint (snd da)) 0)
            (get (efficiency_score (snd da)) 0.5)
            (get (key_findings (snd da)) [])
            (_assess_improvement_potential (snd da)))) a.

(** The four pattern reads of [_identify_synergies], with their defaults. *)
Definition home_renewable (a : AgentAnalyses) : bool :=
  match lookup_domain "home" a with
  | Some an => match energy_patterns an with
               | Some p => renewable_energy p
               | None => false
               end
  | None => false
  end.

Definition transport_type (a : AgentAnalyses) : string :=
  match lookup_domain "transport" a with
  | Some an => match transport_patterns an with
               | Some p => primary_vehicle p
               | None => "sedan"
               end
  | None => "sedan"
  end.

Definition diet_local (a : AgentAnalyses) : bool :=
  match lookup_domain "diet" a with
  | Some an => match dietary_patterns an with
               | Some p => organic_preference p
               | None => false
               end
  | None => false
  end.

Definition shopping_second_hand (a : AgentAnalyses) : bool :=
  match lookup_domain "shopping" a with
  | Some an => match shopping_patterns an with
               | Some p => second_hand_preference p
               | None => false
               end
  | None => false
  end.

Definition transport_efficiency (a : AgentAnalyses) : Q :=
  match lookup_domain "transport" a with
  | Some an => get (efficiency_score an) 0.5
  | None => 0.5
  end.

Definition shopping_freq (a : AgentAnalyses) : string :=
  match lookup_domain "shopping" a with
  | Some an => match shopping_patterns an with
               | Some p => shopping_frequency p
               | None => "weekly"
               end
  | None => "weekly"
  end.

Definition ev_solar_synergy : Synergy :=
  mkSynergy "home_transport_ev_solar" ["home"; "transport"]
    "Solar panels + Electric vehicle combo" 1.5
    "Reduce both home and transport emissions by 80%+"
    ["home_solar"; "transport_ev"].

Definition local_circular_synergy : Synergy :=
  mkSynergy "diet_shopping_local_circular" ["diet"; "shopping"]
    "Local food sourcing + Circular economy practices" 1.3
    "Reduce supply chain emissions across consumption"
    ["local_food"; "circular_shopping"].

Definition consolidation_synergy : Synergy :=
  mkSynergy "transport_shopping_consolidation" ["transport"; "shopping"]
    "Consolidated shopping trips + Alternative transport" 1.4
    "Reduce transport needs and optimize shopping patterns"
    ["consolidate_shopping"; "alternative_transport"].

(** The condition of the home-transport rule. *)
Definition ev_solar_rule (a : AgentAnalyses) : bool :=
  negb (home_renewable a)
  && Py.str_in (transport_type a) ["sedan"; "suv"; "luxury_car"].

Definition _identify_synergies (a : AgentAnalyses) : list Synergy :=
  (if ev_solar_rule a then [ev_solar_synergy] else [])
  ++ (if negb (diet_local a) || negb (shopping_second_hand a)
      then [local_circular_synergy] else [])
  ++ (if Py.ltb (transport_efficiency a) 0.6 && String.eqb (shopping_freq a) "daily"
      then [consolidation_synergy] else []).

Definition _assess_feasibility (rec : Intervention) : string :=
  let cost := Py.lower (get (cost_impact rec) "Medium") in
  if Py.contains "low" cost || Py.contains "savings" cost then "high"
  else if Py.contains "medium" cost then "medium"
  else "low".

Definition _assess_urgency (an : DomainAnalysis) (rec : Intervention) : string :=
  let footprint := get (carbon_footprint an) 0 in
  let prio := get (priority rec) "medium" in
  if Py.ltb 5 footprint && String.eqb prio "high" then "critical"
  else if Py.ltb 2 footprint || String.eqb prio "high" then "high"
  else "medium".

Definition priority_scores (k : string) : Q :=
  if String.eqb k "critical" then 5 else if String.eqb k "high" then 4
  else if String.eqb k "medium" then 3 else if String.eqb k "low" then 2 else 3.

Definition feasibility_scores (k : string) : Q :=
  if String.eqb k "high" then 3 else if String.eqb k "medium" then 2
  else if String.eqb k "low" then 1 else 2.

Definition urgency_scores (k : string) : Q :=
  if String.eqb k "critical" then 4 else if String.eqb k "high" then 3
  else if String.eqb k "medium" then 2 else if String.eqb k "low" then 1 else 2.

Definition _calculate_priority_score (i : Intervention) : Q :=
  let p := priority_scores (get (priority i) "medium") in
  let f := feasibility_scores (get (feasibility i) "medium") in
  let u := urgency_scores (get (urgency i) "medium") in
  let synergy_bonus := get (synergy_multiplier i) 1 in
  (p * 0.4 + f * 0.3 + u * 0.3) * synergy_bonus.

(** The intervention built from one recommendation of one domain. *)
Definition of_recommendation (name : string) (an : DomainAnalysis)
    (rec : Intervention) : Intervention :=
  {| domain := Some name;
     action := Some (get (action rec) "");
     impact := Some (get (impact rec) "");
     priority := Some (get (priority rec) "medium");
     co2_reduction := Some (get (co2_reduction rec) "0.5 tons/year");
     cost_impact := Some (get (cost_impact rec) "Medium");
     feasibility := Some (_assess_feasibility rec);
     urgency := Some (_assess_urgency an rec);
     synergy_multiplier := None;
     implementation_tips := None;
     success_criteria := None;
     timeline := None;
     resources_needed := None |}.

(** The synthetic intervention built from one synergy. *)
Definition of_synergy (s : Synergy) : Intervention :=
  {| domain := Some "cross_domain";
     action := Some (synergy_description s);
     impact := Some (combined_impact s);
     priority := Some "high";
     co2_reduction := Some "5-15 tons/year";
     cost_impact := Some "High initial, excellent ROI";
     feasibility := Some "medium";
     urgency := Some "high";
     synergy_multiplier := Some (multiplier s);
     implementation_tips := None;
     success_criteria := None;
     timeline := None;
     resources_needed := None |}.

Definition all_interventions (a : AgentAnalyses) (syn : list Synergy) : list Intervention :=
  flat_map (fun da =>
              map (of_recommendation (fst da) (snd da))
                  (get (recommendations (snd da)) [])) a
  ++ map of_synergy syn.

Definition _prioritize_interventions (a : AgentAnalyses) (syn : list Synergy)
  : list Intervention :=
  firstn 8 (Py.sorted_desc _calculate_priority_score (all_interventions a syn)).

Definition timeline_map (u : string) : string :=
  if String.eqb u "critical" then "0-3 months"
  else if String.eqb u "high" then "3-6 months"
  else if String.eqb u "medium" then "6-12 months"
  else if String.eqb u "low" then "12+ months"
  else "6-12 months".

(** What one action adds to [total_potential_reduction]: the last number
    of its [co2_reduction] text, nothing when the text has no number. *)
Definition reduction_of (a : Intervention) : Q :=
  Py.last_number_or 0 (get (co2_reduction a) "0.5 tons/year").

(** The loop filling [implementation_timeline]; [action["action"]] raises
    [KeyError] on a dictionary without that key ([None] here). *)
Fixpoint fill_timeline (l : list Intervention) (acc : gmap string string)
  : option (gmap string string) :=
  match l with
  | [] => Some acc
  | a :: r =>
      match action a with
      | None => None
      | Some k => fill_timeline r (<[k := timeline_map (get (urgency a) "medium")]> acc)
      end
  end.

Definition is_quick_win (a : Intervention) : bool :=
  match feasibility a with Some f => String.eqb f "high" | None => false end.

Definition mentions_high (a : Intervention) : bool :=
  Py.contains "high" (get (co2_reduction a) "").

Definition _analyze_potential_impact (l : list Intervention)
  : option (ImpactAnalysis Intervention) :=
  match fill_timeline l ∅ with
  | None => None
  | Some tl =>
      Some (mkImpactAnalysis
              (Py.round 1 (fold_left (fun total a => total + reduction_of a) l 0))
              tl
              (firstn 3 (List.filter is_quick_win l))
              (firstn 3 (List.filter mentions_high l)))
  end.

(** Phase of one action in [_create_integrated_plan]: 1, 2 or 3. *)
Definition phase_of (a : Intervention) : nat :=
  let u := get (urgency a) "medium" in
  let f := get (feasibility a) "medium" in
  if Py.str_in u ["critical"; "high"] && String.eqb f "high" then 1%nat
  else if Py.str_in u ["high"; "medium"] then 2%nat
  else 3%nat.

Definition cluster_of (s : Synergy) : SynergyCluster :=
  mkSynergyCluster (synergy_type s) (synergy_description s) (synergy_domains s)
    (implementation_order s) (combined_impact s).

Definition _create_integrated_plan (l : list Intervention) (syn : list Synergy)
  : IntegratedPlan Intervention :=
  mkIntegratedPlan
    (List.filter (fun a => Nat.eqb (phase_of a) 1) l)
    (List.filter (fun a => Nat.eqb (phase_of a) 2) l)
    (List.filter (fun a => Nat.eqb (phase_of a) 3) l)
    (map cluster_of syn).

Definition global_average_footprint : Q := 4.8.

Definition footprint_score (total_footprint : Q) : Q :=
  Py.max 0 (100 - total_footprint / global_average_footprint * 50).

(** [sum(efficiency_scores)]: each domain contributes
    [efficiency * weight * 100]. *)
Definition avg_efficiency_score (a : AgentAnalyses) : Q :=
  Py.sum (map (fun da => get (efficiency_score (snd da)) 0.5
                         * get (domain_weights (fst da)) 0.25 * 100) a).

Definition _calculate_eco_score (a : AgentAnalyses) (total_footprint : Q) : Q :=
  let eco_score := avg_efficiency_score a * 0.6 + footprint_score total_footprint * 0.4 in
  Py.round 1 (Py.min 100 (Py.max 0 eco_score)).

Section Confidence.
(** [numpy.std]: population standard deviation, supplied by the caller. *)
Variable np_std : list Q -> Q.

Definition _calculate_synthesis_confidence (a : AgentAnalyses) : Q :=
  let complete :=
    List.filter (fun da => Py.ltb 0 (get (carbon_footprint (snd da)) 0)) a in
  let completeness_score := inject_Z (Z.of_nat (length complete)) / 4 in
  let efficiency_scores := map (fun da => get (efficiency_score (snd da)) 0.5) a in
  let consistency_score :=
    1 - (if (1 <? length efficiency_scores)%nat then np_std efficiency_scores else 0) in
  let findings_score :=
    inject_Z (Z.of_nat (length (List.filter (fun da => truthy_list (key_findings (snd da))) a))) / 4 in
  Py.round 2
    (Py.sum [completeness_score; consistency_score; findings_score] / 3).

(** [synthesize]; [None] stands for an exception escaping the call. *)
Definition synthesize (a : AgentAnalyses) : option (SynthesisResult Intervention) :=
  let total_footprint := _calculate_total_footprint a in
  let syn := _identify_synergies a in
  let actions := _prioritize_interventions a syn in
  match _analyze_potential_impact actions with
  | None => None
  | Some impact_analysis =>
      Some (mkSynthesisResult agent_id total_footprint
              (_get_domain_breakdown a) syn actions impact_analysis
              (_create_integrated_plan actions syn)
              (_calculate_eco_score a total_footprint)
              (_calculate_synthesis_confidence a))
  end.
End Confidence.

(** The synthetic intervention of the home-transport synergy. *)
Definition ev_solar_action : Intervention := of_synergy ev_solar_synergy.

(** The dictionary has an ["action"] key. *)
Definition has_action (i : Intervention) : Prop := action i <> None.
End Synthesizer.

(** ** The store of intervention dictionaries *)

Module Store.
(** Equality of two intervention dictionaries ([==] on [dict]). *)
Definition opt_eqb {A} (eqb : A -> A -> bool) (x y : option A) : bool :=
  match x, y with
  | Some a, Some b => eqb a b
  | None, None => true
  | _, _ => false
  end.

Fixpoint list_eqb {A} (eqb : A -> A -> bool) (x y : list A) : bool :=
  match x, y with
  | [], [] => true
  | a :: x', b :: y' => eqb a b && list_eqb eqb x' y'
  | _, _ => false
  end.

Definition dict_eqb (a b : Intervention) : bool :=
  opt_eqb String.eqb (domain a) (domain b)
  && opt_eqb String.eqb (action a) (action b)
  && opt_eqb String.eqb (impact a) (impact b)
  && opt_eqb String.eqb (priority a) (priority b)
  && opt_eqb String.eqb (co2_reduction a) (co2_reduction b)
  && opt_eqb String.eqb (cost_impact a) (cost_impact b)
  && opt_eqb String.eqb (feasibility a) (feasibility b)
  && opt_eqb String.eqb (urgency a) (urgency b)
  && opt_eqb Qeq_bool (synergy_multiplier a) (synergy_multiplier b)
  && opt_eqb (list_eqb String.eqb) (implementation_tips a) (implementation_tips b)
  && opt_eqb (list_eqb String.eqb) (success_criteria a) (success_criteria b)
  && opt_eqb String.eqb (timeline a) (timeline b)
  && opt_eqb (list_eqb String.eqb) (resources_needed a) (resources_needed b).

(** References are natural numbers; a plan holds references. *)
Definition deref (h : gmap nat Intervention) (l : nat) : Intervention :=
  get (h !! l) empty_intervention.

Definition view (h : gmap nat Intervention) (refs : list nat) : list Intervention :=
  map (deref h) refs.

(** A new dictionary object. *)
Definition alloc (h : gmap nat Intervention) (v : Intervention)
  : gmap nat Intervention * nat :=
  let l := fresh (dom h) in (<[l := v]> h, l).

Fixpoint alloc_all (h : gmap nat Intervention) (vs : list Intervention)
  : gmap nat Intervention * list nat :=
  match vs with
  | [] => (h, [])
  | v :: r =>
      let '(h1, l) := alloc h v in
      let '(h2, ls) := alloc_all h1 r in
      (h2, l :: ls)
  end.

(** [x in refs]: some element is the same object or an equal dictionary. *)
Definition mem (h : gmap nat Intervention) (x : nat) (refs : list nat) : bool :=
  existsb (fun t => Nat.eqb x t || dict_eqb (deref h x) (deref h t)) refs.

(** A dictionary without its ["implementation_tips"] annotation. *)
Definition strip_tips (a : Intervention) : Intervention :=
  mkIntervention (domain a) (action a) (impact a) (priority a) (co2_reduction a)
    (cost_impact a) (feasibility a) (urgency a) (synergy_multiplier a)
    None (success_criteria a) (timeline a) (resources_needed a).

Definition same_core (a b : Intervention) : Prop := strip_tips a = strip_tips b.

(** Every reference of [refs] points to a dictionary of the store. *)
Definition live (h : gmap nat Intervention) (refs : list nat) : Prop :=
  forall l, In l refs -> h !! l <> None.

(** From [h] to [h'] no dictionary disappears, and a dictionary changes
    at most in its ["implementation_tips"] annotation. *)
Definition preserved (h h' : gmap nat Intervention) : Prop :=
  forall l v, h !! l = Some v ->
              exists v', h' !! l = Some v' /\ strip_tips v' = strip_tips v.
End Store.

(** ** Refinement loop ([agents/refiner_loop.py]) *)

Module Refiner.
Import Store.
Local Open Scope Q_scope.

Record QualityAssessment := mkQuality {
  feasibility_score : Q;
  impact_score : Q;
  cost_effectiveness : Q;
  implementation_clarity : Q;
  user_alignment : Q
}.

Record Opportunity := mkOpportunity {
  opp_type : string;
  opp_description : string;
  target_actions : list nat;
  refinement_strategy : string
}.

Record MetricImprovement := mkMetric {
  original : Q;
  refined : Q;
  improvement : Q;
  improved : bool
}.

Record ImprovementValidation := mkValidation {
  metric_improvements : list (string * MetricImprovement);
  overall_improvement : Q;
  validation_passed : bool;
  significant_improvement : bool
}.

Record RefinementRecord := mkRefinement {
  iteration : nat;
  quality_assessment : QualityAssessment;
  refinement_opportunities : list Opportunity;
  refined_plan : SynthesisResult nat;
  improvement_validation : ImprovementValidation;
  learning_insights : list string;
  quality_score : Q;
  refinement_confidence : Q
}.

(** [len(l)] and [max(len(l), 1)] as numbers. *)
Definition count {A} (l : list A) : Q := inject_Z (Z.of_nat (length l)).
Definition count1 {A} (l : list A) : Q := inject_Z (Z.of_nat (Nat.max (length l) 1)).

Definition feasibility_value (a : Intervention) : Q :=
  let f := get (feasibility a) "medium" in
  if String.eqb f "high" then 1 else if String.eqb f "medium" then 0.6
  else if String.eqb f "low" then 0.3 else 0.6.

Definition is_cost_effective (a : Intervention) : bool :=
  let c := Py.lower (get (cost_impact a) "") in
  Py.contains "savings" c || Py.contains "low" c.

Definition is_clear (a : Intervention) : bool :=
  (20 <? Py.len (get (action a) ""))%nat.

Definition is_balanced (a : Intervention) : bool :=
  Store.opt_eqb String.eqb (feasibility a) (Some "high")
  && negb (Store.opt_eqb String.eqb (urgency a) (Some "low")).

(** [_assess_plan_quality] on the dictionaries of the plan. *)
Definition assess (acts : list Intervention) : QualityAssessment :=
  match acts with
  | [] => mkQuality 0 0 0 0 0
  | _ :: _ =>
      mkQuality
        (Py.sum (map feasibility_value acts) / count acts)
        (Py.min 1 (count (List.filter Synthesizer.mentions_high acts) / count1 acts))
        (count (List.filter is_cost_effective acts) / count1 acts)
        (count (List.filter is_clear acts) / count1 acts)
        (count (List.filter is_balanced acts) / count1 acts)
  end.

Definition _assess_plan_quality (h : gmap nat Intervention)
    (plan : SynthesisResult nat) : QualityAssessment :=
  assess (view h (prioritized_actions plan)).

Definition _find_low_feasibility_actions h (s : SynthesisResult nat) : list nat :=
  List.filter (fun l => Store.opt_eqb String.eqb (feasibility (deref h l)) (Some "low"))
    (prioritized_actions s).

Definition _find_high_cost_actions h (s : SynthesisResult nat) : list nat :=
  List.filter (fun l => Py.contains "high" (Py.lower (get (cost_impact (deref h l)) "")))
    (prioritized_actions s).

Fixpoint has_digit (s : string) : bool :=
  match s with
  | EmptyString => false
  | String c r => Py.is_digit c || has_digit r
  end.

Definition _find_low_impact_actions h (s : SynthesisResult nat) : list nat :=
  List.filter (fun l => negb (has_digit (get (co2_reduction (deref h l)) "")))
    (prioritized_actions s).

(** [issue_counts[k] = issue_counts.get(k, 0) + 1], keys in insertion
    order. *)
Fixpoint bump (k : string) (counts : list (string * nat)) : list (string * nat) :=
  match counts with
  | [] => [(k, 1%nat)]
  | (k', n) :: r =>
      if String.eqb k' k then (k', S n) :: r else (k', n) :: bump k r
  end.

Definition _identify_recurring_issues (previous : list RefinementRecord) : list string :=
  let issue_counts :=
    fold_left (fun c r =>
                 fold_left (fun c o => bump (opp_type o) c) (refinement_opportunities r) c)
      previous [] in
  map fst (List.filter (fun kc => (1 <? snd kc)%nat) issue_counts).

Definition _identify_refinement_opportunities h (s : SynthesisResult nat)
    (previous : list RefinementRecord) (q : QualityAssessment) : list Opportunity :=
  (if Py.ltb (feasibility_score q) 0.7
   then [mkOpportunity "feasibility_improvement"
           "Increase feasibility by breaking down complex actions"
           (_find_low_feasibility_actions h s) "decomposition_and_phasing"]
   else [])
  ++ (if Py.ltb (cost_effectiveness q) 0.6
      then [mkOpportunity "cost_optimization"
              "Prioritize cost-effective interventions"
              (_find_high_cost_actions h s) "cost_benefit_reordering"]
      else [])
  ++ (if Py.ltb (implementation_clarity q) 0.8
      then [mkOpportunity "sequencing_optimization"
              "Improve implementation sequencing and dependencies"
              (prioritized_actions s) "dependency_analysis"]
      else [])
  ++ (if Py.ltb (impact_score q) 0.5
      then [mkOpportunity "impact_maximization"
              "Focus on highest-impact interventions first"
              (_find_low_impact_actions h s) "impact_prioritization"]
      else [])
  ++ map (fun issue =>
            mkOpportunity "recurring_issue_resolution"
              (String.append "Address recurring issue: " issue) [] "adaptive_learning")
       (_identify_recurring_issues previous).

(** [{**a, "action": text, "feasibility": f}] *)
Definition derive (a : Intervention) (text f : string) : Intervention :=
  mkIntervention (domain a) (Some text) (impact a) (priority a) (co2_reduction a)
    (cost_impact a) (Some f) (urgency a) (synergy_multiplier a)
    (implementation_tips a) (success_criteria a) (timeline a) (resources_needed a).

Definition _decompose_action (a : Intervention) : list Intervention :=
  let main_action := get (action a) "" in
  if Py.contains "solar panels" (Py.lower main_action) then
    [derive a "Get solar panel quotes and assessments" "high";
     derive a "Apply for solar installation permits" "high";
     derive a "Install solar panel system" "medium"]
  else if Py.contains "electric vehicle" (Py.lower main_action) then
    [derive a "Research EV models and test drive" "high";
     derive a "Install home charging station" "medium";
     derive a "Purchase electric vehicle" "medium"]
  else
    [derive a (String.append "Plan: " main_action) "high";
     derive a (String.append "Execute: " main_action) (get (feasibility a) "medium")].

(** The loop of [_apply_decomposition_refinement]: sub-actions are new
    dictionaries, the other actions are kept by reference. *)
Fixpoint decompose_loop (h : gmap nat Intervention) (targets acts : list nat)
  : gmap nat Intervention * list nat :=
  match acts with
  | [] => (h, [])
  | l :: r =>
      if Store.mem h l targets then
        let '(h1, subs) := alloc_all h (_decompose_action (deref h l)) in
        let '(h2, rest) := decompose_loop h1 targets r in
        (h2, subs ++ rest)
      else
        let '(h2, rest) := decompose_loop h targets r in
        (h2, l :: rest)
  end.

Definition _apply_decomposition_refinement h (plan : SynthesisResult nat)
    (o : Opportunity) : gmap nat Intervention * SynthesisResult nat :=
  let '(h', refined_actions) :=
    decompose_loop h (target_actions o) (prioritized_actions plan) in
  (h', with_actions plan refined_actions).

Definition cost_score (a : Intervention) : Q :=
  let cost := Py.lower (get (cost_impact a) "medium") in
  if Py.contains "low" cost then 3
  else if Py.contains "medium" cost then 2
  else if Py.contains "high" cost then 1
  else if Py.contains "savings" cost then 4
  else 2.

Definition cost_effectiveness_score (a : Intervention) : Q :=
  cost_score a * Py.last_number_or 1 (get (co2_reduction a) "0.5").

Definition _apply_cost_optimization_refinement (h : gmap nat Intervention)
    (plan : SynthesisResult nat) (o : Opportunity) : SynthesisResult nat :=
  with_actions plan
    (Py.sorted_desc (fun l => cost_effectiveness_score (deref h l))
       (prioritized_actions plan)).

Definition action_mentions (kws : list string) (a : Intervention) : bool :=
  Py.any_in kws (Py.lower (get (action a) "")).

Definition foundation_keywords := ["insulation"; "led"; "thermostat"; "bike"; "walk"].
Definition major_keywords := ["solar"; "electric vehicle"; "heat pump"; "ev"].
Definition lifestyle_keywords := ["meat"; "diet"; "shopping"; "local"; "second"].

Definition _apply_sequencing_refinement (h : gmap nat Intervention)
    (plan : SynthesisResult nat) (o : Opportunity) : SynthesisResult nat :=
  let actions := prioritized_actions plan in
  let foundation_actions :=
    List.filter (fun l => action_mentions foundation_keywords (deref h l)) actions in
  let major_actions :=
    List.filter (fun l => action_mentions major_keywords (deref h l)) actions in
  let lifestyle_actions :=
    List.filter (fun l => action_mentions lifestyle_keywords (deref h l)) actions in
  let other_actions :=
    List.filter (fun l => negb (Store.mem h l
                                  (foundation_actions ++ major_actions ++ lifestyle_actions)))
      actions in
  with_actions plan
    (foundation_actions ++ major_actions ++ lifestyle_actions ++ other_actions).

Definition impact_score_of (a : Intervention) : Q :=
  Py.last_number_or 0.5 (get (co2_reduction a) "0.5").

Definition _apply_impact_refinement (h : gmap nat Intervention)
    (plan : SynthesisResult nat) (o : Opportunity) : SynthesisResult nat :=
  with_actions plan
    (firstn 6 (Py.sorted_desc (fun l => impact_score_of (deref h l))
                 (prioritized_actions plan))).

Definition _generate_implementation_tips (a : Intervention) : list string :=
  let action_text := Py.lower (get (action a) "") in
  if Py.contains "solar" action_text then
    ["Get multiple quotes from certified installers";
     "Check local incentives and tax credits";
     "Ensure roof condition is suitable for installation"]
  else if Py.contains "electric" action_text then
    ["Test drive multiple EV models";
     "Plan charging infrastructure first";
     "Consider total cost of ownership"]
  else if Py.contains "diet" action_text || Py.contains "meat" action_text then
    ["Start with one plant-based day per week";
     "Find tasty plant-based recipes";
     "Ensure nutritional balance"]
  else
    ["Start with small, manageable steps";
     "Track progress regularly";
     "Celebrate small wins"].

(** [a["implementation_tips"] = tips], in place. *)
Definition set_tips (a : Intervention) (tips : list string) : Intervention :=
  mkIntervention (domain a) (action a) (impact a) (priority a) (co2_reduction a)
    (cost_impact a) (feasibility a) (urgency a) (synergy_multiplier a)
    (Some tips) (success_criteria a) (timeline a) (resources_needed a).

(** One turn of the loop of [_apply_learning_refinement]: the dictionary
    behind the reference is updated in the store. *)
Definition annotate (h : gmap nat Intervention) (l : nat) : gmap nat Intervention :=
  let a := deref h l in
  if truthy_list (implementation_tips a) then h
  else <[l := set_tips a (_generate_implementation_tips a)]> h.

Definition _apply_learning_refinement (h : gmap nat Intervention)
    (plan : SynthesisResult nat) (o : Opportunity)
  : gmap nat Intervention * SynthesisResult nat :=
  (fold_left annotate (prioritized_actions plan) h,
   with_actions plan (prioritized_actions plan)).

(** One turn of the loop of [_apply_refinements]. *)
Definition apply_one (st : gmap nat Intervention * SynthesisResult nat)
    (o : Opportunity) : gmap nat Intervention * SynthesisResult nat :=
  let '(h, plan) := st in
  let strategy := refinement_strategy o in
  if String.eqb strategy "decomposition_and_phasing" then
    _apply_decomposition_refinement h plan o
  else if String.eqb strategy "cost_benefit_reordering" then
    (h, _apply_cost_optimization_refinement h plan o)
  else if String.eqb strategy "dependency_analysis" then
    (h, _apply_sequencing_refinement h plan o)
  else if String.eqb strategy "impact_prioritization" then
    (h, _apply_impact_refinement h plan o)
  else if String.eqb strategy "adaptive_learning" then
    _apply_learning_refinement h plan o
  else (h, plan).

(** [refined_plan = synthesis.copy()] shares every intervention
    dictionary with [synthesis]. *)
Definition _apply_refinements (h : gmap nat Intervention)
    (synthesis : SynthesisResult nat) (opps : list Opportunity)
  : gmap nat Intervention * SynthesisResult nat :=
  fold_left apply_one opps (h, synthesis).

(** [quality.items()], in insertion order. *)
Definition metrics (q : QualityAssessment) : list (string * Q) :=
  [("feasibility_score", feasibility_score q);
   ("impact_score", impact_score q);
   ("cost_effectiveness", cost_effectiveness q);
   ("implementation_clarity", implementation_clarity q);
   ("user_alignment", user_alignment q)].

Fixpoint metric_get (m : string) (l : list (string * Q)) (dflt : Q) : Q :=
  match l with
  | [] => dflt
  | (k, v) :: r => if String.eqb k m then v else metric_get m r dflt
  end.

Definition _validate_improvements (h : gmap nat Intervention)
    (original_plan refined_plan : SynthesisResult nat) : ImprovementValidation :=
  let original_quality := metrics (_assess_plan_quality h original_plan) in
  let refined_quality := metrics (_assess_plan_quality h refined_plan) in
  let improvements :=
    map (fun kv =>
           let original_score := metric_get (fst kv) original_quality 0 in
           let delta := snd kv - original_score in
           (fst kv, mkMetric original_score (snd kv) delta (Py.ltb 0 delta)))
      refined_quality in
  let overall :=
    Py.sum (map (fun imp => improvement (snd imp)) improvements) / count improvements in
  mkValidation improvements overall (Py.ltb 0 overall) (Py.ltb 0.1 overall).

(** [_extract_learning_insights(previous_refinements, refined_plan)].
    The second argument is the refined plan, a copy of the synthesis
    dictionary: it has no ["improvement_validation"] and no
    ["quality_score"] key, so both reads yield their defaults (0 and 0.5)
    and only the trend over the history can add an insight. *)
Definition _extract_learning_insights (previous : list RefinementRecord)
    (current : SynthesisResult nat) : list string :=
  if (2 <=? length previous)%nat then
    let recent :=
      map (fun r => overall_improvement (improvement_validation r))
        (skipn (length previous - 2) previous) in
    if forallb (fun i => Py.ltb 0 i) recent then
      ["Consistent improvement pattern - refinement strategy is effective"]
    else if forallb (fun i => Py.leb i 0) recent then
      ["Diminishing returns - consider alternative refinement approaches"]
    else []
  else [].

Definition _calculate_quality_score (h : gmap nat Intervention)
    (plan : SynthesisResult nat) : Q :=
  let q := _assess_plan_quality h plan in
  Py.round 3
    (Py.sum [feasibility_score q * 0.25; impact_score q * 0.30;
             cost_effectiveness q * 0.20; implementation_clarity q * 0.15;
             user_alignment q * 0.10]).

Definition _calculate_refinement_confidence (v : ImprovementValidation) : Q :=
  if negb (validation_passed v) then 0.3
  else if Py.ltb 0.2 (overall_improvement v) then 0.9
  else if Py.ltb 0.1 (overall_improvement v) then 0.7
  else if Py.ltb 0 (overall_improvement v) then 0.5
  else 0.3.

(** [refine_plan]: the store after the call and the returned record. *)
Definition refine_plan (h : gmap nat Intervention) (synthesis : SynthesisResult nat)
    (previous_refinements : list RefinementRecord)
  : gmap nat Intervention * RefinementRecord :=
  let iteration_number := (length previous_refinements + 1)%nat in
  let quality := _assess_plan_quality h synthesis in
  let opportunities :=
    _identify_refinement_opportunities h synthesis previous_refinements quality in
  let '(h', refined) := _apply_refinements h synthesis opportunities in
  let validation := _validate_improvements h' synthesis refined in
  let insights := _extract_learning_insights previous_refinements refined in
  (h', mkRefinement iteration_number quality opportunities refined validation
         insights (_calculate_quality_score h' refined)
         (_calculate_refinement_confidence validation)).
End Refiner.

(** ** Evaluator ([agents/evaluator.py]) *)

Module Evaluator.
Import Store.
Local Open Scope Q_scope.

Record Characteristics := mkCharacteristics {
  luxury_oriented : bool;
  tech_savvy : bool;
  environmentally_conscious : bool;
  budget_conscious : bool;
  convenience_focused : bool
}.

Definition _extract_user_characteristics (user_input : string) : Characteristics :=
  let text := Py.lower user_input in
  mkCharacteristics
    (Py.any_in ["luxury"; "expensive"; "premium"; "high-end"] text)
    (Py.any_in ["tech"; "smart"; "app"; "digital"] text)
    (Py.any_in ["eco"; "green"; "sustainable"; "environment"] text)
    (Py.any_in ["cheap"; "affordable"; "budget"; "save money"] text)
    (Py.any_in ["convenient"; "easy"; "simple"; "quick"] text).

(** The points one action earns in the loop of
    [_calculate_alignment_score]: one per satisfied rule. *)
Definition alignment_points_of (c : Characteristics) (a : Intervention) : nat :=
  let cost := Py.lower (get (cost_impact a) "") in
  let text := Py.lower (get (action a) "") in
  ((if budget_conscious c && (Py.contains "savings" cost || Py.contains "low" cost)
    then 1 else 0)
   + (if convenience_focused c && Store.opt_eqb String.eqb (feasibility a) (Some "high")
      then 1 else 0)
   + (if tech_savvy c && Py.any_in ["smart"; "app"; "system"; "tech"] text
      then 1 else 0)
   + (if environmentally_conscious c
         && Py.any_in ["renewable"; "sustainable"; "eco"; "green"] text
      then 1 else 0))%nat.

Definition _calculate_alignment_score (actions : list Intervention)
    (c : Characteristics) : Q :=
  let alignment_points :=
    fold_left (fun p a => (p + alignment_points_of c a)%nat) actions 0%nat in
  let total_points := length actions in
  inject_Z (Z.of_nat alignment_points)
  / inject_Z (Z.of_nat (Nat.max total_points 1)).

Definition _categorize_alignment (score : Q) : string :=
  if Py.leb 0.8 score then "highly_aligned"
  else if Py.leb 0.6 score then "well_aligned"
  else if Py.leb 0.4 score then "moderately_aligned"
  else "poorly_aligned".

(** [_assess_user_alignment(...)["alignment_score"]] *)
Definition alignment_score (actions : list Intervention) (user_input : string) : Q :=
  _calculate_alignment_score actions (_extract_user_characteristics user_input).

(** [_calculate_final_eco_score]; the arguments are its four dictionary
    reads: [synthesis["eco_score"]], [evaluation_results["overall_score"]],
    [user_alignment["alignment_score"]] and
    [evaluation_results["feasibility"]["feasibility_score"]]. *)
Definition alignment_bonus (alignment : Q) : Q := alignment * 15.

Definition _calculate_final_eco_score
    (base_score overall_eval_score alignment feasibility_score : Q) : Q :=
  let eval_bonus := overall_eval_score * 20 in
  let feasibility_bonus := feasibility_score * 10 in
  let final_score :=
    base_score + eval_bonus + alignment_bonus alignment + feasibility_bonus in
  Py.round 1 (Py.min 100 (Py.max 0 final_score)).

Definition _define_action_success_criteria (a : Intervention) : list string :=
  let action_text := Py.lower (get (action a) "") in
  if Py.contains "solar" action_text then
    ["System installed and operational"; "Monthly energy bill reduced";
     "CO2 emissions tracked"]
  else if Py.contains "electric" action_text then
    ["Vehicle purchased/leased"; "Charging setup complete"; "Fuel costs eliminated"]
  else if Py.contains "diet" action_text || Py.contains "meat" action_text then
    ["Meal planning established"; "Plant-based meals tracked";
     "Nutritional balance maintained"]
  else if Py.contains "insulation" action_text || Py.contains "efficiency" action_text then
    ["Installation completed"; "Energy usage monitored"; "Comfort level maintained"]
  else ["Action implemented"; "Progress tracked"; "Results measured"].

Definition _estimate_action_timeline (a : Intervention) : string :=
  let f := get (feasibility a) "medium" in
  let cost := Py.lower (get (cost_impact a) "medium") in
  if String.eqb f "high" && (Py.contains "low" cost || Py.contains "savings" cost)
  then "1-4 weeks"
  else if String.eqb f "high" then "1-3 months"
  else if String.eqb f "medium" then "3-6 months"
  else "6-12 months".

Definition _identify_action_resources (a : Intervention) : list string :=
  let action_text := Py.lower (get (action a) "") in
  if Py.contains "install" action_text then
    ["Professional installer"; "Permits/approvals"; "Financing"]
  else if Py.contains "purchase" action_text || Py.contains "buy" action_text then
    ["Research time"; "Budget allocation"; "Vendor selection"]
  else if Py.contains "reduce" action_text || Py.contains "change" action_text then
    ["Habit tracking app"; "Alternative options research"; "Support system"]
  else ["Planning time"; "Implementation budget"; "Progress tracking"].

(** The three assignments of the loop of [_finalize_action_list]; none of
    them reads a key written by another. *)
Definition finalize (a : Intervention) : Intervention :=
  mkIntervention (domain a) (action a) (impact a) (priority a) (co2_reduction a)
    (cost_impact a) (feasibility a) (urgency a) (synergy_multiplier a)
    (implementation_tips a)
    (Some (_define_action_success_criteria a))
    (Some (_estimate_action_timeline a))
    (Some (_identify_action_resources a)).

Definition _finalize_action_list (h : gmap nat Intervention)
    (plan : SynthesisResult nat) : gmap nat Intervention * list nat :=
  let actions := prioritized_actions plan in
  (fold_left (fun h l => <[l := finalize (deref h l)]> h) actions h,
   firstn 6 actions).

Record Timeline := mkTimeline {
  immediate : list string;
  short_term : list string;
  medium_term : list string;
  long_term : list string
}.

(** [_create_implementation_timeline]; [action["action"]] raises
    [KeyError] on a dictionary without that key ([None] here). *)
Fixpoint _create_implementation_timeline (actions : list Intervention)
  : option Timeline :=
  match actions with
  | [] => Some (mkTimeline [] [] [] [])
  | a :: r =>
      match action a, _create_implementation_timeline r with
      | Some text, Some t =>
          let action_timeline := get (timeline a) "3-6 months" in
          if Py.contains "week" action_timeline || Py.contains "1-4" action_timeline
          then Some (mkTimeline (text :: immediate t) (short_term t) (medium_term t) (long_term t))
          else if Py.contains "1-3 months" action_timeline
          then Some (mkTimeline (immediate t) (text :: short_term t) (medium_term t) (long_term t))
          else if Py.contains "3-6 months" action_timeline
          then Some (mkTimeline (immediate t) (short_term t) (text :: medium_term t) (long_term t))
          else Some (mkTimeline (immediate t) (short_term t) (medium_term t) (text :: long_term t))
      | _, _ => None
      end
  end.

(** [total_co2_reduction] of [_define_expected_outcomes], before it is
    printed with one decimal. *)
Definition _define_expected_outcomes (actions : list Intervention) : Q :=
  fold_left (fun total a => total + Py.last_number_or 0 (get (co2_reduction a) "0.5"))
    actions 0.

Record FinalPlan := mkFinalPlan {
  final_actions : list nat;
  final_timeline : Timeline;
  total_co2_reduction : Q
}.

(** [_generate_final_plan]: the refined plan of the last history entry
    is the base when its quality score exceeds 0.7. *)
Definition base_plan (synthesis : SynthesisResult nat)
    (refinements : list Refiner.RefinementRecord) : SynthesisResult nat :=
  match Py.last_opt refinements with
  | Some r => if Py.ltb 0.7 (Refiner.quality_score r) then Refiner.refined_plan r
              else synthesis
  | None => synthesis
  end.

Definition _generate_final_plan (h : gmap nat Intervention)
    (synthesis : SynthesisResult nat) (refinements : list Refiner.RefinementRecord)
  : gmap nat Intervention * option FinalPlan :=
  let '(h', final) := _finalize_action_list h (base_plan synthesis refinements) in
  (h',
   match _create_implementation_timeline (view h' final) with
   | Some t => Some (mkFinalPlan final t (_define_expected_outcomes (view h' final)))
   | None => None
   end).
End Evaluator.

(** ** Transport estimator ([agents/transport_expert.py]) *)

Module Transport.
Local Open Scope Q_scope.

(** [self.emission_factors.get(vehicle)], kg CO2 per km. *)
Definition emission_factors (vehicle : string) : option Q :=
  if String.eqb vehicle "private_jet" then Some 2.5
  else if String.eqb vehicle "helicopter" then Some 1.8
  else if String.eqb vehicle "luxury_car" then Some 0.35
  else if String.eqb vehicle "suv" then Some 0.25
  else if String.eqb vehicle "sedan" then Some 0.18
  else if String.eqb vehicle "hybrid" then Some 0.12
  else if String.eqb vehicle "electric" then Some 0.05
  else if String.eqb vehicle "motorcycle" then Some 0.15
  else if String.eqb vehicle "bus" then Some 0.08
  else if String.eqb vehicle "train" then Some 0.04
  else if String.eqb vehicle "bike" then Some 0
  else if String.eqb vehicle "walk" then Some 0
  else None.

(** [vehicle_keywords.items()], in the order of the source. *)
Definition vehicle_keywords : list (string * list string) :=
  [("private_jet", ["private jet"; "jet"; "private plane"]);
   ("helicopter", ["helicopter"; "chopper"]);
   ("luxury_car", ["luxury car"; "ferrari"; "lamborghini"; "porsche"; "bentley";
                   "rolls royce"]);
   ("suv", ["suv"; "v8"; "v12"; "truck"; "pickup"]);
   ("hybrid", ["hybrid"; "prius"; "camry hybrid"]);
   ("electric", ["tesla"; "electric car"; "ev"; "electric vehicle"]);
   ("motorcycle", ["motorcycle"; "bike"; "motorbike"]);
   ("sedan", ["car"; "sedan"; "drive"])].

(** The first category one of whose keywords occurs in the text. *)
Fixpoint first_category (table : list (string * list string)) (text dflt : string)
  : string :=
  match table with
  | [] => dflt
  | (name, kws) :: r =>
      if Py.any_in kws text then name else first_category r text dflt
  end.

Fixpoint read_int (acc : Z) (s : string) : Z * string :=
  match s with
  | String c r =>
      if Py.is_digit c then read_int (10 * acc + Py.digit_val c) r else (acc, s)
  | EmptyString => (acc, s)
  end.

Fixpoint skip_spaces (s : string) : string :=
  match s with
  | String c r => if Py.is_space c then skip_spaces r else s
  | EmptyString => s
  end.

(** A match of [(\d+)\s*(km|mile|miles)] starting at the head of [s]:
    the digits and the blanks are taken greedily; the alternative
    [mile] is tried before [miles]. *)
Definition distance_here (s : string) : option (Z * string) :=
  match s with
  | String c _ =>
      if Py.is_digit c then
        let '(n, rest) := read_int 0 s in
        let unit := skip_spaces rest in
        if Py.startswith "km" unit then Some (n, "km")
        else if Py.startswith "mile" unit then Some (n, "mile")
        else None
      else None
  | EmptyString => None
  end.

(** [re.findall(r'(\d+)\s*(km|mile|miles)', text)[0]] when there is a
    match. *)
Fixpoint first_distance (s : string) : option (Z * string) :=
  match distance_here s with
  | Some m => Some m
  | None =>
      match s with
      | String _ r => first_distance r
      | EmptyString => None
      end
  end.

Definition flight_pattern (text : string) : Z * Z :=
  if Py.any_in ["fly"; "flight"; "airplane"; "plane"; "travel"] text then
    if Py.contains "daily" text then (7, 1000)%Z
    else if Py.contains "weekly" text then (1, 2000)%Z
    else if Py.contains "private jet" text then (2, 3000)%Z
    else (0, 0)%Z
  else (0, 0)%Z.

(** The pattern dictionary of the estimator.  [distance] is an [int];
    for the unit "mile" it becomes the float [distance * 1.6].  The
    function is total: the OverflowError of that product for an integer
    beyond the largest double is not modelled. *)
Definition _analyze_transport_patterns (user_input : string) : TransportPatterns :=
  let text := Py.lower user_input in
  let flights := flight_pattern text in
  mkTransportPatterns
    (first_category vehicle_keywords text "sedan")
    (match first_distance text with
     | Some (distance, unit) =>
         if Py.str_in unit ["mile"; "miles"] then inject_Z distance * 1.6
         else inject_Z distance
     | None => 30
     end)
    (fst flights) (snd flights)
    "low" "low"
    (Py.any_in ["luxury"; "private"; "exclusive"; "premium"; "first class"] text).

(** The vehicle component of the footprint, tons CO2 per year. *)
Definition annual_vehicle_emissions (p : TransportPatterns) : Q :=
  let emission_factor := get (emission_factors (primary_vehicle p)) 0.18 in
  let daily_emissions := daily_distance p * emission_factor in
  daily_emissions * 365 / 1000.

Definition annual_flight_emissions (p : TransportPatterns) : Q :=
  let flight_emission_factor :=
    if String.eqb (primary_vehicle p) "private_jet" then 2.5 else 0.25 in
  inject_Z (weekly_flights p) * inject_Z (flight_distance p)
  * flight_emission_factor * 52 / 1000.

Definition _calculate_transport_carbon_footprint (p : TransportPatterns) : Q :=
  Py.round 2 (annual_vehicle_emissions p + annual_flight_emissions p).

Definition vehicle_scores (vehicle : string) : Q :=
  if String.eqb vehicle "walk" then 1 else if String.eqb vehicle "bike" then 1
  else if String.eqb vehicle "electric" then 0.9
  else if String.eqb vehicle "hybrid" then 0.7
  else if String.eqb vehicle "train" then 0.8
  else if String.eqb vehicle "bus" then 0.6
  else if String.eqb vehicle "sedan" then 0.4
  else if String.eqb vehicle "suv" then 0.2
  else if String.eqb vehicle "luxury_car" then 0.1
  else if String.eqb vehicle "private_jet" then 0
  else if String.eqb vehicle "helicopter" then 0
  else 0.4.

Definition _calculate_transport_efficiency (p : TransportPatterns) : Q :=
  let score := vehicle_scores (primary_vehicle p) in
  let score := if Py.ltb 100 (daily_distance p) then score * 0.5
               else if Py.ltb 50 (daily_distance p) then score * 0.7
               else score in
  let score := if (0 <? weekly_flights p)%Z then score * 0.3 else score in
  Py.max 0 (Py.min 1 score).
End Transport.

(** ** Diet estimator ([agents/diet_expert.py]) *)

Module Diet.
Local Open Scope Q_scope.

(** [self.food_emissions[food]], kg CO2 per kg of food, for the foods
    the footprint reads. *)
Definition food_emissions (food : string) : Q :=
  if String.eqb food "beef" then 60
  else if String.eqb food "pork" then 7.2
  else if String.eqb food "chicken" then 6.9
  else if String.eqb food "fish" then 6.1
  else if String.eqb food "milk" then 3.2
  else if String.eqb food "wheat" then 1.4
  else if String.eqb food "vegetables" then 0.4
  else if String.eqb food "fruits" then 0.3
  else 6.

Definition diet_keywords : list (string * list string) :=
  [("vegan", ["vegan"; "plant-based"; "no animal products"]);
   ("vegetarian", ["vegetarian"; "no meat"; "plant diet"]);
   ("pescatarian", ["pescatarian"; "fish only"; "no meat except fish"]);
   ("omnivore", ["meat"; "everything"; "omnivore"])].

Definition meat_keywords : list (string * list string) :=
  [("beef", ["beef"; "steak"; "wagyu"; "hamburger"; "burger"]);
   ("pork", ["pork"; "bacon"; "ham"; "sausage"]);
   ("chicken", ["chicken"; "poultry"; "turkey"]);
   ("lamb", ["lamb"; "mutton"]);
   ("fish", ["fish"; "salmon"; "tuna"; "seafood"])].

Definition frequency_keywords : list (string * list string) :=
  [("daily", ["daily"; "every day"; "each day"]);
   ("weekly", ["weekly"; "few times a week"; "several times"]);
   ("monthly", ["monthly"; "rarely"; "occasionally"])].

Definition _analyze_dietary_patterns (user_input : string) : DietaryPatterns :=
  let text := Py.lower user_input in
  mkDietaryPatterns
    (Transport.first_category diet_keywords text "omnivore")
    (Transport.first_category frequency_keywords text "daily")
    (map fst (List.filter (fun kv => Py.any_in (snd kv) text) meat_keywords))
    "medium" "low"
    (Py.any_in ["local"; "organic"; "farm-to-table"; "sustainable"; "farmers market"] text)
    3
    (Py.any_in ["wagyu"; "caviar"; "truffle"; "premium"; "expensive"; "fine dining"] text).

Definition meatless (p : DietaryPatterns) : bool :=
  Py.str_in (diet_type p) ["vegan"; "vegetarian"; "pescatarian"].

Definition is_vegan (p : DietaryPatterns) : bool := String.eqb (diet_type p) "vegan".

(** [base_consumption[food]], kg per year. *)
Definition base_consumption (p : DietaryPatterns) (food : string) : Q :=
  if String.eqb food "beef" then (if meatless p then 0 else 20)
  else if String.eqb food "pork" then (if meatless p then 0 else 15)
  else if String.eqb food "chicken" then (if meatless p then 0 else 25)
  else if String.eqb food "fish" then (if is_vegan p then 0 else 15)
  else if String.eqb food "dairy" then (if is_vegan p then 0 else 100)
  else if String.eqb food "vegetables" then 150
  else if String.eqb food "fruits" then 80
  else 120.

Definition frequency_multipliers (f : string) : Q :=
  if String.eqb f "daily" then 1.5
  else if String.eqb f "weekly" then 1
  else if String.eqb f "monthly" then 0.3
  else 1.

Definition meat_emissions (p : DietaryPatterns) (food : string) : Q :=
  if Py.str_in food (meat_types p) then
    let consumption := base_consumption p food * frequency_multipliers (meat_frequency p) in
    let consumption :=
      if luxury_foods p && String.eqb food "beef" then consumption * 2 else consumption in
    consumption * food_emissions food
  else 0.

Definition plant_emissions (p : DietaryPatterns) (food : string) : Q :=
  let consumption := base_consumption p food in
  let consumption := if organic_preference p then consumption * 0.8 else consumption in
  consumption * food_emissions food.

Definition _calculate_diet_carbon_footprint (p : DietaryPatterns) : Q :=
  let annual_emissions :=
    fold_left (fun e food => e + meat_emissions p food) ["beef"; "pork"; "chicken"] 0 in
  let annual_emissions :=
    if negb (is_vegan p) then
      let fish_consumption := base_consumption p "fish" in
      let fish_consumption :=
        if Py.str_in "fish" (meat_types p) then fish_consumption * 1.5
        else fish_consumption in
      annual_emissions + fish_consumption * food_emissions "fish"
    else annual_emissions in
  let annual_emissions :=
    if negb (is_vegan p) then
      annual_emissions + base_consumption p "dairy" * food_emissions "milk"
    else annual_emissions in
  let annual_emissions :=
    fold_left (fun e food => e + plant_emissions p food) ["vegetables"; "fruits"]
      annual_emissions in
  let annual_emissions :=
    annual_emissions + base_consumption p "grains" * food_emissions "wheat" in
  Py.round 2 (annual_emissions / 1000).
End Diet.

(** ** Workflow orchestrator ([workflow.py]) *)

Module Workflow.
Local Open Scope Q_scope.

(** How an awaited call ends: with a value, or with an exception of
    class [Exception], kept as its message [str(e)]. *)
Inductive outcome (A : Type) : Type :=
| Returned (a : A)
| Raised (message : string).
Arguments Returned {A}.
Arguments Raised {A}.

Inductive Domain := Home | Transport | Diet | Shopping.

Definition domains : list Domain := [Home; Transport; Diet; Shopping].

Definition name (d : Domain) : string :=
  match d with
  | Home => "home"
  | Transport => "transport"
  | Diet => "diet"
  | Shopping => "shopping"
  end.

Definition recommendation (text co2 prio cost : string) : Intervention :=
  mkIntervention None (Some text) None (Some prio) (Some co2) (Some cost)
    None None None None None None None.

Definition fallback_analysis (id : string) (footprint efficiency : Q)
    (rec : Intervention) : DomainAnalysis :=
  mkDomainAnalysis id (Some footprint) (Some efficiency) (Some [rec])
    None None None None None.

Definition _get_fallback_home_analysis : DomainAnalysis :=
  fallback_analysis "home_expert_fallback" 3.0 0.4
    (recommendation "Install LED lighting" "0.5 tons/year" "high"
       "Low cost, quick savings").

Definition _get_fallback_transport_analysis : DomainAnalysis :=
  fallback_analysis "transport_expert_fallback" 5.5 0.2
    (recommendation "Use public transportation" "2.0 tons/year" "high" "Cost savings").

Definition _get_fallback_diet_analysis : DomainAnalysis :=
  fallback_analysis "diet_expert_fallback" 2.5 0.3
    (recommendation "Reduce meat consumption" "1.0 tons/year" "medium" "Cost savings").

Definition _get_fallback_shopping_analysis : DomainAnalysis :=
  fallback_analysis "shopping_expert_fallback" 1.5 0.4
    (recommendation "Buy second-hand items" "0.3 tons/year" "low" "Cost savings").

Definition fallback (d : Domain) : DomainAnalysis :=
  match d with
  | Home => _get_fallback_home_analysis
  | Transport => _get_fallback_transport_analysis
  | Diet => _get_fallback_diet_analysis
  | Shopping => _get_fallback_shopping_analysis
  end.

(** [results[i] if not isinstance(results[i], Exception) else fallback] *)
Definition settle (d : Domain) (r : outcome DomainAnalysis) : DomainAnalysis :=
  match r with
  | Returned a => a
  | Raised _ => fallback d
  end.

(** The action of the result returned by the [except] clause. *)
Definition led_action : Intervention :=
  mkIntervention (Some "home") (Some "Start with energy-efficient LED lighting")
    None None (Some "0.5 tons/year") (Some "Low cost, immediate savings")
    (Some "high") None None None None None None.

Definition fallback_actions : list Intervention :=
  [mkIntervention (Some "home") (Some "Switch to LED lighting throughout home")
     None None (Some "0.5 tons/year") (Some "Low cost, immediate savings")
     (Some "high") None None None None None None;
   mkIntervention (Some "transport") (Some "Use public transportation for daily commute")
     None None (Some "2.0 tons/year") (Some "Cost savings immediately")
     (Some "high") None None None None None None;
   mkIntervention (Some "diet") (Some "Reduce meat consumption by 50%")
     None None (Some "1.0 tons/year") (Some "Cost savings on groceries")
     (Some "medium") None None None None None None].

(** The dictionaries exchanged with the stages ([Supervisor], [Synthesis],
    [Refinement], [Evaluation]), the reads the orchestrator performs on
    them ([None]: the key is missing) and the awaited stage calls. *)
Class Stages (Supervisor Synthesis Refinement Evaluation : Type) := {
  get_eco_score : Synthesis -> option Q;
  get_synthesis_confidence : Synthesis -> option Q;
  get_total_carbon_footprint : Synthesis -> option Q;
  get_prioritized_actions : Synthesis -> option (list Intervention);
  synthesis_is_empty : Synthesis -> bool;
  get_refined_plan : Refinement -> option Synthesis;
  get_final_eco_score : Evaluation -> option Q;
  get_final_actions : Evaluation -> option (list Intervention);
  evaluation_is_empty : Evaluation -> bool;
  _run_supervisor_analysis : string -> outcome Supervisor;
  run_estimator : Domain -> Supervisor -> outcome DomainAnalysis;
  _run_synthesis : AgentAnalyses -> outcome Synthesis;
  _run_refinement_loop : Synthesis -> list Refinement -> outcome Refinement;
  _run_final_evaluation :
    Synthesis -> list Refinement -> string -> outcome Evaluation
}.

Section Orchestrator.
Context `{stages : Stages Supervisor Synthesis Refinement Evaluation}.

Record WorkflowState := mkState {
  session_id : option string;
  user_input : option string;
  supervisor_analysis : option Supervisor;
  domain_analyses : AgentAnalyses;
  synthesis_result : option Synthesis;
  refinement_history : list Refinement;
  final_evaluation : option Evaluation;
  workflow_complete : bool
}.

(** The dictionary [run_complete_analysis] returns, on the keys the
    three return sites have in common plus the failure tag. *)
Record AnalysisResult := mkResult {
  error : option string;
  partial_results : option WorkflowState;
  eco_score : Q;
  total_carbon_footprint : Q;
  prioritized_actions : list Intervention
}.

(** [asyncio.gather] with [return_exceptions=True], followed by the
    construction of [domain_results]. *)
Definition _run_parallel_domain_analysis (sr : Supervisor) : AgentAnalyses :=
  let results := map (fun d => (d, run_estimator d sr)) domains in
  map (fun dr => (name (fst dr), settle (fst dr) (snd dr))) results.

Definition _should_refine (s : Synthesis) : bool :=
  Py.ltb (get (get_eco_score s) 50) 60
  || Py.ltb (get (get_synthesis_confidence s) 0.5) 0.7.

Definition _get_fallback_results (st : WorkflowState) : AnalysisResult :=
  mkResult (Some "Using fallback results due to workflow failure") None
    25 12.5 fallback_actions.

Definition _compile_final_results (st : WorkflowState) : AnalysisResult :=
  match synthesis_result st, final_evaluation st with
  | Some synthesis, Some evaluation =>
      if synthesis_is_empty synthesis || evaluation_is_empty evaluation
      then _get_fallback_results st
      else
        mkResult None None
          (get (get_final_eco_score evaluation) (get (get_eco_score synthesis) 25))
          (get (get_total_carbon_footprint synthesis) 13.0)
          (get (get_final_actions evaluation)
             (get (get_prioritized_actions synthesis) []))
  | _, _ => _get_fallback_results st
  end.

(** Computations of the [try] block: they read and update
    [self.workflow_state] and may raise. *)
Definition M (A : Type) : Type := WorkflowState -> WorkflowState * outcome A.

Definition ret {A} (a : A) : M A := fun st => (st, Returned a).

Definition bind {A B} (m : M A) (k : A -> M B) : M B :=
  fun st =>
    match m st with
    | (st', Returned a) => k a st'
    | (st', Raised e) => (st', Raised e)
    end.

(** [await stage(...)] *)
Definition await {A} (r : outcome A) : M A := fun st => (st, r).

Definition read {A} (f : WorkflowState -> A) : M A := fun st => (st, Returned (f st)).

Definition update (f : WorkflowState -> WorkflowState) : M unit :=
  fun st => (f st, Returned tt).

Notation "x <- m ;; k" := (bind m (fun x => k))
  (at level 100, m at next level, right associativity).
Notation "m ;;; k" := (bind m (fun _ => k))
  (at level 100, right associativity).

Definition set_session (sid input : string) (st : WorkflowState) :=
  mkState (Some sid) (Some input) (supervisor_analysis st) (domain_analyses st)
    (synthesis_result st) (refinement_history st) (final_evaluation st)
    (workflow_complete st).

Definition set_supervisor (sr : Supervisor) (st : WorkflowState) :=
  mkState (session_id st) (user_input st) (Some sr) (domain_analyses st)
    (synthesis_result st) (refinement_history st) (final_evaluation st)
    (workflow_complete st).

Definition set_domains (dr : AgentAnalyses) (st : WorkflowState) :=
  mkState (session_id st) (user_input st) (supervisor_analysis st) dr
    (synthesis_result st) (refinement_history st) (final_evaluation st)
    (workflow_complete st).

Definition set_synthesis (s : Synthesis) (st : WorkflowState) :=
  mkState (session_id st) (user_input st) (supervisor_analysis st)
    (domain_analyses st) (Some s) (refinement_history st) (final_evaluation st)
    (workflow_complete st).

Definition append_refinement (r : Refinement) (st : WorkflowState) :=
  mkState (session_id st) (user_input st) (supervisor_analysis st)
    (domain_analyses st) (synthesis_result st) (refinement_history st ++ [r])
    (final_evaluation st) (workflow_complete st).

Definition set_evaluation (ev : Evaluation) (st : WorkflowState) :=
  mkState (session_id st) (user_input st) (supervisor_analysis st)
    (domain_analyses st) (synthesis_result st) (refinement_history st)
    (Some ev) true.

(** Step 4 of the [try] block: the plan handed to the evaluation. *)
Definition refinement_step (synthesis : Synthesis) : M Synthesis :=
  if _should_refine synthesis then
    history <- read refinement_history ;;
    refinement <- await (_run_refinement_loop synthesis history) ;;
    update (append_refinement refinement) ;;;
    ret (get (get_refined_plan refinement) synthesis)
  else ret synthesis.

(** The body of the [try] block. *)
Definition try_block (input : string) : M AnalysisResult :=
  sr <- await (_run_supervisor_analysis input) ;;
  update (set_supervisor sr) ;;;
  let domain_results := _run_parallel_domain_analysis sr in
  update (set_domains domain_results) ;;;
  synthesis <- await (_run_synthesis domain_results) ;;
  update (set_synthesis synthesis) ;;;
  plan <- refinement_step synthesis ;;
  history <- read refinement_history ;;
  ev <- await (_run_final_evaluation plan history input) ;;
  update (set_evaluation ev) ;;;
  read _compile_final_results.

(** The result built by the [except Exception as e] clause. *)
Definition failure_result (e : string) (st : WorkflowState) : AnalysisResult :=
  mkResult (Some (String.append "Workflow failed: " e)) (Some st)
    25 12.5 [led_action].

(** [run_complete_analysis]; [sid] is the session identifier derived
    from the clock.  The workflow state after the call is returned
    with the result. *)
Definition run_complete_analysis (st : WorkflowState) (sid input : string)
  : WorkflowState * AnalysisResult :=
  match try_block input (set_session sid input st) with
  | (st', Returned result) => (st', result)
  | (st', Raised e) => (st', failure_result e st')
  end.

(** Some stage of the run on [input] from state [st] raises [e]. *)
Inductive stage_raises (st : WorkflowState) (input e : string) : Prop :=
| supervisor_raises :
    _run_supervisor_analysis input = Raised e ->
    stage_raises st input e
| synthesis_raises sr :
    _run_supervisor_analysis input = Returned sr ->
    _run_synthesis (_run_parallel_domain_analysis sr) = Raised e ->
    stage_raises st input e
| refinement_raises sr s :
    _run_supervisor_analysis input = Returned sr ->
    _run_synthesis (_run_parallel_domain_analysis sr) = Returned s ->
    _should_refine s = true ->
    _run_refinement_loop s (refinement_history st) = Raised e ->
    stage_raises st input e
| evaluation_raises_after_refinement sr s r :
    _run_supervisor_analysis input = Returned sr ->
    _run_synthesis (_run_parallel_domain_analysis sr) = Returned s ->
    _should_refine s = true ->
    _run_refinement_loop s (refinement_history st) = Returned r ->
    _run_final_evaluation (get (get_refined_plan r) s)
      (refinement_history st ++ [r]) input = Raised e ->
    stage_raises st input e
| evaluation_raises sr s :
    _run_supervisor_analysis input = Returned sr ->
    _run_synthesis (_run_parallel_domain_analysis sr) = Returned s ->
    _should_refine s = false ->
    _run_final_evaluation s (refinement_history st) input = Raised e ->
    stage_raises st input e.
End Orchestrator.
End Workflow.

(** ** The specification's own formulas *)

Module Spec.
Local Open Scope Q_scope.

(** [min(100, max(0, x))] *)
Definition clamp (x : Q) : Q := Py.min 100 (Py.max 0 x).

(** EcoScore in the words of the specification:
    [0.6 * weighted_domain_efficiency_avg * 100 + 0.4 * footprint_score],
    clamped to the interval from 0 to 100; the arguments are the
    efficiency scores of the four domains and the total footprint. *)
Definition weighted_domain_efficiency_avg (home transport diet shopping : Q) : Q :=
  0.25 * home + 0.35 * transport + 0.25 * diet + 0.15 * shopping.

Definition footprint_score (total_footprint : Q) : Q :=
  Py.max 0 (100 - total_footprint / 4.8 * 50).

Definition eco_score (home transport diet shopping total_footprint : Q) : Q :=
  clamp (0.6 * (weighted_domain_efficiency_avg home transport diet shopping * 100)
         + 0.4 * footprint_score total_footprint).

(** The largest number occurring in a text, in the words of the
    specification. *)
Definition largest_number (text : string) : option Q :=
  match map Py.to_float (Py.findall_numbers text) with
  | [] => None
  | x :: r => Some (fold_left Py.max r x)
  end.

Fixpoint nondecreasing (l : list Q) : bool :=
  match l with
  | x :: (y :: _) as r => Py.leb x y && nondecreasing r
  | _ => true
  end.

(** A text "encoding a numeric range", in the words of the data model:
    it holds a number, and its numbers, read left to right, never
    decrease ("0.5 tons/year", "2-4 tons/year"). *)
Definition encodes_range (text : string) : bool :=
  match map Py.to_float (Py.findall_numbers text) with
  | [] => false
  | l => nondecreasing l
  end.
End Spec.

(** ** Concrete requests *)

Module Scenario.
Import Workflow.
Local Open Scope Q_scope.

(** The domain map of the orchestrator, keys in its insertion order. *)
Definition four_domains (home transport diet shopping : DomainAnalysis) : AgentAnalyses :=
  [("home", home); ("transport", transport); ("diet", diet); ("shopping", shopping)].

Definition efficiency (an : DomainAnalysis) : Q := get (efficiency_score an) 0.5.

Definition analysis (id : string) (footprint eff : Q) : DomainAnalysis :=
  mkDomainAnalysis id (Some footprint) (Some eff) (Some []) (Some []) None None None None.

(** A household with a small footprint. *)
Definition light_household : AgentAnalyses :=
  four_domains (analysis "home_guardian_001" 1.2 0.5)
    (analysis "transport_racer_002" 1.64 0.4)
    (analysis "diet_shaman_003" 0.25 0.9)
    (analysis "shopping_ninja_004" 0.6 0.5).

(** The four fallback analyses: no pattern is recorded, so the home is
    read as not renewable and the vehicle as a sedan. *)
Definition fallback_household : AgentAnalyses :=
  map (fun d => (name d, fallback d)) domains.

(** A cost-saving, highly feasible action. *)
Definition public_transport : Intervention :=
  mkIntervention (Some "transport") (Some "Use public transportation") (Some "")
    (Some "high") (Some "2.0 tons/year") (Some "Cost savings") (Some "high")
    (Some "critical") None None None None None.

Definition thrifty_request : string := "I want cheap and easy options".

(** An action whose reduction text ends with a smaller number; no agent
    writes such a text. *)
Definition phased_retrofit : Intervention :=
  mkIntervention (Some "home") (Some "Retrofit the heating system") (Some "")
    (Some "high") (Some "5 tons/year within 2 years") (Some "Medium") (Some "medium")
    (Some "high") None None None None None.

Definition cyclist_text : string := "I am vegan, I bike to work in Tokyo".

(** A plan of one action, and a history in which the same opportunity
    type occurs twice. *)
Definition led_lighting : Intervention :=
  mkIntervention (Some "home") (Some "Install LED lighting") (Some "")
    (Some "high") (Some "0.5 tons/year") (Some "Low cost, quick savings") (Some "high")
    (Some "high") None None None None None.

Definition one_action_store : gmap nat Intervention := <[0%nat := led_lighting]> ∅.

Definition one_action_plan : SynthesisResult nat :=
  mkSynthesisResult "synthesizer_master_005" 3 [] [] [0%nat]
    (mkImpactAnalysis 0.5 ∅ [0%nat] []) (mkIntegratedPlan [0%nat] [] [] []) 25 0.5.

Definition first_pass : Refiner.RefinementRecord :=
  snd (Refiner.refine_plan one_action_store one_action_plan []).

Definition repeated_history : list Refiner.RefinementRecord := [first_pass; first_pass].

(** Stages of a run in which the transport estimator and the synthesis
    raise; the other estimators return an analysis. *)
Definition broken_stages : Stages unit unit unit unit := {|
  get_eco_score := fun _ => None;
  get_synthesis_confidence := fun _ => None;
  get_total_carbon_footprint := fun _ => None;
  get_prioritized_actions := fun _ => None;
  synthesis_is_empty := fun _ => false;
  get_refined_plan := fun _ => None;
  get_final_eco_score := fun _ => None;
  get_final_actions := fun _ => None;
  evaluation_is_empty := fun _ => false;
  _run_supervisor_analysis := fun _ => Returned tt;
  run_estimator := fun d _ =>
    match d with
    | Transport => Raised "'user_input'"
    | _ => Returned (analysis "home_guardian_001" 1.2 0.5)
    end;
  _run_synthesis := fun _ => Raised "synthesis unavailable";
  _run_refinement_loop := fun _ _ => Returned tt;
  _run_final_evaluation := fun _ _ _ => Returned tt
|}.

Definition fresh_state : WorkflowState (Supervisor:=unit) (Synthesis:=unit)
                           (Refinement:=unit) (Evaluation:=unit) :=
  mkState None None None [] None [] None false.
End Scenario.

(** ** Evaluator: multi-criterion evaluation ([agents/evaluator.py]) *)

Module EvaluatorScoring.
Local Open Scope Q_scope.

(** [len(l)] and [max(len(l), 1)] as numbers. *)
Definition size {A} (l : list A) : Q := inject_Z (Z.of_nat (length l)).
Definition size1 {A} (l : list A) : Q := inject_Z (Z.of_nat (Nat.max (length l) 1)).
Definition number (n : nat) : Q := inject_Z (Z.of_nat n).

(** [str(n)] *)
Definition str_of_nat (n : nat) : string := NilEmpty.string_of_uint (Nat.to_uint n).

(** One criterion of the evaluation: its numeric entries by key, and
    its category label. *)
Record Criterion := mkCriterion {
  numbers : list (string * Q);
  distribution : list (string * nat);
  category : string;
  notes : list string
}.

(** [d.get(key, dflt)] on the numeric entries. *)
Fixpoint entry (key : string) (l : list (string * Q)) (dflt : Q) : Q :=
  match l with
  | [] => dflt
  | (k, v) :: r => if String.eqb k key then v else entry key r dflt
  end.

Definition _categorize_impact (reduction_percentage : Q) : string :=
  if Py.leb 70 reduction_percentage then "transformational"
  else if Py.leb 50 reduction_percentage then "substantial"
  else if Py.leb 30 reduction_percentage then "significant"
  else if Py.leb 15 reduction_percentage then "moderate"
  else "minimal".

(** [_compare_to_global_average]: the two percentages and the status. *)
Definition _compare_to_global_average (footprint : Q) : Q * Q * string :=
  let global_average := 4.8 in
  let paris_target := 2.3 in
  (Py.round 1 ((footprint / global_average - 1) * 100),
   Py.round 1 ((footprint / paris_target - 1) * 100),
   if Py.leb footprint paris_target then "aligned" else "above_target").

Definition _evaluate_carbon_impact {A} (synthesis : SynthesisResult A) : Criterion :=
  let total_footprint := total_carbon_footprint synthesis in
  let potential_reduction := total_potential_reduction (impact_analysis synthesis) in
  let reduction_percentage := potential_reduction / Py.max total_footprint 1 * 100 in
  let impact_score := Py.min 1 (reduction_percentage / 70) in
  let '(vs_global, vs_paris, status) := _compare_to_global_average total_footprint in
  mkCriterion
    [("current_footprint", total_footprint);
     ("potential_reduction", potential_reduction);
     ("reduction_percentage", Py.round 1 reduction_percentage);
     ("impact_score", Py.round 2 impact_score);
     ("vs_global_average", vs_global);
     ("vs_paris_target", vs_paris)]
    []
    (_categorize_impact reduction_percentage)
    [status].

(** The loop [feasibility_counts[feasibility] += 1]: counts of high,
    medium and low; a label outside the three keys raises [KeyError]
    ([None] here). *)
Fixpoint feasibility_counts (actions : list Intervention) (c : nat * nat * nat)
  : option (nat * nat * nat) :=
  match actions with
  | [] => Some c
  | a :: r =>
      let '(h, m, l) := c in
      let f := get (feasibility a) "medium" in
      if String.eqb f "high" then feasibility_counts r (S h, m, l)
      else if String.eqb f "medium" then feasibility_counts r (h, S m, l)
      else if String.eqb f "low" then feasibility_counts r (h, m, S l)
      else None
  end.

Definition _categorize_feasibility (score : Q) : string :=
  if Py.leb 0.8 score then "highly_feasible"
  else if Py.leb 0.6 score then "moderately_feasible"
  else if Py.leb 0.4 score then "challenging"
  else "difficult".

Definition is_high_cost (a : Intervention) : bool :=
  Py.contains "high" (Py.lower (get (cost_impact a) "")).

Definition is_low_feasibility (a : Intervention) : bool :=
  Store.opt_eqb String.eqb (feasibility a) (Some "low").

Definition _identify_implementation_barriers (actions : list Intervention) : list string :=
  let high_cost_actions := List.filter is_high_cost actions in
  let low_feasibility_actions := List.filter is_low_feasibility actions in
  let complex_actions :=
    List.filter (fun a => (50 <? Py.len (get (action a) ""))%nat) actions in
  (if Py.ltb (size actions * 0.5) (size high_cost_actions)
   then ["High upfront costs for majority of interventions"] else [])
  ++ (match low_feasibility_actions with
      | [] => []
      | _ :: _ =>
          [String.append (str_of_nat (length low_feasibility_actions))
             " interventions have low feasibility"]
      end)
  ++ (if (3 <? length complex_actions)%nat
      then ["Multiple complex interventions may overwhelm implementation"] else []).

(** [metric_improvements["feasibility_score"]["improvement"]] of the
    latest refinement, 0 without one. *)
Definition latest_feasibility_improvement (refinements : list Refiner.RefinementRecord) : Q :=
  match Py.last_opt refinements with
  | None => 0
  | Some latest =>
      match List.find (fun kv => String.eqb (fst kv) "feasibility_score")
              (Refiner.metric_improvements (Refiner.improvement_validation latest)) with
      | Some kv => Refiner.improvement (snd kv)
      | None => 0
      end
  end.

Definition _evaluate_feasibility (actions : list Intervention)
    (refinements : list Refiner.RefinementRecord) : option Criterion :=
  match feasibility_counts actions (0, 0, 0)%nat with
  | None => None
  | Some (h, m, l) =>
      let feasibility_score :=
        (number h * 1 + number m * 0.6 + number l * 0.2) / size1 actions in
      Some (mkCriterion
              [("feasibility_score", Py.round 2 feasibility_score);
               ("refinement_improvement",
                Py.round 2 (latest_feasibility_improvement refinements))]
              [("high", h); ("medium", m); ("low", l)]
              (_categorize_feasibility feasibility_score)
              (_identify_implementation_barriers actions))
  end.

(** The cost class of one action in [_evaluate_cost_benefit]. *)
Definition cost_class (a : Intervention) : string :=
  let cost_impact := Py.lower (get (cost_impact a) "medium") in
  if Py.contains "savings" cost_impact || Py.contains "low" cost_impact then "low"
  else if Py.contains "high" cost_impact then "high"
  else "medium".

Definition in_class (c : string) (a : Intervention) : bool := String.eqb (cost_class a) c.

Definition _estimate_roi (actions : list Intervention) : Q * Q * string :=
  let carbon_price_per_ton := 50 in
  let total_co2_reduction :=
    fold_left (fun t a => t + Py.last_number_or 0 (get (co2_reduction a) "0.5"))
      actions 0 in
  let annual_carbon_value := total_co2_reduction * carbon_price_per_ton in
  (Py.round 0 annual_carbon_value, Py.round 0 (annual_carbon_value * 10),
   if Py.ltb 1000 annual_carbon_value then "positive" else "moderate").

Definition mentions_savings (a : Intervention) : bool :=
  Py.contains "savings" (Py.lower (get (cost_impact a) "")).

Definition _estimate_payback_period (actions : list Intervention) : string :=
  let high_cost_count := length (List.filter is_high_cost actions) in
  let savings_count := length (List.filter mentions_savings actions) in
  if (high_cost_count <? savings_count)%nat then "1-3 years"
  else if (high_cost_count <=? 2)%nat then "3-7 years"
  else "7-15 years".

Definition _categorize_cost_benefit (score : Q) : string :=
  if Py.leb 0.8 score then "excellent"
  else if Py.leb 0.6 score then "good"
  else if Py.leb 0.4 score then "fair"
  else "poor".

Definition _evaluate_cost_benefit (actions : list Intervention) : Criterion :=
  let low := List.filter (in_class "low") actions in
  let medium := List.filter (in_class "medium") actions in
  let high := List.filter (in_class "high") actions in
  let cost_benefit_score :=
    (size low * 1 + size medium * 0.6 + size high * 0.3) / size1 actions in
  let '(annual, ten_year, roi_category) := _estimate_roi actions in
  mkCriterion
    [("cost_benefit_score", Py.round 2 cost_benefit_score);
     ("annual_carbon_value", annual);
     ("ten_year_value", ten_year)]
    [("low", length low); ("medium", length medium); ("high", length high);
     ("savings", 0%nat)]
    (_categorize_cost_benefit cost_benefit_score)
    [roi_category; _estimate_payback_period actions].

Definition simple_keywords := ["led"; "thermostat"; "bike"; "walk"; "reduce"; "choose"].
Definition complex_keywords := ["install"; "upgrade"; "system"; "panels"; "pump"].

Definition is_simple (a : Intervention) : bool :=
  Py.any_in simple_keywords (Py.lower (get (action a) "")).

Definition is_complex (a : Intervention) : bool :=
  negb (is_simple a) && Py.any_in complex_keywords (Py.lower (get (action a) "")).

Definition _assess_complexity (actions : list Intervention) : Q :=
  let simple_count := size (List.filter is_simple actions) in
  let complex_count := size (List.filter is_complex actions) in
  let total_actions := size actions in
  (simple_count * 1 + (total_actions - simple_count - complex_count) * 0.6
   + complex_count * 0.3) / size1 actions.

Definition _assess_clarity (actions : list Intervention) : Q :=
  let actions_with_tips :=
    size (List.filter (fun a => truthy_list (implementation_tips a)) actions) in
  let clear_actions :=
    size (List.filter (fun a => (20 <? Py.len (get (action a) ""))%nat) actions) in
  Py.min 1 ((actions_with_tips * 0.5 + clear_actions * 0.5) / size1 actions).

Definition _assess_motivation_potential (actions : list Intervention) : Q :=
  let quick_wins := size (List.filter Synthesizer.is_quick_win actions) in
  let high_impact := size (List.filter Synthesizer.mentions_high actions) in
  let cost_savings :=
    size (List.filter (fun a => Py.contains "savings" (get (cost_impact a) "")) actions) in
  Py.min 1 ((quick_wins * 0.4 + high_impact * 0.4 + cost_savings * 0.2) / size1 actions).

Definition _categorize_ux (score : Q) : string :=
  if Py.leb 0.8 score then "excellent"
  else if Py.leb 0.6 score then "good"
  else if Py.leb 0.4 score then "fair"
  else "poor".

Definition _assess_user_journey (actions : list Intervention) : string :=
  let feasibilities := map (fun a => get (feasibility a) "medium") (firstn 5 actions) in
  if (2 <=? length (List.filter (String.eqb "high") feasibilities))%nat
  then "good_onboarding"
  else if (length (List.filter (String.eqb "low") feasibilities) <=? 1)%nat
  then "manageable_progression"
  else "challenging_start".

Definition _evaluate_user_experience (actions : list Intervention) : Criterion :=
  let complexity_score := _assess_complexity actions in
  let clarity_score := _assess_clarity actions in
  let motivation_score := _assess_motivation_potential actions in
  let ux_score := (complexity_score + clarity_score + motivation_score) / 3 in
  mkCriterion
    [("ux_score", Py.round 2 ux_score);
     ("complexity_score", Py.round 2 complexity_score);
     ("clarity_score", Py.round 2 clarity_score);
     ("motivation_score", Py.round 2 motivation_score)]
    []
    (_categorize_ux ux_score)
    [_assess_user_journey actions].

Definition behavioral_keywords := ["reduce"; "choose"; "eat"; "walk"; "bike"; "buy"].
Definition tech_keywords := ["install"; "upgrade"; "system"; "panels"; "vehicle"].

Definition is_behavioral (a : Intervention) : bool :=
  Py.any_in behavioral_keywords (Py.lower (get (action a) "")).

Definition is_technological (a : Intervention) : bool :=
  negb (is_behavioral a) && Py.any_in tech_keywords (Py.lower (get (action a) "")).

Definition _categorize_sustainability (score : Q) : string :=
  if Py.leb 0.8 score then "highly_sustainable"
  else if Py.leb 0.6 score then "sustainable"
  else if Py.leb 0.4 score then "moderately_sustainable"
  else "sustainability_concerns".

Definition _assess_long_term_viability (actions : list Intervention) : string :=
  let lasting_actions :=
    size (List.filter
            (fun a => Py.any_in ["install"; "upgrade"; "system"; "habit"; "routine"]
                        (Py.lower (get (action a) ""))) actions) in
  if Py.leb (size actions * 0.6) lasting_actions then "high_lasting_impact"
  else if Py.leb (size actions * 0.3) lasting_actions then "moderate_lasting_impact"
  else "requires_ongoing_effort".

Definition _evaluate_sustainability (actions : list Intervention) : Criterion :=
  let behavioral_ratio := size (List.filter is_behavioral actions) / size1 actions in
  let tech_ratio := size (List.filter is_technological actions) / size1 actions in
  let balance_score := 1 - Qabs (behavioral_ratio - tech_ratio) in
  mkCriterion
    [("sustainability_score", Py.round 2 balance_score);
     ("behavioral_ratio", Py.round 2 behavioral_ratio);
     ("technological_ratio", Py.round 2 tech_ratio)]
    []
    (_categorize_sustainability balance_score)
    [_assess_long_term_viability actions].

(** The [evaluation] dictionary before ["overall_score"] is added. *)
Record Evaluation := mkEvaluation {
  carbon_impact : Criterion;
  feasibility_eval : Criterion;
  cost_benefit : Criterion;
  user_experience : Criterion;
  sustainability : Criterion
}.

(** [evaluation.get(criterion, {})] *)
Definition criterion_data (ev : Evaluation) (criterion : string) : list (string * Q) :=
  if String.eqb criterion "carbon_impact" then numbers (carbon_impact ev)
  else if String.eqb criterion "feasibility" then numbers (feasibility_eval ev)
  else if String.eqb criterion "cost_benefit" then numbers (cost_benefit ev)
  else if String.eqb criterion "user_experience" then numbers (user_experience ev)
  else if String.eqb criterion "sustainability" then numbers (sustainability ev)
  else [].

Definition weights : list (string * Q) :=
  [("carbon_impact", 0.35); ("feasibility", 0.25); ("cost_benefit", 0.20);
   ("user_experience", 0.15); ("sustainability", 0.05)].

(** The score read for one criterion: under the key ["impact_score"] for
    the carbon impact, under [criterion + "_score"] for the others, 0.5
    when the key is missing. *)
Definition criterion_score (ev : Evaluation) (criterion : string) : Q :=
  if String.eqb criterion "carbon_impact"
  then entry "impact_score" (criterion_data ev criterion) 0.5
  else entry (String.append criterion "_score") (criterion_data ev criterion) 0.5.

Definition _calculate_overall_evaluation_score (ev : Evaluation) : Q :=
  Py.round 3
    (fold_left (fun total cw => total + criterion_score ev (fst cw) * snd cw) weights 0).

(** [_comprehensive_evaluation]: the five criteria and the overall
    score; [None] when the feasibility count raises. *)
Definition _comprehensive_evaluation {A} (synthesis : SynthesisResult A)
    (actions : list Intervention) (refinements : list Refiner.RefinementRecord)
  : option (Evaluation * Q) :=
  match _evaluate_feasibility actions refinements with
  | None => None
  | Some feas =>
      let ev := mkEvaluation (_evaluate_carbon_impact synthesis) feas
                  (_evaluate_cost_benefit actions)
                  (_evaluate_user_experience actions)
                  (_evaluate_sustainability actions) in
      Some (ev, _calculate_overall_evaluation_score ev)
  end.
End EvaluatorScoring.

(** ** Evaluator: plan validation and the complete evaluation *)

Module EvaluatorValidation.
Import EvaluatorScoring.
Local Open Scope Q_scope.

(** The dictionary of one validation check: the verdict, the count it
    reports, its ratio when it has one, and the texts it lists. *)
Record Check := mkCheck {
  passed : bool;
  tally : nat;
  ratio : option Q;
  details : list string
}.

Definition domain_coverage : list (string * bool) :=
  [("home", false); ("transport", false); ("diet", false); ("shopping", false)].

(** [domain_coverage[domain] = True] *)
Definition mark (coverage : list (string * bool)) (d : string) : list (string * bool) :=
  map (fun kv => if String.eqb (fst kv) d then (fst kv, true) else kv) coverage.

Definition _check_completeness (actions : list Intervention) : Check :=
  let coverage :=
    fold_left
      (fun cov a =>
         let d := get (domain a) "unknown" in
         if existsb (fun kv => String.eqb d (fst kv)) cov then mark cov d else cov)
      actions domain_coverage in
  let coverage_count := length (List.filter snd coverage) in
  mkCheck (3 <=? coverage_count)%nat coverage_count None
    (map fst (List.filter (fun kv => negb (snd kv)) coverage)).

Definition _check_consistency (actions : list Intervention) : Check :=
  let high_cost_count := size (List.filter is_high_cost actions) in
  let total_count := size actions in
  let conflicts :=
    if Py.ltb (total_count * 0.7) high_cost_count
    then ["Too many high-cost interventions may not be feasible"] else [] in
  mkCheck (length conflicts =? 0)%nat (length conflicts) None conflicts.

Definition is_actionable (a : Intervention) : bool :=
  let action_text := get (action a) "" in
  (15 <? Py.len action_text)%nat
  && Py.any_in ["install"; "switch"; "reduce"; "choose"; "upgrade"; "use"]
       (Py.lower action_text).

Definition _check_actionability (actions : list Intervention) : Check :=
  let actionable := List.filter is_actionable actions in
  let actionability_ratio := size actionable / size1 actions in
  mkCheck (Py.leb 0.8 actionability_ratio) (length actionable)
    (Some (Py.round 2 actionability_ratio)) [].

(** [any(char.isdigit() for char in text)] *)
Fixpoint any_digit (text : string) : bool :=
  match text with
  | EmptyString => false
  | String c r => Py.is_digit c || any_digit r
  end.

Definition is_measurable (a : Intervention) : bool :=
  any_digit (get (co2_reduction a) "").

Definition _check_measurability (actions : list Intervention) : Check :=
  let measurable := List.filter is_measurable actions in
  let measurability_ratio := size measurable / size1 actions in
  mkCheck (Py.leb 0.7 measurability_ratio) (length measurable)
    (Some (Py.round 2 measurability_ratio)) [].

Definition issue_of (check_name : string) : list string :=
  if String.eqb check_name "completeness"
  then ["Plan does not cover all major emission domains"]
  else if String.eqb check_name "consistency"
  then ["Internal inconsistencies in recommendations"]
  else if String.eqb check_name "actionability"
  then ["Recommendations lack specific actionable steps"]
  else if String.eqb check_name "measurability"
  then ["Outcomes are not sufficiently measurable"]
  else [].

Definition _identify_critical_issues (validation_checks : list (string * Check))
  : list string :=
  flat_map (fun nc => if passed (snd nc) then [] else issue_of (fst nc))
    validation_checks.

Record Validation := mkValidation {
  validation_checks : list (string * Check);
  validation_score : Q;
  validation_passed : bool;
  critical_issues : list string
}.

Definition _validate_final_plan (actions : list Intervention) : Validation :=
  let validation_checks :=
    [("completeness", _check_completeness actions);
     ("consistency", _check_consistency actions);
     ("actionability", _check_actionability actions);
     ("measurability", _check_measurability actions)] in
  let validation_score :=
    number (length (List.filter (fun nc => passed (snd nc)) validation_checks))
    / size validation_checks in
  mkValidation validation_checks validation_score (Py.leb 0.75 validation_score)
    (_identify_critical_issues validation_checks).

Definition _calculate_implementation_confidence (v : Validation) : Q :=
  let validation_score := validation_score v in
  let validation_passed := validation_passed v in
  if validation_passed && Py.leb 0.9 validation_score then 0.95
  else if validation_passed && Py.leb 0.8 validation_score then 0.85
  else if validation_passed then 0.75
  else if Py.leb 0.6 validation_score then 0.6
  else 0.4.

(** The result of [evaluate_and_finalize], on the entries computed
    from the plan. *)
Record EvaluationOutput := mkEvaluationOutput {
  evaluation_results : Evaluation * Q;
  validation_results : Validation;
  user_alignment : Q;
  final_plan : Evaluator.FinalPlan;
  final_eco_score : Q;
  implementation_confidence : Q
}.

(** [evaluate_and_finalize]: the evaluation reads the actions of the
    synthesis, the final plan annotates those of the base plan in the
    store; a raised [KeyError] is [None], with the store as the
    exception leaves it. *)
Definition evaluate_and_finalize (h : gmap nat Intervention)
    (synthesis : SynthesisResult nat) (refinements : list Refiner.RefinementRecord)
    (user_input : string) : gmap nat Intervention * option EvaluationOutput :=
  let actions := Store.view h (prioritized_actions synthesis) in
  match _comprehensive_evaluation synthesis actions refinements with
  | None => (h, None)
  | Some (ev, overall_score) =>
      let validation := _validate_final_plan actions in
      let alignment := Evaluator.alignment_score actions user_input in
      let '(h', plan) := Evaluator._generate_final_plan h synthesis refinements in
      match plan with
      | None => (h', None)
      | Some p =>
          (h',
           Some (mkEvaluationOutput (ev, overall_score) validation alignment p
                   (Evaluator._calculate_final_eco_score (eco_score synthesis)
                      overall_score alignment
                      (entry "feasibility_score" (numbers (feasibility_eval ev)) 0.5))
                   (_calculate_implementation_confidence validation)))
      end
  end.
End EvaluatorValidation.

(** ** Supervisor ([agents/supervisor.py]) *)

Module Supervisor.
Import Workflow.
Local Open Scope Q_scope.

Record Location := mkLocation {
  city : string;
  lat : Q;
  lon : Q;
  country : string
}.

(** What the geocoder hands back for a place: the attributes read with
    [getattr(location, name, None)]. *)
Record Place := mkPlace {
  latitude : option Q;
  longitude : option Q;
  address : option string
}.

Definition location_keywords : list string :=
  ["Tokyo"; "New York"; "London"; "Paris"; "Berlin"; "Sydney";
   "San Francisco"; "Los Angeles"; "Chicago"; "Boston"; "Seattle"].

(** [text.split(", ")], with [cur] the piece being read. *)
Fixpoint split_comma_space (text cur : string) : list string :=
  match text with
  | EmptyString => [cur]
  | String c r =>
      match r with
      | String c2 r2 =>
          if Ascii.eqb c ","%char && Ascii.eqb c2 " "%char
          then cur :: split_comma_space r2 EmptyString
          else split_comma_space r (String.append cur (String c EmptyString))
      | EmptyString => [String.append cur (String c EmptyString)]
      end
  end.

Definition tokyo : Location := mkLocation "Tokyo" 35.6762 139.6503 "Japan".

(** [_extract_location]; [geocode] is the call of the geocoding
    service: it raises, finds nothing ([None]) or returns a place. *)
Definition _extract_location (geocode : string -> outcome (option Place))
    (user_input : string) : Location :=
  let detected_location :=
    List.find (fun keyword => Py.contains (Py.lower keyword) (Py.lower user_input))
      location_keywords in
  match detected_location with
  | Some keyword =>
      if negb (String.eqb keyword "") then
        match geocode keyword with
        | Returned (Some location) =>
            match latitude location, longitude location with
            | Some lat, Some lon =>
                mkLocation keyword lat lon
                  (match address location with
                   | Some a =>
                       if negb (String.eqb a "")
                       then get (Py.last_opt (split_comma_space a "")) ""
                       else "Unknown"
                   | None => "Unknown"
                   end)
            | _, _ => tokyo
            end
        | _ => tokyo
        end
      else tokyo
  | None => tokyo
  end.

Record Lifestyle := mkLifestyle {
  transport_intensity : string;
  diet_type : string;
  home_energy : string;
  shopping_frequency : string;
  luxury_level : string
}.

Definition transport_keywords : list (string * list string) :=
  [("high", ["private jet"; "helicopter"; "luxury car"; "v8"; "v12"; "sports car"]);
   ("medium", ["car"; "drive"; "suv"; "truck"; "motorcycle"]);
   ("low", ["bike"; "walk"; "public transport"; "train"; "bus"])].

Definition diet_keywords : list (string * list string) :=
  [("meat_heavy", ["wagyu"; "steak"; "beef"; "meat daily"; "carnivore"]);
   ("mixed", ["chicken"; "fish"; "meat"; "omnivore"]);
   ("plant_based", ["vegan"; "vegetarian"; "plant-based"; "salad"])].

Definition luxury_keywords : list string :=
  ["luxury"; "expensive"; "premium"; "high-end"; "private"; "exclusive"].

Definition _analyze_lifestyle_patterns (user_input : string) : Lifestyle :=
  let text := Py.lower user_input in
  mkLifestyle
    (Transport.first_category transport_keywords text "low")
    (Transport.first_category diet_keywords text "mixed")
    "medium" "medium"
    (if Py.any_in luxury_keywords text then "high" else "low").

(** Priorities of the four agents, in the insertion order of the
    dictionary. *)
Record Priorities := mkPriorities {
  home_expert : Q;
  transport_expert : Q;
  diet_expert : Q;
  shopping_expert : Q
}.

Definition items (p : Priorities) : list (string * Q) :=
  [("home_expert", home_expert p); ("transport_expert", transport_expert p);
   ("diet_expert", diet_expert p); ("shopping_expert", shopping_expert p)].

Definition _determine_agent_priorities (l : Lifestyle) : Priorities :=
  let p0 := mkPriorities 0.25 0.25 0.25 0.25 in
  let p1 := if String.eqb (transport_intensity l) "high"
            then mkPriorities 0.2 0.4 0.2 0.2 else p0 in
  let p2 := if String.eqb (diet_type l) "meat_heavy"
            then mkPriorities 0.2 0.2 0.4 0.2 else p1 in
  if String.eqb (luxury_level l) "high"
  then mkPriorities 0.15 0.35 0.15 0.35 else p2.

Record CoordinationPlan := mkCoordinationPlan {
  execution_order : list string;
  parallel_groups : list (list string);
  communication_matrix : list (string * list string);
  priority_weights : list (string * Q)
}.

Definition _create_coordination_plan (p : Priorities) : CoordinationPlan :=
  let sorted_agents := Py.sorted_desc snd (items p) in
  mkCoordinationPlan
    (map fst sorted_agents)
    [["home_expert"; "transport_expert"]; ["diet_expert"; "shopping_expert"]]
    [("home_expert", ["transport_expert"]);
     ("transport_expert", ["home_expert"; "shopping_expert"]);
     ("diet_expert", ["shopping_expert"]);
     ("shopping_expert", ["diet_expert"; "transport_expert"])]
    (items p).

(** [d.get(key, dflt)] and [d[key]] on a dictionary with string keys. *)
Fixpoint lookup_key {V} (key : string) (d : list (string * V)) : option V :=
  match d with
  | [] => None
  | (k, v) :: r => if String.eqb k key then Some v else lookup_key key r
  end.

Definition base_focus_areas : list (string * list string) :=
  [("home_expert", ["energy_efficiency"; "heating_cooling"; "appliances"; "insulation"]);
   ("transport_expert",
    ["vehicle_type"; "fuel_efficiency"; "travel_patterns"; "alternatives"]);
   ("diet_expert", ["food_sources"; "meal_frequency"; "dietary_preferences"; "waste"]);
   ("shopping_expert",
    ["purchase_patterns"; "product_lifecycle"; "packaging"; "sustainability"])].

Definition additional_areas : list (string * list string) :=
  [("home_expert", ["renewable_energy"; "smart_systems"]);
   ("transport_expert", ["carbon_offsetting"; "route_optimization"]);
   ("diet_expert", ["local_sourcing"; "seasonal_eating"]);
   ("shopping_expert", ["circular_economy"; "ethical_sourcing"])].

Definition _get_agent_focus_areas (agent_name : string) (priority : Q) : list string :=
  let base_areas := get (lookup_key agent_name base_focus_areas) [] in
  if Py.ltb 0.3 priority
  then base_areas ++ get (lookup_key agent_name additional_areas) []
  else base_areas.

Definition base_times : list (string * Q) :=
  [("home_expert", 2.5); ("transport_expert", 3.0); ("diet_expert", 2.0);
   ("shopping_expert", 1.5)].

Definition _estimate_execution_time (agent_name : string) (priority : Q) : Q :=
  let base_time := get (lookup_key agent_name base_times) 2.0 in
  let priority_multiplier := 1 + (priority - 0.25) * 2 in
  base_time * priority_multiplier.

Record Assignment := mkAssignment {
  priority_level : Q;
  focus_areas : list string;
  expected_duration : Q
}.

Record Channel := mkChannel {
  sender : string;
  receiver : string;
  channel_status : string;
  message_queue : list string
}.

Record Coordination := mkCoordination {
  coordination_success : bool;
  agent_assignments : list (string * Assignment);
  communication_log : list Channel;
  execution_timeline : list string
}.

(** [d[key] = v]: the value of an existing key is replaced in place, a
    new key goes to the end. *)
Fixpoint assign {V} (key : string) (v : V) (d : list (string * V)) : list (string * V) :=
  match d with
  | [] => [(key, v)]
  | (k, w) :: r => if String.eqb k key then (k, v) :: r else (k, w) :: assign key v r
  end.

(** [repr(key)] of a key without quote characters: the text of a
    [KeyError]. *)
Definition repr (key : string) : string :=
  String.append "'" (String.append key "'").

(** The first loop of [coordinate_agents];
    [coordination_plan["priority_weights"][agent_name]] raises
    [KeyError] on an agent without weight. *)
Fixpoint assign_agents (weights : list (string * Q)) (order : list string)
    (acc : list (string * Assignment)) : outcome (list (string * Assignment)) :=
  match order with
  | [] => Returned acc
  | agent_name :: r =>
      match lookup_key agent_name weights with
      | None => Raised (repr agent_name)
      | Some priority =>
          assign_agents weights r
            (assign agent_name
               (mkAssignment priority (_get_agent_focus_areas agent_name priority)
                  (_estimate_execution_time agent_name priority))
               acc)
      end
  end.

Definition coordinate_agents (plan : CoordinationPlan) (user_input : string)
  : outcome Coordination :=
  match assign_agents (priority_weights plan) (execution_order plan) [] with
  | Raised e => Raised e
  | Returned assignments =>
      Returned (mkCoordination true assignments
              (flat_map (fun sr => map (fun receiver => mkChannel (fst sr) receiver "active" [])
                                     (snd sr))
                 (communication_matrix plan))
              [])
  end.

Record Analysis := mkAnalysis {
  location : Location;
  lifestyle_patterns : Lifestyle;
  agent_priorities : Priorities;
  coordination_plan : CoordinationPlan
}.

Definition analyze_input (geocode : string -> outcome (option Place))
    (user_input : string) : Analysis :=
  let location_data := _extract_location geocode user_input in
  let lifestyle_analysis := _analyze_lifestyle_patterns user_input in
  let agent_priorities := _determine_agent_priorities lifestyle_analysis in
  mkAnalysis location_data lifestyle_analysis agent_priorities
    (_create_coordination_plan agent_priorities).

(** The values stored in the dictionary [analyze_and_coordinate]
    returns. *)
Inductive Entry :=
| AnalysisEntry (a : Analysis)
| CoordinationEntry (c : Coordination).

(** [analyze_and_coordinate]: a dictionary with the keys ["analysis"]
    and ["coordination"]. *)
Definition analyze_and_coordinate (geocode : string -> outcome (option Place))
    (user_input : string) : outcome (list (string * Entry)) :=
  let analysis_result := analyze_input geocode user_input in
  match coordinate_agents (coordination_plan analysis_result) user_input with
  | Raised e => Raised e
  | Returned coordination_result =>
      Returned [("analysis", AnalysisEntry analysis_result);
                ("coordination", CoordinationEntry coordination_result)]
  end.
End Supervisor.

(** ** The workflow with live agents ([Config.USE_MOCK_DATA] off) *)

Module LiveMode.
Import Workflow Supervisor.

(** [supervisor_result[key]] *)
Definition subscript (supervisor_result : list (string * Entry)) (key : string)
  : outcome Entry :=
  match lookup_key key supervisor_result with
  | Some v => Returned v
  | None => Raised (repr key)
  end.

Section Agents.
(** The geocoding service, the [analyze] methods of the four domain
    experts, and the stages after the estimators with the reads made
    on their results (of [later], only those fields are used). *)
Context {Synthesis Refinement Evaluation : Type}.
Variable geocode : string -> outcome (option Place).
Variable analyze : Domain -> Entry -> Entry -> outcome DomainAnalysis.
Variable later : Stages unit Synthesis Refinement Evaluation.

(** [_run_home_analysis] and its three siblings: the arguments of
    [analyze] are read from the supervisor's dictionary first. *)
Definition _run_domain_analysis (d : Domain) (supervisor_result : list (string * Entry))
  : outcome DomainAnalysis :=
  match subscript supervisor_result "user_input" with
  | Raised e => Raised e
  | Returned user_input =>
      match subscript supervisor_result "location" with
      | Raised e => Raised e
      | Returned location => analyze d user_input location
      end
  end.

Definition live_stages
  : Stages (list (string * Entry)) Synthesis Refinement Evaluation := {|
  get_eco_score := get_eco_score (Stages := later);
  get_synthesis_confidence := get_synthesis_confidence (Stages := later);
  get_total_carbon_footprint := get_total_carbon_footprint (Stages := later);
  get_prioritized_actions := get_prioritized_actions (Stages := later);
  synthesis_is_empty := synthesis_is_empty (Stages := later);
  get_refined_plan := get_refined_plan (Stages := later);
  get_final_eco_score := get_final_eco_score (Stages := later);
  get_final_actions := get_final_actions (Stages := later);
  evaluation_is_empty := evaluation_is_empty (Stages := later);
  _run_supervisor_analysis := analyze_and_coordinate geocode;
  run_estimator := _run_domain_analysis;
  _run_synthesis := _run_synthesis (Stages := later);
  _run_refinement_loop := _run_refinement_loop (Stages := later);
  _run_final_evaluation := _run_final_evaluation (Stages := later)
|}.
End Agents.
End LiveMode.

(** ** Home estimator ([agents/home_expert.py]) *)

Module Home.
Local Open Scope Q_scope.

Record CarbonIntensity := mkCarbonIntensity {
  carbon_intensity : Q;
  fossil_free_percentage : Q;
  zone : string;
  intensity_source : string
}.

Definition country_codes (country : string) : option string :=
  if String.eqb country "Japan" then Some "JP"
  else if String.eqb country "United States" then Some "US"
  else if String.eqb country "United Kingdom" then Some "GB"
  else if String.eqb country "Germany" then Some "DE"
  else if String.eqb country "France" then Some "FR"
  else None.

(** [mock_data.get(zone)]: carbon intensity and fossil-free share. *)
Definition mock_data (zone : string) : option (Q * Q) :=
  if String.eqb zone "JP" then Some (518, 22)
  else if String.eqb zone "US" then Some (386, 40)
  else if String.eqb zone "GB" then Some (254, 48)
  else if String.eqb zone "DE" then Some (338, 46)
  else if String.eqb zone "FR" then Some (85, 92)
  else None.

(** [_get_electricity_carbon_intensity]; [country] is
    [location.get("country")]. *)
Definition _get_electricity_carbon_intensity (country : option string) : CarbonIntensity :=
  let country := get country "Japan" in
  let zone := get (country_codes country) "JP" in
  let data := get (mock_data zone) (518, 22) in
  mkCarbonIntensity (fst data) (snd data) zone "electricity_maps_api".

Record Weather := mkWeather {
  current_temperature : Q;
  max_temperature : Q;
  min_temperature : Q;
  heating_degree_days : Q;
  cooling_degree_days : Q;
  weather_source : string
}.

(** [_get_weather_data]; [reading] is what the weather service
    answered: nothing usable ([None]: no answer, an error status, an
    exception), or the current temperature and the first daily maximum
    and minimum, each present or not. *)
Definition _get_weather_data (reading : option (option Q * option Q * option Q))
  : Weather :=
  match reading with
  | Some (temperature, daily_max, daily_min) =>
      mkWeather (get temperature 20) (get daily_max 25) (get daily_min 15)
        (Py.max 0 (18 - get temperature 20))
        (Py.max 0 (get temperature 20 - 24))
        "open_meteo_api"
  | None => mkWeather 22 28 18 0 4 "fallback_data"
  end.

Definition size_indicators : list (string * list string) :=
  [("large", ["mansion"; "large house"; "big home"; "5 bedroom"; "6 bedroom"]);
   ("small", ["apartment"; "studio"; "small"; "1 bedroom"; "2 bedroom"]);
   ("medium", ["house"; "home"; "3 bedroom"; "4 bedroom"])].

Definition efficiency_indicators : list (string * list string) :=
  [("high", ["energy efficient"; "smart home"; "led lights"; "solar panels"; "heat pump"]);
   ("low", ["old house"; "poor insulation"; "electric heating"; "incandescent"]);
   ("standard", ["standard"; "average"; "typical"])].

Definition renewable_keywords : list string :=
  ["solar"; "wind"; "renewable"; "green energy"; "solar panels"].

Definition _analyze_energy_patterns (user_input : string) : EnergyPatterns :=
  let text := Py.lower user_input in
  mkEnergyPatterns
    (Transport.first_category size_indicators text "medium")
    "gas" "medium"
    (Transport.first_category efficiency_indicators text "standard")
    "mixed" "average"
    (Py.any_in renewable_keywords text).

Definition base_consumption (size : string) : Q :=
  if String.eqb size "small" then 8000
  else if String.eqb size "medium" then 12000
  else if String.eqb size "large" then 20000
  else 12000.

Definition efficiency_multipliers (level : string) : Q :=
  if String.eqb level "high" then 0.7
  else if String.eqb level "standard" then 1.0
  else if String.eqb level "low" then 1.4
  else 1.0.

Definition _calculate_home_carbon_footprint (energy_patterns : EnergyPatterns)
    (intensity : CarbonIntensity) (weather_data : Weather) : Q :=
  let consumption := base_consumption (home_size energy_patterns) in
  let consumption :=
    consumption * efficiency_multipliers (appliance_efficiency energy_patterns) in
  let weather_adjustment :=
    (heating_degree_days weather_data + cooling_degree_days weather_data) / 10 in
  let consumption := consumption + weather_adjustment * 100 in
  let consumption :=
    if renewable_energy energy_patterns then consumption * 0.3 else consumption in
  let carbon_footprint := consumption * carbon_intensity intensity / 1000 / 1000 in
  Py.round 2 carbon_footprint.

(** A recommendation of the home estimator; its ["cost"] entry is not
    a key of the interventions. *)
Definition recommendation (text impact_text prio co2 : string) : Intervention :=
  mkIntervention None (Some text) (Some impact_text) (Some prio) (Some co2)
    None None None None None None None None.

Definition _generate_recommendations (energy_patterns : EnergyPatterns)
    (intensity : CarbonIntensity) (weather_data : Weather) : list Intervention :=
  (if negb (renewable_energy energy_patterns)
      && Py.ltb (fossil_free_percentage intensity) 50
   then [recommendation "Install solar panels" "Reduce home emissions by 70-90%"
           "high" "8-12 tons/year"]
   else [])
  ++ (if Py.ltb 5 (heating_degree_days weather_data)
         || Py.ltb 5 (cooling_degree_days weather_data)
      then [recommendation "Install heat pump system"
              "Reduce heating/cooling emissions by 50-70%" "medium" "2-4 tons/year"]
      else [])
  ++ (if String.eqb (appliance_efficiency energy_patterns) "low"
      then [recommendation "Upgrade insulation and windows"
              "Reduce energy needs by 30-50%" "medium" "1-3 tons/year"]
      else [])
  ++ [recommendation "Install smart thermostat and LED lighting"
        "Reduce energy consumption by 15-25%" "low" "0.5-1.5 tons/year"].

Definition size_scores (size : string) : Q :=
  if String.eqb size "small" then 0.3
  else if String.eqb size "medium" then 0
  else if String.eqb size "large" then -0.2
  else 0.

Definition efficiency_scores (level : string) : Q :=
  if String.eqb level "high" then 0.3
  else if String.eqb level "standard" then 0
  else if String.eqb level "low" then -0.3
  else 0.

Definition _calculate_efficiency_score (energy_patterns : EnergyPatterns) : Q :=
  let score := 0.5 in
  let score := score + size_scores (home_size energy_patterns) in
  let score := score + efficiency_scores (appliance_efficiency energy_patterns) in
  let score := if renewable_energy energy_patterns then score + 0.4 else score in
  Py.max 0 (Py.min 1 score).

Definition _extract_key_findings (energy_patterns : EnergyPatterns)
    (carbon_footprint : Q) : list string :=
  (if Py.ltb 5 carbon_footprint then ["High home energy emissions detected"]
   else if Py.ltb carbon_footprint 2 then ["Excellent home energy efficiency"]
   else [])
  ++ (if negb (renewable_energy energy_patterns)
      then ["No renewable energy sources identified"] else [])
  ++ (if String.eqb (appliance_efficiency energy_patterns) "low"
      then ["Significant efficiency improvement potential"] else []).

(** [analyze]: the dictionary handed to the synthesizer. *)
Definition analyze (user_input : string) (country : option string)
    (reading : option (option Q * option Q * option Q)) : DomainAnalysis :=
  let intensity := _get_electricity_carbon_intensity country in
  let weather_data := _get_weather_data reading in
  let energy_patterns := _analyze_energy_patterns user_input in
  let carbon_footprint :=
    _calculate_home_carbon_footprint energy_patterns intensity weather_data in
  let recommendations := _generate_recommendations energy_patterns intensity weather_data in
  mkDomainAnalysis "home_guardian_001" (Some carbon_footprint)
    (Some (_calculate_efficiency_score energy_patterns))
    (Some recommendations)
    (Some (_extract_key_findings energy_patterns carbon_footprint))
    (Some energy_patterns) None None None.
End Home.

(** ** Notions used by the properties *)

(** ** The reduction estimates written in the sources *)

Module Catalogue.
(** The ["co2_reduction"] literals, file by file and in the order of the
    lines; the transport expert writes none. *)
Definition home_expert : list string :=
  ["8-12 tons/year"; "2-4 tons/year"; "1-3 tons/year"; "0.5-1.5 tons/year"].

Definition diet_expert : list string :=
  ["1-2 tons/year"; "2-4 tons/year"; "0.3-0.8 tons/year"; "0.8-1.5 tons/year"].

Definition shopping_expert : list string :=
  ["0.3-0.8 tons/year"; "0.5-1.2 tons/year"; "0.2-0.6 tons/year";
   "0.4-1.0 tons/year"; "0.1-0.4 tons/year"].

(** The default of [_prioritize_interventions] and [_analyze_potential_impact],
    and the text of the interventions built from synergies. *)
Definition synthesizer : list string := ["0.5 tons/year"; "5-15 tons/year"].

(** The defaults of the readers in the Refinement loop, the Evaluator
    and the workflow. *)
Definition readers : list string := ["0.5"].

(** [workflow.py]: the result returned on an error, the four mock
    analyses, the fallback results and the four fallback analyses. *)
Definition workflow : list string :=
  ["0.5 tons/year";
   "2.0 tons/year"; "0.5 tons/year"; "0.8 tons/year";
   "4.2 tons/year"; "1.8 tons/year"; "1.0 tons/year";
   "1.2 tons/year"; "0.6 tons/year"; "0.4 tons/year";
   "0.3 tons/year"; "0.2 tons/year"; "0.1 tons/year";
   "0.5 tons/year"; "2.0 tons/year"; "1.0 tons/year";
   "0.5 tons/year"; "2.0 tons/year"; "1.0 tons/year"; "0.3 tons/year"].

Definition co2_reductions : list string :=
  home_expert ++ diet_expert ++ shopping_expert ++ synthesizer ++ readers ++ workflow.
End Catalogue.

Module TransportNotions.
(** The distance read from the text has at most 300 digits, so that
    [distance * 1.6] and [daily_distance * emission_factor] convert it
    to a double and every product of the estimate stays finite. *)
Definition convertible_distance (user_input : string) : Prop :=
  match Transport.first_distance (Py.lower user_input) with
  | Some (distance, _) => (distance < 10 ^ 300)%Z
  | None => True
  end.
End TransportNotions.

Module Notions.
(** [b] does not outrank [a] under [key]. *)
Definition ge_key {A : Type} (key : A -> Q) (a b : A) : Prop := (key b <= key a)%Q.

(** The integer nearest to [y], ties to the even one. *)
Definition nearest_even (y : Q) : Z :=
  match (y - (Qfloor y # 1) ?= 1 # 2)%Q with
  | Lt => Qfloor y
  | Gt => (Qfloor y + 1)%Z
  | Eq => if Z.odd (Qfloor y) then (Qfloor y + 1)%Z else Qfloor y
  end.

(** The numbers read from a text carry no sign. *)
Definition scan_nonneg (st : Py.scan) : Prop :=
  match st with
  | Py.Idle => True
  | Py.InInt n | Py.SawDot n => (0 <= n)%Z
  | Py.InFrac m _ => (0 <= m)%Z
  end.

Definition unit_interval (x : Q) : Prop := (0 <= x)%Q /\ (x <= 1)%Q.

(** From [h] to [h'] every dictionary is kept as it is. *)
Definition unchanged (h h' : gmap nat Intervention) : Prop :=
  forall l v, h !! l = Some v -> h' !! l = Some v.

(** An opportunity that is not the one drawn from the history. *)
Definition no_learning (o : Refiner.Opportunity) : Prop :=
  Refiner.refinement_strategy o <> "adaptive_learning".
End Notions.

Module EvaluatorNotions.
Import Evaluator.
(** The number of user traits that can earn alignment points. *)
Definition scoring_traits (c : Characteristics) : nat :=
  (if budget_conscious c then 1 else 0) + (if convenience_focused c then 1 else 0)
  + (if tech_savvy c then 1 else 0) + (if environmentally_conscious c then 1 else 0).

(** The timeline bucket an action falls in once it is finalised. *)
Definition cheap (a : Intervention) : bool :=
  let cost := Py.lower (get (cost_impact a) "medium") in
  Py.contains "low" cost || Py.contains "savings" cost.

Definition easy (a : Intervention) : bool :=
  String.eqb (get (feasibility a) "medium") "high".

Definition moderate (a : Intervention) : bool :=
  String.eqb (get (feasibility a) "medium") "medium".

Definition texts (l : list Intervention) : list string :=
  map (fun a => get (action a) "") l.

(** A dictionary without the three keys the evaluator adds. *)
Definition unannotated (a : Intervention) : Intervention :=
  mkIntervention (domain a) (action a) (impact a) (priority a) (co2_reduction a)
    (cost_impact a) (feasibility a) (urgency a) (synergy_multiplier a)
    (implementation_tips a) None None None.

(** The four buckets of the timeline, read off the feasibility and the
    cost of the actions. *)
Definition schedule (acts : list Intervention) : Evaluator.Timeline :=
  Evaluator.mkTimeline
    (texts (List.filter (fun a => easy a && cheap a) acts))
    (texts (List.filter (fun a => easy a && negb (cheap a)) acts))
    (texts (List.filter (fun a => negb (easy a) && moderate a) acts))
    (texts (List.filter (fun a => negb (easy a) && negb (moderate a)) acts)).

Definition scheduled (t : Evaluator.Timeline) : nat :=
  length (Evaluator.immediate t) + length (Evaluator.short_term t)
  + length (Evaluator.medium_term t) + length (Evaluator.long_term t).

(** [action["action"]] does not raise. *)
Definition has_action_key (a : Intervention) : bool :=
  match action a with Some _ => true | None => false end.
End EvaluatorNotions.

Module ScoringNotions.
(** The feasibility label the evaluator reads from an action. *)
Definition feasibility_label (a : Intervention) : string := get (feasibility a) "medium".

Definition known_feasibility (a : Intervention) : bool :=
  Py.str_in (feasibility_label a) ["high"; "medium"; "low"].

Definition labelled (lbl : string) (a : Intervention) : bool :=
  String.eqb (feasibility_label a) lbl.
End ScoringNotions.

Module EvaluationNotions.
Import EvaluatorScoring EvaluatorValidation.
(** The number of checks of a validation that did not pass. *)
Definition failed_checks (v : Validation) : nat :=
  length (List.filter (fun nc => negb (passed (snd nc))) (validation_checks v)).
End EvaluationNotions.

Module SupervisorNotions.
Import Supervisor.
(** [self.agent_roster] *)
Definition agent_roster : list string :=
  ["home_expert"; "transport_expert"; "diet_expert"; "shopping_expert"].

(** The priority maps [_determine_agent_priorities] can return. *)
Definition priority_profiles : list Priorities :=
  [mkPriorities 0.25 0.25 0.25 0.25; mkPriorities 0.2 0.4 0.2 0.2;
   mkPriorities 0.2 0.2 0.4 0.2; mkPriorities 0.15 0.35 0.15 0.35].

(** The checks made on the coordination of one priority map. *)
Definition well_coordinated (p : Priorities) : bool :=
  match coordinate_agents (_create_coordination_plan p) "" with
  | Workflow.Raised _ => false
  | Workflow.Returned c =>
      Store.list_eqb String.eqb
        (map fst (agent_assignments c))
        (execution_order (_create_coordination_plan p))
      && forallb (fun na =>
                    Py.ltb 0 (expected_duration (snd na))
                    && Nat.eqb (length (focus_areas (snd na)))
                         (if Py.ltb 0.3 (priority_level (snd na)) then 6 else 4)
                    && Store.opt_eqb Qeq_bool
                         (lookup_key (fst na) (items p)) (Some (priority_level (snd na))))
           (agent_assignments c)
      && Nat.eqb (length (communication_log c)) 6
  end.
End SupervisorNotions.

(** ** Inputs of the worked examples *)

Module Examples.
Local Open Scope Q_scope.

(** A standard deviation that reports no spread. *)
Definition no_spread (l : list Q) : Q := 0.

(** The heat pump recommended by the home estimator. *)
Definition heat_pump : Intervention :=
  Home.recommendation "Install heat pump system"
    "Reduce heating/cooling emissions by 50-70%" "medium" "2-4 tons/year".



End Examples.

(** * Properties *)

(** ** Sorting, slicing, rounding *)

Module PyFacts.
Section SortedFacts.
Context {A : Type} (key : A -> Q).

Lemma insert_desc_length x (l : list A) :
  length (Py.insert_desc key x l) = S (length l).
Proof.
  induction l as [|y r IH]; simpl; [reflexivity|].
  destruct (Py.ltb (key x) (key y)); simpl; congruence.
Qed.

Lemma sorted_desc_length (l : list A) :
  length (Py.sorted_desc key l) = length l.
Proof.
  induction l as [|x r IH]; simpl; [reflexivity|].
  rewrite insert_desc_length. congruence.
Qed.

Lemma insert_desc_In x y (l : list A) :
  In y (Py.insert_desc key x l) <-> y = x \/ In y l.
Proof.
  induction l as [|z r IH]; simpl.
  - intuition.
  - destruct (Py.ltb (key x) (key z)); simpl; rewrite ?IH; intuition.
Qed.

Lemma sorted_desc_In y (l : list A) :
  In y (Py.sorted_desc key l) <-> In y l.
Proof.
  induction l as [|x r IH]; simpl; [reflexivity|].
  rewrite insert_desc_In, IH. intuition.
Qed.

Lemma sorted_desc_Forall (P : A -> Prop) (l : list A) :
  Forall P l -> Forall P (Py.sorted_desc key l).
Proof.
  rewrite !List.Forall_forall. intros H y Hy. apply H. now apply sorted_desc_In.
Qed.

(** The head of the sorted list carries a largest key. *)
Lemma sorted_desc_head (l : list A) :
  l <> [] ->
  exists m, hd_error (Py.sorted_desc key l) = Some m /\ In m l
            /\ forall y, In y l -> (key y <= key m)%Q.
Proof.
  induction l as [|x r IH]; [congruence|]. intros _.
  destruct r as [|x' r'].
  - exists x. simpl. repeat split; auto. intros y [->|[]]. apply Qle_refl.
  - destruct IH as (m & Hm & Hin & Hmax); [congruence|].
    change (Py.sorted_desc key (x :: x' :: r'))
      with (Py.insert_desc key x (Py.sorted_desc key (x' :: r'))).
    destruct (Py.sorted_desc key (x' :: r')) as [|s0 s] eqn:Es; [discriminate|].
    simpl in Hm. injection Hm as ->.
    simpl. unfold Py.ltb. destruct (Qlt_le_dec (key x) (key m)) as [Hlt|Hle].
    + exists m. simpl. repeat split; auto.
      intros y [->|Hy]; [now apply Qlt_le_weak | now apply Hmax].
    + exists x. simpl. repeat split; auto.
      intros y [->|Hy]; [apply Qle_refl |].
      eapply Qle_trans; [now apply Hmax | exact Hle].
Qed.
End SortedFacts.

Lemma firstn_Forall {A} (P : A -> Prop) n (l : list A) :
  Forall P l -> Forall P (firstn n l).
Proof.
  intros H. revert n. induction H as [|x r Hx Hr IH]; intros [|n]; simpl;
    constructor; auto.
Qed.

Lemma firstn_hd_error {A} n (l : list A) :
  hd_error (firstn (S n) l) = hd_error l.
Proof. destruct l; reflexivity. Qed.

Lemma ltb_spec a b : Py.ltb a b = true <-> (a < b)%Q.
Proof.
  unfold Py.ltb. destruct (Qlt_le_dec a b) as [H|H]; split; intros; auto.
  - discriminate.
  - exfalso. lra.
Qed.

(** Rounding sees the value of a rational, not its representation. *)
Lemma round_proper n (x y : Q) : (x == y)%Q -> Py.round n x = Py.round n y.
Proof.
  intros E. unfold Py.round.
  assert (Ey : (x * (10 ^ Z.of_nat n # 1) == y * (10 ^ Z.of_nat n # 1))%Q)
    by (now rewrite E).
  rewrite (Qfloor_comp _ _ Ey).
  assert (Er : (x * (10 ^ Z.of_nat n # 1) - (Qfloor (y * (10 ^ Z.of_nat n # 1)) # 1)
                == y * (10 ^ Z.of_nat n # 1) - (Qfloor (y * (10 ^ Z.of_nat n # 1)) # 1))%Q)
    by (now rewrite E).
  rewrite (Qcompare_comp _ _ Er _ _ (Qeq_refl (1 # 2))).
  reflexivity.
Qed.

Lemma round1_bounds (x : Q) :
  (0 <= x)%Q -> (x <= 100)%Q -> (0 <= Py.round 1 x)%Q /\ (Py.round 1 x <= 100)%Q.
Proof.
  intros H0 H100. unfold Py.round.
  change (10 ^ Z.of_nat 1)%Z with 10%Z.
  set (y := (x * (10 # 1))%Q).
  assert (Hy0 : (0 <= y)%Q) by (unfold y; lra).
  assert (Hy1 : (y <= 1000)%Q) by (unfold y; lra).
  assert (Hf0 : (0 <= Qfloor y)%Z).
  { change 0%Z with (Qfloor 0). now apply Qfloor_resp_le. }
  assert (Hf1 : (Qfloor y <= 1000)%Z).
  { change 1000%Z with (Qfloor 1000). now apply Qfloor_resp_le. }
  assert (Hfl : (inject_Z (Qfloor y) <= y)%Q) by apply Qfloor_le.
  remember (Qfloor y) as f eqn:Ef. clear Ef.
  change (f # 1) with (inject_Z f).
  destruct (Qcompare_spec (y - inject_Z f) (1 # 2)) as [E|L|G].
  - assert (Hq : (inject_Z f < 1000)%Q) by lra.
    assert (Hlt : (f < 1000)%Z) by (unfold Qlt in Hq; simpl in Hq; lia).
    destruct (Z.odd f); split; unfold Qle, Qdiv, Qmult, Qinv; simpl; lia.
  - split; unfold Qle, Qdiv, Qmult, Qinv; simpl; lia.
  - assert (Hq : (inject_Z f < 1000)%Q) by lra.
    assert (Hlt : (f < 1000)%Z) by (unfold Qlt in Hq; simpl in Hq; lia).
    split; unfold Qle, Qdiv, Qmult, Qinv; simpl; lia.
Qed.

(** Rounding to one decimal place moves a value by at most 0.05, to a
    multiple of 0.1. *)
Lemma round1_error (x : Q) : (Qabs (Py.round 1 x - x) <= 1 # 20)%Q.
Proof.
  unfold Py.round. change (10 ^ Z.of_nat 1)%Z with 10%Z.
  pose proof (Qfloor_le (x * (10 # 1))) as Hl.
  pose proof (Qlt_floor (x * (10 # 1))) as Hu.
  remember (Qfloor (x * (10 # 1))) as f eqn:Ef. clear Ef.
  rewrite inject_Z_plus in Hu. change (inject_Z 1) with 1%Q in Hu.
  change (f # 1) with (inject_Z f).
  assert (E0 : (inject_Z f / (10 # 1) == inject_Z f * (1 # 10))%Q) by field.
  assert (E1 : (((f + 1)%Z # 1) / (10 # 1) == (inject_Z f + 1) * (1 # 10))%Q).
  { change ((f + 1)%Z # 1) with (inject_Z (f + 1)). rewrite inject_Z_plus. field. }
  apply Qabs_Qle_condition.
  destruct (Qcompare_spec (x * (10 # 1) - inject_Z f) (1 # 2)) as [E|L|G].
  - destruct (Z.odd f); [rewrite E1 | rewrite E0]; split; lra.
  - rewrite E0. split; lra.
  - rewrite E1. split; lra.
Qed.

Lemma round1_tenths (x : Q) : exists k : Z, (Py.round 1 x == inject_Z k / 10)%Q.
Proof.
  unfold Py.round. change (10 ^ Z.of_nat 1)%Z with 10%Z.
  eexists. reflexivity.
Qed.

Lemma clamp_bounds (x : Q) : (0 <= Spec.clamp x)%Q /\ (Spec.clamp x <= 100)%Q.
Proof.
  unfold Spec.clamp, Py.min, Py.max.
  destruct (Qlt_le_dec 0 x); destruct (Qlt_le_dec _ 100); split; lra.
Qed.

Lemma clamp_proper x y : (x == y)%Q -> (Spec.clamp x == Spec.clamp y)%Q.
Proof.
  intros E. unfold Spec.clamp, Py.min, Py.max.
  destruct (Qlt_le_dec 0 x); destruct (Qlt_le_dec 0 y);
    repeat match goal with
           | |- context [Qlt_le_dec ?a ?b] => destruct (Qlt_le_dec a b)
           end; lra.
Qed.
End PyFacts.

(** ** Synthesizer *)

Module SynthesizerFacts.
Import Synthesizer PyFacts.

Ltac split_ifs :=
  repeat match goal with
         | |- context [if ?c then _ else _] => destruct c
         end.

Lemma all_interventions_have_action a syn :
  Forall has_action (all_interventions a syn).
Proof.
  unfold all_interventions. apply List.Forall_app. split.
  - apply List.Forall_flat_map. apply List.Forall_forall. intros da _.
    apply List.Forall_map. apply List.Forall_forall. intros rec _.
    unfold has_action. simpl. discriminate.
  - apply List.Forall_map. apply List.Forall_forall. intros s _.
    unfold has_action. simpl. discriminate.
Qed.

Lemma prioritized_have_action a syn :
  Forall has_action (_prioritize_interventions a syn).
Proof.
  unfold _prioritize_interventions.
  apply firstn_Forall, sorted_desc_Forall, all_interventions_have_action.
Qed.

Lemma fill_timeline_total l :
  Forall has_action l -> forall acc, exists tl, fill_timeline l acc = Some tl.
Proof.
  induction 1 as [|i r Hi _ IH]; intros acc; simpl.
  - eauto.
  - unfold has_action in Hi. destruct (action i) as [k|]; [apply IH | congruence].
Qed.

(** [synthesize] returns on every input, and its result carries the
    synergies, the prioritized actions and the score computed by the
    helper functions. *)
Lemma synthesize_returns np_std a :
  exists r, synthesize np_std a = Some r
            /\ synergies r = _identify_synergies a
            /\ prioritized_actions r = _prioritize_interventions a (_identify_synergies a)
            /\ eco_score r = _calculate_eco_score a (_calculate_total_footprint a).
Proof.
  unfold synthesize, _analyze_potential_impact.
  destruct (fill_timeline_total _ (prioritized_have_action a (_identify_synergies a)) ∅)
    as [tl ->].
  eexists. split; [reflexivity|]. simpl. auto.
Qed.

Lemma prioritized_length a syn :
  (length (_prioritize_interventions a syn) <= 8)%nat.
Proof. unfold _prioritize_interventions. apply List.firstn_le_length. Qed.

(** No intervention built from a recommendation scores above 4.1. *)
Lemma recommendation_score_bound name an rec :
  (_calculate_priority_score (of_recommendation name an rec) <= 4.1)%Q.
Proof.
  unfold _calculate_priority_score, of_recommendation.
  cbn [priority feasibility urgency synergy_multiplier get].
  unfold priority_scores, feasibility_scores, urgency_scores,
    _assess_feasibility, _assess_urgency.
  split_ifs; vm_compute; discriminate.
Qed.

Lemma synergy_score_bound s :
  In s [local_circular_synergy; consolidation_synergy] ->
  (_calculate_priority_score (of_synergy s) < 4.65)%Q.
Proof. intros [<-|[<-|[]]]; vm_compute; reflexivity. Qed.

Lemma ev_solar_score : (_calculate_priority_score ev_solar_action == 4.65)%Q.
Proof. vm_compute. reflexivity. Qed.

Lemma identify_synergies_rule a :
  ev_solar_rule a = true ->
  exists rest, _identify_synergies a = ev_solar_synergy :: rest
               /\ incl rest [local_circular_synergy; consolidation_synergy].
Proof.
  intros H. unfold _identify_synergies. rewrite H.
  eexists. split; [reflexivity|].
  intros s Hs. apply in_app_or in Hs. destruct Hs as [Hs|Hs].
  - destruct (_ || _); [|destruct Hs]. destruct Hs as [<-|[]]. now left.
  - destruct (_ && _); [|destruct Hs]. destruct Hs as [<-|[]]. right. now left.
Qed.

Lemma ev_solar_dominates a rest y :
  incl rest [local_circular_synergy; consolidation_synergy] ->
  In y (all_interventions a (ev_solar_synergy :: rest)) ->
  y = ev_solar_action \/ (_calculate_priority_score y < 4.65)%Q.
Proof.
  intros Hrest Hy. unfold all_interventions in Hy.
  apply in_app_or in Hy. destruct Hy as [Hy|Hy].
  - right. apply in_flat_map in Hy. destruct Hy as (da & _ & Hy).
    apply in_map_iff in Hy. destruct Hy as (rec & <- & _).
    eapply Qle_lt_trans; [apply recommendation_score_bound|]. reflexivity.
  - simpl in Hy. destruct Hy as [<-|Hy]; [now left|].
    right. apply in_map_iff in Hy. destruct Hy as (s & <- & Hs).
    apply synergy_score_bound, Hrest, Hs.
Qed.

(** When the home-transport rule fires, its synthetic intervention has
    the strictly largest priority score and heads the sorted list. *)
Lemma ev_solar_first a :
  ev_solar_rule a = true ->
  hd_error (_prioritize_interventions a (_identify_synergies a)) = Some ev_solar_action.
Proof.
  intros H. destruct (identify_synergies_rule a H) as (rest & -> & Hrest).
  unfold _prioritize_interventions. rewrite firstn_hd_error.
  destruct (sorted_desc_head _calculate_priority_score
              (all_interventions a (ev_solar_synergy :: rest)))
    as (m & Hm & Hin & Hmax).
  { unfold all_interventions. intros E. apply app_eq_nil in E. destruct E as [_ E].
    discriminate. }
  rewrite Hm. f_equal.
  destruct (ev_solar_dominates a rest m Hrest Hin) as [E|Hlt]; [exact E|].
  exfalso.
  assert (Hev : In ev_solar_action (all_interventions a (ev_solar_synergy :: rest))).
  { unfold all_interventions. apply in_or_app. right. now left. }
  specialize (Hmax _ Hev). rewrite ev_solar_score in Hmax. lra.
Qed.
End SynthesizerFacts.

Module SynthesizerClaims.
Import Synthesizer PyFacts SynthesizerFacts Scenario.

(** C4. On every input [synthesize] returns a result whose
    [prioritized_actions] has at most 8 elements, and the list returned
    by the Evaluator's [_finalize_action_list] has at most 6 elements,
    for every store and plan. *)
Theorem action_lists_capped (np_std : list Q -> Q) (a : AgentAnalyses)
    (h : gmap nat Intervention) (plan : SynthesisResult nat) :
  (exists r, synthesize np_std a = Some r
             /\ (length (prioritized_actions r) <= 8)%nat)
  /\ (length (snd (Evaluator._finalize_action_list h plan)) <= 6)%nat.
Proof.
  split.
  - destruct (synthesize_returns np_std a) as (r & Hr & _ & Hp & _).
    exists r. split; [exact Hr|]. rewrite Hp. apply prioritized_length.
  - unfold Evaluator._finalize_action_list. cbn [snd]. apply List.firstn_le_length.
Qed.

(** C9. When the home is not renewable and the primary vehicle is a
    sedan, an SUV or a luxury car, [synthesize] returns a result whose
    synergies contain exactly one of type [home_transport_ev_solar], with
    multiplier 1.5, and the synthetic cross-domain intervention built
    from it, of priority high, is in the returned [prioritized_actions]
    (it is their first element). *)
Theorem ev_solar_synergy_emitted (np_std : list Q -> Q) (a : AgentAnalyses) :
  home_renewable a = false ->
  In (transport_type a) ["sedan"; "suv"; "luxury_car"] ->
  exists r, synthesize np_std a = Some r
    /\ List.filter (fun s => String.eqb (synergy_type s) "home_transport_ev_solar")
         (synergies r) = [ev_solar_synergy]
    /\ multiplier ev_solar_synergy = 1.5%Q
    /\ In ev_solar_action (prioritized_actions r)
    /\ hd_error (prioritized_actions r) = Some ev_solar_action
    /\ domain ev_solar_action = Some "cross_domain"
    /\ priority ev_solar_action = Some "high"
    /\ action ev_solar_action = Some (synergy_description ev_solar_synergy)
    /\ synergy_multiplier ev_solar_action = Some 1.5%Q.
Proof.
  intros Hh Ht.
  assert (Hrule : ev_solar_rule a = true).
  { unfold ev_solar_rule. rewrite Hh. cbn [negb andb].
    unfold Py.str_in. apply existsb_exists. exists (transport_type a).
    split; [exact Ht | apply String.eqb_refl]. }
  destruct (synthesize_returns np_std a) as (r & Hr & Hs & Hp & _).
  exists r. split; [exact Hr|].
  pose proof (ev_solar_first a Hrule) as Hhd. rewrite <- Hp in Hhd.
  split.
  { rewrite Hs. unfold _identify_synergies. rewrite Hrule.
    destruct (_ || _); destruct (_ && _); reflexivity. }
  split; [reflexivity|].
  split.
  { destruct (prioritized_actions r) as [|x l]; [discriminate|].
    injection Hhd as ->. now left. }
  repeat split; auto.
Qed.

(** The four fallback analyses satisfy the rule. *)
Lemma ev_solar_synergy_emitted_witness :
  home_renewable fallback_household = false
  /\ In (transport_type fallback_household) ["sedan"; "suv"; "luxury_car"]
  /\ exists r, synthesize (fun _ => 0%Q) fallback_household = Some r
               /\ hd_error (prioritized_actions r) = Some ev_solar_action.
Proof.
  assert (Hh : home_renewable fallback_household = false) by reflexivity.
  assert (Ht : In (transport_type fallback_household) ["sedan"; "suv"; "luxury_car"])
    by (simpl; auto).
  split; [exact Hh|]. split; [exact Ht|].
  destruct (ev_solar_synergy_emitted (fun _ => 0%Q) fallback_household Hh Ht)
    as (r & Hr & _ & _ & _ & Hhd & _).
  exists r. split; assumption.
Defined.
End SynthesizerClaims.

Module EcoScoreClaims.
Import Synthesizer PyFacts Scenario Notions.

(** C5, as stated, fails: for a household with total footprint 3.69 the
    unrounded formula gives 58.525 and the Synthesizer returns 58.5. *)
Lemma eco_score_counterexample :
  ~ (_calculate_eco_score light_household (_calculate_total_footprint light_household)
     == Spec.eco_score 0.5 0.4 0.9 0.5 (_calculate_total_footprint light_household))%Q.
Proof. intros H. vm_compute in H. discriminate H. Qed.

(** In exact arithmetic the Synthesizer's score is the specification's
    formula rounded to one decimal place. *)
Lemma eco_score_is_rounding (home transport diet shopping : DomainAnalysis)
    (total_footprint : Q) :
  _calculate_eco_score (four_domains home transport diet shopping) total_footprint
  = Py.round 1 (Spec.eco_score (efficiency home) (efficiency transport)
                  (efficiency diet) (efficiency shopping) total_footprint).
Proof.
  unfold _calculate_eco_score, Spec.eco_score. apply round_proper.
  apply clamp_proper.
  unfold avg_efficiency_score, four_domains, Py.sum, efficiency,
    Spec.weighted_domain_efficiency_avg, Spec.footprint_score, footprint_score,
    global_average_footprint.
  cbn [map fold_left fst snd domain_weights String.eqb Ascii.eqb Bool.eqb get].
  cbn -[Qplus Qminus Qdiv Qmult Py.max get efficiency_score].
  ring.
Qed.

(** C5, amended. For every map of the four domain analyses with
    efficiency scores between 0 and 1 and every total footprint that is
    not negative, the Synthesizer's eco_score is the specification's
    formula (0.6 times the weighted efficiency average scaled to 100 plus
    0.4 times the footprint score, clamped to the interval from 0 to 100)
    rounded to one decimal place: it lies between 0 and 100, it is a
    multiple of 0.1, and it differs from the formula by less than 0.06.
    The rounding accounts for at most 0.05; the rest of the tolerance
    covers the error of the binary64 operations, which on these ranges
    stays below 1e-12. *)
Theorem eco_score_within_rounding (home transport diet shopping : DomainAnalysis)
    (total_footprint : Q) :
  unit_interval (efficiency home) -> unit_interval (efficiency transport) ->
  unit_interval (efficiency diet) -> unit_interval (efficiency shopping) ->
  (0 <= total_footprint)%Q ->
  let score :=
    _calculate_eco_score (four_domains home transport diet shopping) total_footprint in
  let formula :=
    Spec.eco_score (efficiency home) (efficiency transport) (efficiency diet)
      (efficiency shopping) total_footprint in
  (0 <= score)%Q /\ (score <= 100)%Q
  /\ (exists k : Z, (score == inject_Z k / 10)%Q)
  /\ (Qabs (score - formula) < 0.06)%Q.
Proof.
  intros _ _ _ _ _. cbv zeta. rewrite eco_score_is_rounding.
  set (formula := Spec.eco_score _ _ _ _ _).
  pose proof (clamp_bounds
                (0.6 * (Spec.weighted_domain_efficiency_avg (efficiency home)
                          (efficiency transport) (efficiency diet)
                          (efficiency shopping) * 100)
                 + 0.4 * Spec.footprint_score total_footprint)) as [H0 H100].
  fold (Spec.eco_score (efficiency home) (efficiency transport) (efficiency diet)
          (efficiency shopping) total_footprint) in H0, H100.
  fold formula in H0, H100.
  split; [now apply round1_bounds|]. split; [now apply round1_bounds|].
  split; [apply round1_tenths|].
  apply Qle_lt_trans with (1 # 20)%Q; [apply round1_error | reflexivity].
Qed.

Lemma eco_score_within_rounding_witness :
  let home := analysis "home_guardian_001" 1.2 0.5 in
  let transport := analysis "transport_racer_002" 1.64 0.4 in
  let diet := analysis "diet_shaman_003" 0.25 0.9 in
  let shopping := analysis "shopping_ninja_004" 0.6 0.5 in
  unit_interval (efficiency home) /\ unit_interval (efficiency transport)
  /\ unit_interval (efficiency diet) /\ unit_interval (efficiency shopping)
  /\ (0 <= 3.69)%Q
  /\ (Qabs (_calculate_eco_score (four_domains home transport diet shopping) 3.69
            - Spec.eco_score 0.5 0.4 0.9 0.5 3.69) < 0.06)%Q.
Proof.
  cbv zeta.
  assert (H1 : unit_interval (efficiency (analysis "home_guardian_001" 1.2 0.5)))
    by (split; vm_compute; discriminate).
  assert (H2 : unit_interval (efficiency (analysis "transport_racer_002" 1.64 0.4)))
    by (split; vm_compute; discriminate).
  assert (H3 : unit_interval (efficiency (analysis "diet_shaman_003" 0.25 0.9)))
    by (split; vm_compute; discriminate).
  assert (H4 : unit_interval (efficiency (analysis "shopping_ninja_004" 0.6 0.5)))
    by (split; vm_compute; discriminate).
  assert (H5 : (0 <= 3.69)%Q) by (vm_compute; discriminate).
  pose proof (eco_score_within_rounding _ _ _ _ 3.69 H1 H2 H3 H4 H5) as H.
  cbv zeta in H. destruct H as (_ & _ & _ & H).
  repeat split; try assumption; first [apply H1 | apply H2 | apply H3 | apply H4].
Defined.
End EcoScoreClaims.

(** ** Refinement loop *)

Module RefinerFacts.
Import Store Refiner.

Lemma preserved_refl h : preserved h h.
Proof. intros l v H. eauto. Qed.

Lemma preserved_trans h1 h2 h3 :
  preserved h1 h2 -> preserved h2 h3 -> preserved h1 h3.
Proof.
  intros H12 H23 l v H. destruct (H12 l v H) as (v2 & H2 & E2).
  destruct (H23 l v2 H2) as (v3 & H3 & E3). exists v3. split; congruence.
Qed.

Lemma alloc_preserved h v : preserved h (fst (alloc h v)).
Proof.
  intros l w H. unfold alloc. simpl. exists w. split; [|reflexivity].
  rewrite lookup_insert_ne; [exact H|].
  intros <-. pose proof (is_fresh (dom h)) as Hf.
  apply Hf. apply elem_of_dom. eauto.
Qed.

Lemma alloc_all_preserved vs : forall h, preserved h (fst (alloc_all h vs)).
Proof.
  induction vs as [|v r IH]; intros h; cbn [alloc_all]; [apply preserved_refl|].
  pose proof (alloc_preserved h v) as H1.
  destruct (alloc h v) as [h1 l].
  pose proof (IH h1) as H2. destruct (alloc_all h1 r) as [h2 ls].
  simpl in *. exact (preserved_trans _ _ _ H1 H2).
Qed.

Lemma decompose_loop_preserved targets acts :
  forall h, preserved h (fst (decompose_loop h targets acts)).
Proof.
  induction acts as [|l r IH]; intros h; cbn [decompose_loop]; [apply preserved_refl|].
  destruct (mem h l targets).
  - pose proof (alloc_all_preserved (_decompose_action (deref h l)) h) as H1.
    destruct (alloc_all h _) as [h1 subs].
    pose proof (IH h1) as H2. destruct (decompose_loop h1 targets r) as [h2 rest].
    simpl in *. exact (preserved_trans _ _ _ H1 H2).
  - pose proof (IH h) as H2. destruct (decompose_loop h targets r) as [h2 rest].
    exact H2.
Qed.

Lemma annotate_preserved h l : preserved h (annotate h l).
Proof.
  unfold annotate. destruct (truthy_list _); [apply preserved_refl|].
  intros k v H. destruct (Nat.eq_dec l k) as [->|Hne].
  - rewrite lookup_insert_eq. eexists. split; [reflexivity|].
    unfold deref. rewrite H. reflexivity.
  - rewrite lookup_insert_ne by exact Hne. eauto.
Qed.

Lemma annotate_all_preserved refs : forall h, preserved h (fold_left annotate refs h).
Proof.
  induction refs as [|l r IH]; intros h; simpl; [apply preserved_refl|].
  eapply preserved_trans; [apply annotate_preserved | apply IH].
Qed.

Lemma apply_one_preserved h plan o : preserved h (fst (apply_one (h, plan) o)).
Proof.
  unfold apply_one.
  repeat match goal with
         | |- context [if ?c then _ else _] => destruct c
         end; simpl; try apply preserved_refl.
  - unfold _apply_decomposition_refinement.
    pose proof (decompose_loop_preserved (target_actions o) (prioritized_actions plan) h).
    destruct (decompose_loop _ _ _). exact H.
  - apply annotate_all_preserved.
Qed.

(** The refinements never remove a dictionary of the store and change an
    existing one at most in its tips. *)
Lemma apply_refinements_preserved opps :
  forall h plan, preserved h (fst (_apply_refinements h plan opps)).
Proof.
  unfold _apply_refinements.
  induction opps as [|o r IH]; intros h plan; cbn [fold_left]; [apply preserved_refl|].
  pose proof (apply_one_preserved h plan o) as H1.
  destruct (apply_one (h, plan) o) as [h1 p1].
  eapply preserved_trans; [exact H1 | apply IH].
Qed.

Lemma view_same_core h h' refs :
  preserved h h' -> live h refs -> Forall2 same_core (view h' refs) (view h refs).
Proof.
  intros Hp. induction refs as [|l r IH]; intros Hl; simpl; constructor.
  - unfold same_core, deref.
    destruct (h !! l) as [v|] eqn:E.
    + destruct (Hp l v E) as (v' & -> & Hv). exact Hv.
    + exfalso. apply (Hl l); [now left | exact E].
  - apply IH. intros k Hk. apply Hl. now right.
Qed.

Section CoreFunctions.
Context {B : Type} (f : Intervention -> B).
Hypothesis f_core : forall a b, same_core a b -> f a = f b.

Lemma map_same_core l1 l2 : Forall2 same_core l1 l2 -> map f l1 = map f l2.
Proof. induction 1; simpl; f_equal; auto. Qed.
End CoreFunctions.

Lemma filter_same_core (p : Intervention -> bool) l1 l2 :
  (forall a b, same_core a b -> p a = p b) ->
  Forall2 same_core l1 l2 ->
  length (List.filter p l1) = length (List.filter p l2).
Proof.
  intros Hp. induction 1 as [|a b r1 r2 Hab _ IH]; simpl; [reflexivity|].
  rewrite (Hp a b Hab). destruct (p b); simpl; congruence.
Qed.

Ltac unfold_metrics :=
  unfold feasibility_value, Synthesizer.mentions_high, is_cost_effective,
    is_clear, is_balanced.

Ltac core_fn :=
  intros H; unfold same_core, strip_tips in H;
  injection H; intros; unfold_metrics; cbv zeta;
  repeat match goal with E : _ = _ |- _ => rewrite E; clear E end;
  reflexivity.

Lemma feasibility_value_core a b : same_core a b -> feasibility_value a = feasibility_value b.
Proof. core_fn. Qed.

Lemma mentions_high_core a b :
  same_core a b -> Synthesizer.mentions_high a = Synthesizer.mentions_high b.
Proof. core_fn. Qed.

Lemma is_cost_effective_core a b : same_core a b -> is_cost_effective a = is_cost_effective b.
Proof. core_fn. Qed.

Lemma is_clear_core a b : same_core a b -> is_clear a = is_clear b.
Proof. core_fn. Qed.

Lemma is_balanced_core a b : same_core a b -> is_balanced a = is_balanced b.
Proof. core_fn. Qed.

(** The five quality metrics read no tips. *)
Lemma assess_same_core l1 l2 : Forall2 same_core l1 l2 -> assess l1 = assess l2.
Proof.
  intros H. unfold assess, count, count1.
  rewrite (map_same_core _ feasibility_value_core _ _ H).
  rewrite (filter_same_core _ _ _ mentions_high_core H).
  rewrite (filter_same_core _ _ _ is_cost_effective_core H).
  rewrite (filter_same_core _ _ _ is_clear_core H).
  rewrite (filter_same_core _ _ _ is_balanced_core H).
  rewrite (Forall2_length _ _ _ H).
  destruct H; reflexivity.
Qed.

(** The quality of the input plan is the same before and after the
    refinements, although they may annotate its dictionaries. *)
Lemma input_quality_unchanged h synthesis opps :
  live h (prioritized_actions synthesis) ->
  _assess_plan_quality (fst (_apply_refinements h synthesis opps)) synthesis
  = _assess_plan_quality h synthesis.
Proof.
  intros Hl. unfold _assess_plan_quality. apply assess_same_core.
  apply view_same_core; [apply apply_refinements_preserved | exact Hl].
Qed.
End RefinerFacts.

Module RefinerClaims.
Import Store Refiner PyFacts RefinerFacts Scenario.

(** C3. For every store, every plan whose actions are dictionaries of
    the store and every history, the record returned by [refine_plan]
    has [validation_passed] exactly when [overall_improvement > 0] and
    [significant_improvement] exactly when [overall_improvement > 0.1],
    where [overall_improvement] is the mean over the five quality
    metrics of the metric on the refined plan (in the store after the
    call) minus the metric on the input plan (in the store before the
    call). *)
Theorem refine_plan_validation (h : gmap nat Intervention)
    (synthesis : SynthesisResult nat) (history : list RefinementRecord) :
  live h (prioritized_actions synthesis) ->
  let h' := fst (refine_plan h synthesis history) in
  let r := snd (refine_plan h synthesis history) in
  let v := improvement_validation r in
  let before := _assess_plan_quality h synthesis in
  let after := _assess_plan_quality h' (refined_plan r) in
  (validation_passed v = true <-> (0 < overall_improvement v)%Q)
  /\ (significant_improvement v = true <-> (0.1 < overall_improvement v)%Q)
  /\ (overall_improvement v ==
      ((feasibility_score after - feasibility_score before)
       + (impact_score after - impact_score before)
       + (cost_effectiveness after - cost_effectiveness before)
       + (implementation_clarity after - implementation_clarity before)
       + (user_alignment after - user_alignment before)) / 5)%Q.
Proof.
  intros Hl. unfold refine_plan.
  set (opps := _identify_refinement_opportunities h synthesis history
                 (_assess_plan_quality h synthesis)).
  pose proof (input_quality_unchanged h synthesis opps Hl) as Hq.
  destruct (_apply_refinements h synthesis opps) as [h' refined].
  cbn [fst snd improvement_validation refined_plan] in *.
  unfold _validate_improvements. rewrite Hq.
  cbn [validation_passed significant_improvement overall_improvement].
  split; [apply ltb_spec|]. split; [apply ltb_spec|].
  unfold metrics, count. cbn [map fst snd improvement length].
  cbn -[Qplus Qminus Qdiv Qmult _assess_plan_quality].
  unfold Py.sum. cbn [fold_left].
  field.
Qed.

Lemma refine_plan_validation_witness :
  live one_action_store (prioritized_actions one_action_plan)
  /\ (validation_passed (improvement_validation first_pass) = true
      <-> (0 < overall_improvement (improvement_validation first_pass))%Q).
Proof.
  assert (Hl : live one_action_store (prioritized_actions one_action_plan)).
  { intros l [<-|[]]. vm_compute. discriminate. }
  split; [exact Hl|].
  exact (proj1 (refine_plan_validation one_action_store one_action_plan [] Hl)).
Defined.
End RefinerClaims.

(** ** Workflow orchestrator *)

Module WorkflowClaims.
Import Workflow.

Section Facts.
Context `{stages : Stages Supervisor Synthesis Refinement Evaluation}.

Local Abbreviation State :=
  (@WorkflowState Supervisor Synthesis Refinement Evaluation).

Lemma history_after_setup (st : State) sid input sr d s :
  refinement_history
    (set_synthesis s (set_domains d (set_supervisor sr (set_session sid input st))))
  = refinement_history st.
Proof. reflexivity. Qed.

Lemma history_after_refinement (st : State) r :
  refinement_history (append_refinement r st) = refinement_history st ++ [r].
Proof. reflexivity. Qed.

(** An exception of any stage reaches the [except] clause together
    with the workflow state as updated so far. *)
Lemma run_complete_analysis_caught (st : State) (sid input e : string) :
  stage_raises st input e ->
  snd (run_complete_analysis st sid input)
  = failure_result e (fst (run_complete_analysis st sid input)).
Proof.
  intros H.
  unfold run_complete_analysis, try_block, refinement_step,
    bind, await, update, read, ret.
  destruct H as [H | sr H1 H2 | sr s H1 H2 H3 H4 | sr s r H1 H2 H3 H4 H5
                | sr s H1 H2 H3 H4].
  - rewrite H. reflexivity.
  - rewrite H1, H2. reflexivity.
  - rewrite H1, H2, H3, history_after_setup, H4. reflexivity.
  - rewrite H1, H2, H3, history_after_setup, H4.
    rewrite history_after_refinement, history_after_setup, H5. reflexivity.
  - rewrite H1, H2, H3, history_after_setup, H4. reflexivity.
Qed.

(** C1. [run_complete_analysis] is a total function into result
    objects: no exception escapes it.  Whenever the supervisor, the
    synthesis, the refinement or the evaluation raises [e], the result
    is the one of the [except] clause: tagged
    ["Workflow failed: " + str(e)], with eco_score 25,
    total_carbon_footprint 12.5 and the one-item plan. *)
Theorem run_complete_analysis_fallback (st : State) (sid input e : string) :
  stage_raises st input e ->
  let st' := fst (run_complete_analysis st sid input) in
  let result := snd (run_complete_analysis st sid input) in
  result = failure_result e st'
  /\ error result = Some (String.append "Workflow failed: " e)
  /\ partial_results result = Some st'
  /\ eco_score result = 25%Q
  /\ total_carbon_footprint result = 12.5%Q
  /\ prioritized_actions result = [led_action].
Proof.
  intros H. cbv zeta. rewrite (run_complete_analysis_caught st sid input e H).
  repeat split; reflexivity.
Qed.

End Facts.

Lemma run_complete_analysis_fallback_witness :
  stage_raises (stages:=Scenario.broken_stages) Scenario.fresh_state
    "I drive an SUV in Tokyo" "synthesis unavailable"
  /\ eco_score (snd (run_complete_analysis (stages:=Scenario.broken_stages)
                       Scenario.fresh_state "session_20250101_120000"
                       "I drive an SUV in Tokyo")) = 25%Q.
Proof.
  assert (H : stage_raises (stages:=Scenario.broken_stages) Scenario.fresh_state
                "I drive an SUV in Tokyo" "synthesis unavailable").
  { apply (synthesis_raises (stages:=Scenario.broken_stages) _ _ _ tt); reflexivity. }
  split; [exact H|].
  exact (proj1 (proj2 (proj2 (proj2
    (run_complete_analysis_fallback (stages:=Scenario.broken_stages)
       Scenario.fresh_state "session_20250101_120000" "I drive an SUV in Tokyo"
       "synthesis unavailable" H))))).
Defined.

End WorkflowClaims.

(** ** The numeric signal of an intervention *)

Module SignalClaims.
Import PyFacts Scenario.

Lemma max_of_le x y : (x <= y)%Q -> (Py.max x y == y)%Q.
Proof. intros H. unfold Py.max. destruct (Qlt_le_dec x y); lra. Qed.

Lemma leb_le x y : Py.leb x y = true -> (x <= y)%Q.
Proof. unfold Py.leb. destruct (Qlt_le_dec y x); [discriminate | auto]. Qed.

(** The maximum of a list that never decreases is its last element. *)
Lemma max_of_nondecreasing (r : list Q) : forall x z d,
  (x == z)%Q -> Spec.nondecreasing (z :: r) = true ->
  (fold_left Py.max r x == List.last (z :: r) d)%Q.
Proof.
  induction r as [|y r IH]; intros x z d E H.
  - exact E.
  - cbn [Spec.nondecreasing] in H. apply andb_prop in H. destruct H as [Hzy Hr].
    apply leb_le in Hzy.
    cbn [fold_left]. change (List.last (z :: y :: r) d) with (List.last (y :: r) d).
    apply IH; [|exact Hr]. apply max_of_le. lra.
Qed.

Lemma last_opt_split {A} (l : list A) (x : A) :
  Py.last_opt l = Some x -> exists t, l = t ++ [x].
Proof.
  unfold Py.last_opt. intros H.
  destruct (rev l) as [|y t] eqn:E; [discriminate|]. injection H as ->.
  exists (rev t). rewrite <- (rev_involutive l), E. reflexivity.
Qed.

Lemma last_opt_none {A} (l : list A) : Py.last_opt l = None -> l = [].
Proof.
  unfold Py.last_opt. destruct (rev l) eqn:E; [|discriminate].
  intros _. rewrite <- (rev_involutive l), E. reflexivity.
Qed.

(** On a text encoding a range, [numbers[-1]] is the largest number,
    whatever the default of the reader. *)
Lemma last_number_is_largest (text : string) (dflt : Q) :
  Spec.encodes_range text = true ->
  exists m, Spec.largest_number text = Some m
            /\ (Py.last_number_or dflt text == m)%Q.
Proof.
  unfold Spec.encodes_range, Spec.largest_number, Py.last_number_or.
  destruct (Py.last_opt (Py.findall_numbers text)) as [d|] eqn:El.
  - destruct (last_opt_split _ _ El) as [t Et]. rewrite Et, map_app. cbn [map].
    destruct (map Py.to_float t ++ [Py.to_float d]) as [|x r] eqn:E; [discriminate|].
    intros Hnd. eexists. split; [reflexivity|].
    rewrite (max_of_nondecreasing r x x 0 (Qeq_refl x) Hnd), <- E, last_last.
    reflexivity.
  - rewrite (last_opt_none _ El). discriminate.
Qed.

(** Every reduction estimate written in the sources encodes a range: a
    single number, or a lower and an upper bound in this order. *)
Lemma written_reductions_encode_ranges :
  Forall (fun text => Spec.encodes_range text = true) Catalogue.co2_reductions.
Proof. repeat constructor. Qed.

(** The hypothesis on the text is needed: for "5 tons/year within 2
    years", a text that no agent writes, the three readers take 2 and
    the largest number is 5. *)
Remark last_number_outside_ranges :
  Spec.encodes_range (get (co2_reduction phased_retrofit) "") = false
  /\ (Synthesizer.reduction_of phased_retrofit == 2)%Q
  /\ (Refiner.impact_score_of phased_retrofit == 2)%Q
  /\ (Evaluator._define_expected_outcomes [phased_retrofit] == 2)%Q
  /\ (exists m, Spec.largest_number (get (co2_reduction phased_retrofit) "") = Some m
                /\ (m == 5)%Q).
Proof.
  split; [vm_compute; reflexivity|].
  split; [vm_compute; reflexivity|]. split; [vm_compute; reflexivity|].
  split; [vm_compute; reflexivity|].
  eexists. split; [vm_compute; reflexivity | reflexivity].
Qed.

(** C7. For every Intervention whose [co2_reduction] text encodes a
    numeric range, as the data model has it (the default "0.5 tons/year"
    standing for a missing text), the numeric signal is the largest
    number of the text, its upper bound: this is the value the
    Synthesizer adds to total_potential_reduction, the value the
    Refinement loop sorts by in impact_prioritization, and the value the
    Evaluator adds to the expected-outcomes CO2 total. *)
Theorem numeric_signal_is_upper_bound (a : Intervention) :
  let text := get (co2_reduction a) "0.5 tons/year" in
  Spec.encodes_range text = true ->
  exists m, Spec.largest_number text = Some m
            /\ (Synthesizer.reduction_of a == m)%Q
            /\ (Refiner.impact_score_of a == m)%Q
            /\ (Evaluator._define_expected_outcomes [a] == m)%Q.
Proof.
  cbv zeta. unfold Synthesizer.reduction_of, Refiner.impact_score_of,
    Evaluator._define_expected_outcomes. cbn [fold_left].
  destruct (co2_reduction a) as [text|]; cbn [get].
  - intros H.
    destruct (last_number_is_largest text 0 H) as (m & Em & E0).
    destruct (last_number_is_largest text 0.5 H) as (m' & Em' & E5).
    rewrite Em in Em'. injection Em' as <-.
    exists m. split; [exact Em|]. split; [exact E0|]. split; [exact E5|].
    rewrite E0. ring.
  - intros _. eexists. split; [vm_compute; reflexivity|].
    split; [vm_compute; reflexivity|]. split; vm_compute; reflexivity.
Qed.

Lemma numeric_signal_is_upper_bound_witness :
  Spec.encodes_range (get (co2_reduction Examples.heat_pump) "0.5 tons/year") = true
  /\ (Synthesizer.reduction_of Examples.heat_pump == 4)%Q
  /\ (Refiner.impact_score_of Examples.heat_pump == 4)%Q
  /\ (Evaluator._define_expected_outcomes [Examples.heat_pump] == 4)%Q.
Proof.
  assert (H : Spec.encodes_range
                (get (co2_reduction Examples.heat_pump) "0.5 tons/year") = true)
    by (vm_compute; reflexivity).
  split; [exact H|].
  destruct (numeric_signal_is_upper_bound Examples.heat_pump H)
    as (m & Em & H1 & H2 & H3).
  assert (E : (m == 4)%Q).
  { vm_compute in Em. injection Em as <-. reflexivity. }
  rewrite H1, H2, H3. repeat split; exact E.
Defined.
End SignalClaims.

(** ** Defects *)

Module DefectClaims.
Import Scenario.

(** C6. The alignment score is the number of satisfied (trait, action)
    rules divided by the number of actions, not by the number of pairs:
    for a user asking for cheap and easy options and one cost-saving,
    highly feasible action it is 2, above the bound 1, and the alignment
    bonus of the final EcoScore is 30, above the 15 points its comment
    allows. *)
Theorem alignment_score_exceeds_one :
  (Evaluator.alignment_score [public_transport] thrifty_request == 2)%Q
  /\ ~ (Evaluator.alignment_score [public_transport] thrifty_request <= 1)%Q
  /\ (Evaluator.alignment_bonus
        (Evaluator.alignment_score [public_transport] thrifty_request) == 30)%Q.
Proof.
  split; [vm_compute; reflexivity|]. split; [|vm_compute; reflexivity].
  intros H. vm_compute in H. apply H. reflexivity.
Qed.

(** C8. No text is classified as a bike or as walking, although the
    emission table gives the bike the factor 0.  For "I am vegan, I
    bike to work in Tokyo" the primary vehicle is a motorcycle and the
    vehicle component of the footprint is 1.6425 t/year (1.64 after
    rounding), not 0; the diet footprint is lower than the one of the
    empty text. *)
Theorem bike_is_scored_as_motorcycle :
  let transport := Transport._analyze_transport_patterns cyclist_text in
  let diet := Diet._analyze_dietary_patterns cyclist_text in
  (forall text,
      primary_vehicle (Transport._analyze_transport_patterns text) <> "bike"
      /\ primary_vehicle (Transport._analyze_transport_patterns text) <> "walk")
  /\ primary_vehicle transport = "motorcycle"
  /\ (Transport.annual_vehicle_emissions transport == 1.6425)%Q
  /\ (Transport._calculate_transport_carbon_footprint transport == 1.64)%Q
  /\ Transport.emission_factors "bike" = Some 0%Q
  /\ (Diet._calculate_diet_carbon_footprint diet
      < Diet._calculate_diet_carbon_footprint (Diet._analyze_dietary_patterns ""))%Q.
Proof.
  cbv zeta. split.
  { intros text. unfold Transport._analyze_transport_patterns. cbn [primary_vehicle].
    unfold Transport.vehicle_keywords. cbn [Transport.first_category].
    repeat match goal with
           | |- context [if ?c then _ else _] => destruct c
           end; split; discriminate. }
  repeat split; vm_compute; reflexivity.
Qed.

(** C10. With a history in which an opportunity type recurs,
    [refine_plan] writes implementation tips into the dictionary of the
    input plan's own action: the input is changed by the call. *)
Theorem refine_plan_annotates_input :
  let h' := fst (Refiner.refine_plan one_action_store one_action_plan repeated_history) in
  In 0%nat (prioritized_actions one_action_plan)
  /\ implementation_tips (Store.deref one_action_store 0) = None
  /\ implementation_tips (Store.deref h' 0)
     = Some ["Start with small, manageable steps"; "Track progress regularly";
             "Celebrate small wins"]
  /\ h' !! 0%nat <> one_action_store !! 0%nat.
Proof.
  cbv zeta. split; [now left|]. split; [reflexivity|].
  assert (E : implementation_tips
                (Store.deref
                   (fst (Refiner.refine_plan one_action_store one_action_plan
                           repeated_history)) 0)
              = Some ["Start with small, manageable steps"; "Track progress regularly";
                      "Celebrate small wins"]) by (vm_compute; reflexivity).
  split; [exact E|].
  intros H. unfold Store.deref in E. rewrite H in E. vm_compute in E. discriminate E.
Qed.
End DefectClaims.

(** * Further properties of the code *)

(** ** Sorting and rounding: order and monotonicity *)

Module MorePyFacts.
Import PyFacts Notions.

Section Sorting.
Context {A : Type} (key : A -> Q).

Lemma insert_desc_sorted x (l : list A) :
  StronglySorted (ge_key key) l -> StronglySorted (ge_key key) (Py.insert_desc key x l).
Proof.
  induction 1 as [|y r Hr IH Hy]; simpl.
  - repeat constructor.
  - unfold Py.ltb. destruct (Qlt_le_dec (key x) (key y)) as [Hlt|Hle].
    + constructor; [exact IH|].
      apply List.Forall_forall. intros z Hz.
      apply insert_desc_In in Hz. destruct Hz as [->|Hz].
      * unfold ge_key. now apply Qlt_le_weak.
      * rewrite List.Forall_forall in Hy. now apply Hy.
    + constructor; [now constructor|].
      constructor; [exact Hle|].
      rewrite List.Forall_forall in Hy |- *. intros z Hz.
      unfold ge_key in *. eapply Qle_trans; [now apply Hy | exact Hle].
Qed.

Lemma sorted_desc_sorted (l : list A) : StronglySorted (ge_key key) (Py.sorted_desc key l).
Proof.
  induction l as [|x r IH]; simpl; [constructor | now apply insert_desc_sorted].
Qed.

Lemma insert_desc_perm x (l : list A) : Permutation (Py.insert_desc key x l) (x :: l).
Proof.
  induction l as [|y r IH]; simpl; [reflexivity|].
  destruct (Py.ltb (key x) (key y)); [|reflexivity].
  rewrite IH. apply perm_swap.
Qed.

Lemma sorted_desc_perm (l : list A) : Permutation (Py.sorted_desc key l) l.
Proof.
  induction l as [|x r IH]; simpl; [reflexivity|].
  rewrite insert_desc_perm. now constructor.
Qed.

Lemma firstn_sorted n (l : list A) :
  StronglySorted (ge_key key) l -> StronglySorted (ge_key key) (firstn n l).
Proof.
  intros H. revert n. induction H as [|y r Hr IH Hy]; intros [|n]; simpl;
    try constructor; auto.
  now apply firstn_Forall.
Qed.

(** In a sorted list, what a slice keeps outranks what it drops. *)
Lemma firstn_dominates n (l : list A) :
  StronglySorted (ge_key key) l ->
  forall a b, In a (firstn n l) -> In b (skipn n l) -> (key b <= key a)%Q.
Proof.
  intros H. revert n. induction H as [|y r Hr IH Hy]; intros [|n] a b Ha Hb;
    simpl in *; try contradiction.
  destruct Ha as [<-|Ha].
  - rewrite List.Forall_forall in Hy. apply Hy.
    rewrite <- (firstn_skipn n r). apply in_or_app. now right.
  - eapply IH; eauto.
Qed.
End Sorting.

Lemma round_nearest n x :
  Py.round n x
  = ((nearest_even (x * (10 ^ Z.of_nat n # 1)) # 1) / (10 ^ Z.of_nat n # 1))%Q.
Proof.
  unfold Py.round, nearest_even.
  destruct (_ ?= _)%Q; try reflexivity; destruct (Z.odd _); reflexivity.
Qed.

Lemma nearest_even_mono x y : (x <= y)%Q -> (nearest_even x <= nearest_even y)%Z.
Proof.
  intros H. pose proof (Qfloor_resp_le _ _ H) as Hf.
  pose proof (Qfloor_le x) as Hx1. pose proof (Qlt_floor x) as Hx2.
  pose proof (Qfloor_le y) as Hy1. pose proof (Qlt_floor y) as Hy2.
  unfold nearest_even.
  change (Qfloor x # 1) with (inject_Z (Qfloor x)).
  change (Qfloor y # 1) with (inject_Z (Qfloor y)).
  destruct (Z.eq_dec (Qfloor x) (Qfloor y)) as [E|NE].
  - rewrite <- E in *.
    destruct (Qcompare_spec (x - inject_Z (Qfloor x)) (1 # 2));
      destruct (Qcompare_spec (y - inject_Z (Qfloor x)) (1 # 2));
      destruct (Z.odd (Qfloor x)); try lia; exfalso; lra.
  - assert (Qfloor x + 1 <= Qfloor y)%Z by lia.
    destruct (_ ?= _)%Q; destruct (_ ?= _)%Q; repeat destruct (Z.odd _); lia.
Qed.

Lemma pow10_pos n : (0 < 10 ^ Z.of_nat n)%Z.
Proof. apply Z.pow_pos_nonneg; lia. Qed.

Lemma scale_pos n : (0 < (10 ^ Z.of_nat n # 1))%Q.
Proof. unfold Qlt. simpl. pose proof (pow10_pos n). lia. Qed.

(** Rounding is monotone. *)
Lemma round_mono n x y : (x <= y)%Q -> (Py.round n x <= Py.round n y)%Q.
Proof.
  intros H. rewrite !round_nearest.
  pose proof (scale_pos n) as Hs.
  assert (Hxy : (x * (10 ^ Z.of_nat n # 1) <= y * (10 ^ Z.of_nat n # 1))%Q).
  { apply Qmult_le_compat_r; [exact H | now apply Qlt_le_weak]. }
  pose proof (nearest_even_mono _ _ Hxy) as Hz.
  apply Qmult_le_compat_r.
  - unfold Qle. simpl. lia.
  - apply Qlt_le_weak. now apply Qinv_lt_0_compat.
Qed.

(** Integers are fixed points of rounding. *)
Lemma round_integer n (k : Z) : (Py.round n (inject_Z k) == inject_Z k)%Q.
Proof.
  rewrite round_nearest.
  assert (E : nearest_even (inject_Z k * (10 ^ Z.of_nat n # 1))
              = (k * 10 ^ Z.of_nat n)%Z).
  { assert (Ey : (inject_Z k * (10 ^ Z.of_nat n # 1)
                  == inject_Z (k * 10 ^ Z.of_nat n))%Q).
    { unfold Qeq, inject_Z, Qmult. simpl. lia. }
    unfold nearest_even.
    rewrite (Qfloor_comp _ _ Ey), Qfloor_Z.
    assert (Er : (inject_Z k * (10 ^ Z.of_nat n # 1) - (k * 10 ^ Z.of_nat n # 1)
                  == 0)%Q).
    { rewrite Ey. unfold inject_Z. ring. }
    rewrite (Qcompare_comp _ _ Er _ _ (Qeq_refl (1 # 2))). reflexivity. }
  rewrite E. pose proof (pow10_pos n).
  unfold Qeq, Qdiv, Qmult, Qinv, inject_Z. simpl.
  destruct (10 ^ Z.of_nat n)%Z eqn:Ep; try lia. simpl. lia.
Qed.

Lemma round_between n (a b : Z) x :
  (inject_Z a <= x)%Q -> (x <= inject_Z b)%Q ->
  (inject_Z a <= Py.round n x)%Q /\ (Py.round n x <= inject_Z b)%Q.
Proof.
  intros Ha Hb. split.
  - rewrite <- (round_integer n a). now apply round_mono.
  - rewrite <- (round_integer n b). now apply round_mono.
Qed.
End MorePyFacts.

(** ** Synthesizer: ranking, phases and bounds *)

Module SynthesizerExtras.
Import Synthesizer PyFacts SynthesizerFacts MorePyFacts Notions.

(** X1. [synthesize] returns on every map of analyses, and its
    prioritized actions are drawn from the pool of interventions built
    from the recommendations and the synergies, listed by decreasing
    priority score, and every intervention left out scores no higher
    than every one kept. *)
Theorem prioritized_actions_ranked (np_std : list Q -> Q) (a : AgentAnalyses) :
  exists r, synthesize np_std a = Some r
    /\ StronglySorted (ge_key _calculate_priority_score) (prioritized_actions r)
    /\ (forall i, In i (prioritized_actions r) ->
                  In i (all_interventions a (_identify_synergies a)))
    /\ (forall kept dropped,
           In kept (prioritized_actions r) ->
           In dropped (all_interventions a (_identify_synergies a)) ->
           ~ In dropped (prioritized_actions r) ->
           (_calculate_priority_score dropped <= _calculate_priority_score kept)%Q).
Proof.
  destruct (synthesize_returns np_std a) as (r & Hr & _ & Hp & _).
  exists r. split; [exact Hr|]. rewrite Hp. unfold _prioritize_interventions.
  set (pool := all_interventions a (_identify_synergies a)).
  pose proof (sorted_desc_sorted _calculate_priority_score pool) as Hs.
  split; [now apply firstn_sorted|]. split.
  - intros i Hi. apply (sorted_desc_In _calculate_priority_score).
    rewrite <- (firstn_skipn 8 (Py.sorted_desc _ pool)). apply in_or_app. now left.
  - intros kept dropped Hk Hd Hn.
    apply (firstn_dominates _calculate_priority_score 8 _ Hs); [exact Hk|].
    apply (sorted_desc_In _calculate_priority_score) in Hd.
    rewrite <- (firstn_skipn 8 (Py.sorted_desc _ pool)) in Hd.
    apply in_app_or in Hd. destruct Hd as [Hd|Hd]; [contradiction | exact Hd].
Qed.

(** X2. When the pool holds at most eight interventions, the slice
    [[:8]] drops nothing: the prioritized actions are a reordering of
    the whole pool. *)
Theorem small_pool_only_reordered (np_std : list Q -> Q) (a : AgentAnalyses) :
  (length (all_interventions a (_identify_synergies a)) <= 8)%nat ->
  exists r, synthesize np_std a = Some r
    /\ Permutation (prioritized_actions r) (all_interventions a (_identify_synergies a)).
Proof.
  intros Hlen. destruct (synthesize_returns np_std a) as (r & Hr & _ & Hp & _).
  exists r. split; [exact Hr|]. rewrite Hp. unfold _prioritize_interventions.
  rewrite List.firstn_all2 by (rewrite sorted_desc_length; exact Hlen).
  apply sorted_desc_perm.
Qed.

(** X3. [_identify_synergies] yields at most three synergies, of
    pairwise different types, each over two domains with a multiplier
    above 1; each one enters the pool as one cross-domain intervention
    of high priority. *)
Theorem synergies_fire_at_most_once (a : AgentAnalyses) :
  let syn := _identify_synergies a in
  (length syn <= 3)%nat
  /\ List.NoDup (map synergy_type syn)
  /\ (forall s, In s syn ->
        (1 < multiplier s)%Q /\ length (synergy_domains s) = 2%nat
        /\ In (of_synergy s) (all_interventions a syn)
        /\ priority (of_synergy s) = Some "high")
  /\ length (List.filter (fun i => Store.opt_eqb String.eqb (domain i) (Some "cross_domain"))
               (map of_synergy syn)) = length syn.
Proof.
  cbv zeta. unfold _identify_synergies.
  destruct (ev_solar_rule a); destruct (_ || _); destruct (_ && _);
    cbn [app length map List.filter of_synergy domain synergy_type
           Store.opt_eqb String.eqb Ascii.eqb Bool.eqb
           ev_solar_synergy local_circular_synergy consolidation_synergy].
  all: split; [lia|].
  all: split; [repeat (constructor; [simpl; intuition discriminate|]); constructor|].
  all: split; [|reflexivity].
  all: intros s Hs; simpl in Hs.
  all: repeat (destruct Hs as [<-|Hs];
               [ split; [reflexivity|]; split; [reflexivity|]; split; [|reflexivity];
                 unfold all_interventions; apply in_or_app; right; simpl; tauto |]).
  all: contradiction.
Qed.

Lemma three_way_partition {A} (f : A -> nat) (l : list A) :
  (forall x, In x l -> f x = 1 \/ f x = 2 \/ f x = 3)%nat ->
  Permutation
    (List.filter (fun x => Nat.eqb (f x) 1) l
     ++ List.filter (fun x => Nat.eqb (f x) 2) l
     ++ List.filter (fun x => Nat.eqb (f x) 3) l) l.
Proof.
  induction l as [|x r IH]; intros H; simpl; [reflexivity|].
  assert (IH' := IH (fun y Hy => H y (or_intror Hy))).
  destruct (H x (or_introl eq_refl)) as [E|[E|E]]; rewrite E; simpl.
  - now constructor.
  - rewrite <- Permutation_middle. now constructor.
  - rewrite app_assoc, <- Permutation_middle, <- app_assoc. now constructor.
Qed.

Lemma phase_of_range i : (phase_of i = 1 \/ phase_of i = 2 \/ phase_of i = 3)%nat.
Proof. unfold phase_of. split_ifs; auto. Qed.

(** X4. The three phases of the integrated plan partition the
    prioritized actions: every action is in exactly one phase, there is
    one cluster per synergy, and the immediate phase holds only actions
    of high feasibility. *)
Theorem integrated_plan_partitions (np_std : list Q -> Q) (a : AgentAnalyses) :
  exists r, synthesize np_std a = Some r
    /\ Permutation
         (phase_1_immediate _ (integrated_plan r)
          ++ phase_2_short_term _ (integrated_plan r)
          ++ phase_3_long_term _ (integrated_plan r))
         (prioritized_actions r)
    /\ length (synergy_clusters _ (integrated_plan r)) = length (synergies r)
    /\ (forall i, In i (phase_1_immediate _ (integrated_plan r)) ->
                  feasibility i = Some "high").
Proof.
  unfold synthesize.
  destruct (_analyze_potential_impact _) as [ia|] eqn:E.
  2:{ destruct (synthesize_returns np_std a) as (r & Hr & _).
      unfold synthesize in Hr. rewrite E in Hr. discriminate. }
  eexists. split; [reflexivity|]. cbn [integrated_plan prioritized_actions synergies].
  unfold _create_integrated_plan.
  cbn [phase_1_immediate phase_2_short_term phase_3_long_term synergy_clusters].
  split; [apply three_way_partition; intros; apply phase_of_range|].
  split; [apply length_map|].
  intros i Hi. apply filter_In in Hi. destruct Hi as [Hin Hp].
  unfold phase_of in Hp.
  destruct (feasibility i) as [f|]; cbn [get] in Hp.
  - destruct (String.eqb f "high") eqn:Ef.
    + apply String.eqb_eq in Ef. now subst.
    + rewrite andb_false_r in Hp. destruct (Py.str_in _ _); discriminate.
  - change (String.eqb "medium" "high") with false in Hp.
    rewrite andb_false_r in Hp. destruct (Py.str_in _ _); discriminate.
Qed.

Lemma clamp_mono x y : (x <= y)%Q -> (Spec.clamp x <= Spec.clamp y)%Q.
Proof.
  intros H. unfold Spec.clamp, Py.min, Py.max.
  destruct (Qlt_le_dec 0 x); destruct (Qlt_le_dec 0 y);
    repeat match goal with
           | |- context [Qlt_le_dec ?a ?b] => destruct (Qlt_le_dec a b)
           end; lra.
Qed.

Lemma footprint_share t : (t / global_average_footprint * 50 == t * (125 # 12))%Q.
Proof. unfold global_average_footprint. field. Qed.

Lemma footprint_score_antitone t1 t2 :
  (t1 <= t2)%Q -> (footprint_score t2 <= footprint_score t1)%Q.
Proof.
  intros H. unfold footprint_score, Py.max.
  pose proof (footprint_share t1) as E1. pose proof (footprint_share t2) as E2.
  set (u1 := (t1 / global_average_footprint * 50)%Q) in *.
  set (u2 := (t2 / global_average_footprint * 50)%Q) in *.
  destruct (Qlt_le_dec 0 (100 - u2)); destruct (Qlt_le_dec 0 (100 - u1)); lra.
Qed.

Lemma footprint_score_saturates t : (9.6 <= t)%Q -> (footprint_score t == 0)%Q.
Proof.
  intros H. unfold footprint_score, Py.max.
  pose proof (footprint_share t) as E.
  set (u := (t / global_average_footprint * 50)%Q) in *.
  destruct (Qlt_le_dec 0 (100 - u)); lra.
Qed.

(** X5. For a fixed map of analyses, a larger total footprint never
    gives a larger EcoScore, and from 9.6 t/year on the footprint has no
    effect on the score any more. *)
Theorem eco_score_antitone (a : AgentAnalyses) (t1 t2 : Q) :
  (t1 <= t2)%Q ->
  (_calculate_eco_score a t2 <= _calculate_eco_score a t1)%Q
  /\ ((9.6 <= t1)%Q -> _calculate_eco_score a t2 = _calculate_eco_score a t1).
Proof.
  intros H. unfold _calculate_eco_score. split.
  - apply round_mono. apply clamp_mono.
    pose proof (footprint_score_antitone t1 t2 H). lra.
  - intros Hs. apply round_proper. apply clamp_proper.
    rewrite (footprint_score_saturates t1 Hs).
    rewrite (footprint_score_saturates t2) by lra. reflexivity.
Qed.

Lemma digit_val_nonneg c : (0 <= Py.digit_val c)%Z.
Proof. unfold Py.digit_val. lia. Qed.

Lemma findall_from_nonneg s : forall st,
  scan_nonneg st -> Forall (fun d => (0 <= Py.mantissa d)%Z) (Py.findall_from st s).
Proof.
  induction s as [|c r IH]; intros st Hst; simpl.
  - destruct st; simpl in *; repeat constructor; auto.
  - unfold Py.scan_step. pose proof (digit_val_nonneg c).
    destruct (Py.is_digit c).
    + destruct st; simpl in *; apply IH; simpl; lia.
    + destruct st; simpl in *; try (apply IH; exact I).
      * destruct (Ascii.eqb c "."); simpl.
        -- apply IH. exact Hst.
        -- constructor; [exact Hst | apply IH; exact I].
      * constructor; [exact Hst | apply IH; exact I].
      * constructor; [exact Hst | apply IH; exact I].
Qed.

Lemma to_float_nonneg d : (0 <= Py.mantissa d)%Z -> (0 <= Py.to_float d)%Q.
Proof.
  intros H. unfold Py.to_float. apply Qle_shift_div_l.
  - apply scale_pos.
  - unfold Qle. simpl. lia.
Qed.

Lemma last_number_nonneg dflt text :
  (0 <= dflt)%Q -> (0 <= Py.last_number_or dflt text)%Q.
Proof.
  intros H. unfold Py.last_number_or, Py.last_opt.
  destruct (rev (Py.findall_numbers text)) as [|d l] eqn:E; [exact H|].
  apply to_float_nonneg.
  pose proof (findall_from_nonneg text Py.Idle I) as Hall.
  rewrite List.Forall_forall in Hall. apply Hall.
  apply in_rev. unfold Py.findall_numbers in E. rewrite E. now left.
Qed.

Lemma fold_sum_nonneg {A} (f : A -> Q) (l : list A) :
  (forall x, In x l -> (0 <= f x)%Q) ->
  forall acc, (0 <= acc)%Q -> (0 <= fold_left (fun t x => t + f x) l acc)%Q.
Proof.
  induction l as [|x r IH]; intros H acc Hacc; simpl; [exact Hacc|].
  apply IH; [intros y Hy; apply H; now right|].
  pose proof (H x (or_introl eq_refl)). lra.
Qed.

Lemma round_nonneg n x : (0 <= x)%Q -> (0 <= Py.round n x)%Q.
Proof.
  intros H. rewrite <- (round_integer n 0). now apply round_mono.
Qed.

Lemma synthesis_bounds (np_std : list Q -> Q) (a : AgentAnalyses) :
  exists r, synthesize np_std a = Some r
    /\ (0 <= total_potential_reduction (impact_analysis r))%Q
    /\ (0 <= eco_score r)%Q /\ (eco_score r <= 100)%Q.
Proof.
  unfold synthesize, _analyze_potential_impact.
  destruct (fill_timeline_total _ (prioritized_have_action a (_identify_synergies a)) ∅)
    as [tl ->].
  eexists. split; [reflexivity|].
  cbn [impact_analysis total_potential_reduction eco_score].
  split.
  { apply round_nonneg. apply fold_sum_nonneg; [|lra].
    intros i _. apply last_number_nonneg. lra. }
  unfold _calculate_eco_score. apply round1_bounds; apply clamp_bounds.
Qed.

(** X6. On every map of analyses the total potential reduction is
    not negative and the EcoScore lies in [0, 100]; the total footprint
    is not negative when no domain reports a negative one. *)
Theorem synthesis_quantities_bounded (np_std : list Q -> Q) (a : AgentAnalyses) :
  exists r, synthesize np_std a = Some r
    /\ (0 <= total_potential_reduction (impact_analysis r))%Q
    /\ (0 <= eco_score r)%Q /\ (eco_score r <= 100)%Q
    /\ ((forall d an, In (d, an) a -> (0 <= get (carbon_footprint an) 0)%Q) ->
        (0 <= total_carbon_footprint r)%Q).
Proof.
  destruct (synthesis_bounds np_std a) as (r & Hr & Hpot & Heco0 & Heco1).
  exists r. split; [exact Hr|]. split; [exact Hpot|]. split; [exact Heco0|].
  split; [exact Heco1|].
  intros H. revert Hr. unfold synthesize, _analyze_potential_impact.
  destruct (fill_timeline_total _ (prioritized_have_action a (_identify_synergies a)) ∅)
    as [tl ->].
  intros [= <-].
  cbn [total_carbon_footprint]. unfold _calculate_total_footprint.
  apply round_nonneg.
  apply (fold_sum_nonneg (fun da : string * DomainAnalysis =>
                            get (carbon_footprint (snd da)) 0%Q)); [|lra].
  intros [d an] Hin. simpl. now apply (H d an).
Qed.

Lemma small_pool_only_reordered_witness :
  (length (all_interventions Scenario.fallback_household
             (_identify_synergies Scenario.fallback_household)) <= 8)%nat
  /\ exists r,
       synthesize Examples.no_spread Scenario.fallback_household = Some r
       /\ Permutation (prioritized_actions r)
            (all_interventions Scenario.fallback_household
               (_identify_synergies Scenario.fallback_household)).
Proof.
  assert (H : (length (all_interventions Scenario.fallback_household
                         (_identify_synergies Scenario.fallback_household)) <= 8)%nat)
    by (apply Nat.leb_le; vm_compute; reflexivity).
  split; [exact H|].
  exact (small_pool_only_reordered Examples.no_spread Scenario.fallback_household H).
Defined.

Lemma eco_score_antitone_witness :
  (5 <= 10)%Q
  /\ (_calculate_eco_score Scenario.light_household 10
      <= _calculate_eco_score Scenario.light_household 5)%Q.
Proof.
  assert (H : (5 <= 10)%Q) by (vm_compute; discriminate).
  split; [exact H|].
  exact (proj1 (eco_score_antitone Scenario.light_household 5 10 H)).
Defined.
End SynthesizerExtras.

(** ** Refinement loop: bounds, frame and fixed point *)

Module RefinerExtras.
Import Store Refiner PyFacts RefinerFacts MorePyFacts Notions.

Lemma count1_pos {A} (l : list A) : (0 < count1 l)%Q.
Proof. unfold count1, Qlt. simpl. lia. Qed.

Lemma count_nonempty_pos {A} (x : A) (l : list A) : (0 < count (x :: l))%Q.
Proof. unfold count, Qlt. simpl. lia. Qed.

(** The share of the elements that satisfy a test. *)
Lemma share_bounds {A} (p : A -> bool) (l : list A) :
  (0 <= count (List.filter p l) / count1 l)%Q
  /\ (count (List.filter p l) / count1 l <= 1)%Q.
Proof.
  pose proof (count1_pos l) as Hpos.
  pose proof (List.filter_length_le p l) as Hle.
  split.
  - apply Qle_shift_div_l; [exact Hpos|]. unfold count, Qle. simpl. lia.
  - apply Qle_shift_div_r; [exact Hpos|]. unfold count, count1, Qle. simpl. lia.
Qed.

Lemma feasibility_value_bounds a :
  (0.3 <= feasibility_value a)%Q /\ (feasibility_value a <= 1)%Q.
Proof.
  unfold feasibility_value. cbv zeta.
  repeat match goal with
         | |- context [if ?c then _ else _] => destruct c
         end; split; lra.
Qed.

Lemma sum_bounds (lo hi : Q) (l : list Q) :
  Forall (fun x => (lo <= x)%Q /\ (x <= hi)%Q) l ->
  forall acc,
    (acc + lo * inject_Z (Z.of_nat (length l)) <= fold_left Qplus l acc)%Q
    /\ (fold_left Qplus l acc <= acc + hi * inject_Z (Z.of_nat (length l)))%Q.
Proof.
  induction 1 as [|x r [Hx1 Hx2] _ IH]; intros acc.
  - simpl. change (inject_Z (Z.of_nat 0)) with 0%Q. split; lra.
  - cbn [fold_left length]. destruct (IH (acc + x)%Q) as [I1 I2].
    rewrite Nat2Z.inj_succ. unfold Z.succ. rewrite inject_Z_plus.
    change (inject_Z 1) with 1%Q. split; lra.
Qed.

Lemma mean_feasibility_bounds x (l : list Intervention) :
  (0.3 <= Py.sum (map feasibility_value (x :: l)) / count (x :: l))%Q
  /\ (Py.sum (map feasibility_value (x :: l)) / count (x :: l) <= 1)%Q.
Proof.
  pose proof (count_nonempty_pos x l) as Hpos.
  assert (Hall : Forall (fun v => (0.3 <= v)%Q /\ (v <= 1)%Q)
                   (map feasibility_value (x :: l))).
  { apply List.Forall_map. apply List.Forall_forall. intros a _.
    apply feasibility_value_bounds. }
  destruct (sum_bounds 0.3 1 _ Hall 0) as [S1 S2].
  rewrite length_map in S1, S2. unfold Py.sum. fold (count (x :: l)) in S1, S2.
  split.
  - apply Qle_shift_div_l; [exact Hpos|]. lra.
  - apply Qle_shift_div_r; [exact Hpos|]. lra.
Qed.

Lemma assess_bounds (acts : list Intervention) :
  unit_interval (feasibility_score (assess acts))
  /\ unit_interval (impact_score (assess acts))
  /\ unit_interval (cost_effectiveness (assess acts))
  /\ unit_interval (implementation_clarity (assess acts))
  /\ unit_interval (user_alignment (assess acts)).
Proof.
  unfold unit_interval. destruct acts as [|x l].
  - simpl. repeat split; lra.
  - unfold assess.
    cbn [feasibility_score impact_score cost_effectiveness implementation_clarity
           user_alignment].
    pose proof (mean_feasibility_bounds x l) as [F1 F2].
    pose proof (share_bounds Synthesizer.mentions_high (x :: l)) as [I1 I2].
    repeat split; try apply share_bounds; try lra.
    + unfold Py.min. destruct (Qlt_le_dec _ _); lra.
    + unfold Py.min. destruct (Qlt_le_dec _ _); lra.
Qed.

(** X7. The five quality metrics of [_assess_plan_quality] and the
    weighted quality score lie between 0 and 1, for every store and
    plan (the empty plan included). *)
Theorem quality_within_unit_interval (h : gmap nat Intervention)
    (plan : SynthesisResult nat) :
  let q := _assess_plan_quality h plan in
  unit_interval (feasibility_score q)
  /\ unit_interval (impact_score q)
  /\ unit_interval (cost_effectiveness q)
  /\ unit_interval (implementation_clarity q)
  /\ unit_interval (user_alignment q)
  /\ unit_interval (_calculate_quality_score h plan).
Proof.
  cbv zeta. unfold _calculate_quality_score, _assess_plan_quality. cbv zeta.
  destruct (assess_bounds (view h (prioritized_actions plan)))
    as ([F1 F2] & [I1 I2] & [C1 C2] & [L1 L2] & [U1 U2]).
  repeat split; try assumption.
  - apply (round_between 3 0 1); unfold Py.sum; cbn [fold_left];
      change (inject_Z 0) with 0%Q; change (inject_Z 1) with 1%Q; lra.
  - apply (round_between 3 0 1); unfold Py.sum; cbn [fold_left];
      change (inject_Z 0) with 0%Q; change (inject_Z 1) with 1%Q; lra.
Qed.

(** *** Frame of the refinements *)

Lemma unchanged_refl h : unchanged h h.
Proof. intros l v H. exact H. Qed.

Lemma unchanged_trans h1 h2 h3 : unchanged h1 h2 -> unchanged h2 h3 -> unchanged h1 h3.
Proof. intros H12 H23 l v H. apply H23, H12, H. Qed.

Lemma alloc_unchanged h v : unchanged h (fst (alloc h v)).
Proof.
  intros l w H. unfold alloc. simpl.
  rewrite lookup_insert_ne; [exact H|].
  intros <-. pose proof (is_fresh (dom h)) as Hf.
  apply Hf. apply elem_of_dom. eauto.
Qed.

Lemma alloc_live h v : fst (alloc h v) !! snd (alloc h v) = Some v.
Proof. unfold alloc. simpl. apply lookup_insert_eq. Qed.

Lemma live_unchanged h h' refs : unchanged h h' -> live h refs -> live h' refs.
Proof.
  intros Hu Hl l Hin. specialize (Hl l Hin).
  destruct (h !! l) as [v|] eqn:E; [|congruence].
  rewrite (Hu l v E). discriminate.
Qed.

Lemma live_preserved h h' refs : preserved h h' -> live h refs -> live h' refs.
Proof.
  intros Hp Hl l Hin. specialize (Hl l Hin).
  destruct (h !! l) as [v|] eqn:E; [|congruence].
  destruct (Hp l v E) as (v' & -> & _). discriminate.
Qed.

Lemma live_app h r1 r2 : live h r1 -> live h r2 -> live h (r1 ++ r2).
Proof. intros H1 H2 l Hin. apply in_app_or in Hin. destruct Hin; auto. Qed.

Lemma live_incl h r1 r2 : incl r1 r2 -> live h r2 -> live h r1.
Proof. intros Hi H l Hin. apply H, Hi, Hin. Qed.

Lemma alloc_all_spec vs : forall h,
  unchanged h (fst (alloc_all h vs))
  /\ live (fst (alloc_all h vs)) (snd (alloc_all h vs))
  /\ view (fst (alloc_all h vs)) (snd (alloc_all h vs)) = vs.
Proof.
  induction vs as [|v r IH]; intros h; cbn [alloc_all].
  - split; [apply unchanged_refl|]. split; [intros l []|reflexivity].
  - pose proof (alloc_unchanged h v) as H1. pose proof (alloc_live h v) as H1'.
    destruct (alloc h v) as [h1 l]. cbn [fst snd] in *.
    destruct (IH h1) as (H2 & H3 & H4). destruct (alloc_all h1 r) as [h2 ls].
    cbn [fst snd] in *. split; [exact (unchanged_trans _ _ _ H1 H2)|]. split.
    + intros k [<-|Hk]; [rewrite (H2 _ _ H1'); discriminate | now apply H3].
    + cbn [view map]. unfold view in H4. rewrite H4. f_equal.
      unfold deref. rewrite (H2 _ _ H1'). reflexivity.
Qed.

Lemma decompose_loop_spec targets acts : forall h,
  live h acts ->
  unchanged h (fst (decompose_loop h targets acts))
  /\ live (fst (decompose_loop h targets acts)) (snd (decompose_loop h targets acts)).
Proof.
  induction acts as [|l r IH]; intros h Hl; cbn [decompose_loop].
  - split; [apply unchanged_refl | intros k []].
  - assert (Hr : live h r) by (intros k Hk; apply Hl; now right).
    destruct (mem h l targets).
    + destruct (alloc_all_spec (_decompose_action (deref h l)) h) as (H1 & H1' & _).
      destruct (alloc_all h _) as [h1 subs]. cbn [fst snd] in *.
      destruct (IH h1 (live_unchanged _ _ _ H1 Hr)) as (H2 & H3).
      destruct (decompose_loop h1 targets r) as [h2 rest]. cbn [fst snd] in *.
      split; [exact (unchanged_trans _ _ _ H1 H2)|].
      apply live_app; [exact (live_unchanged _ _ _ H2 H1') | exact H3].
    + destruct (IH h Hr) as (H2 & H3).
      destruct (decompose_loop h targets r) as [h2 rest]. cbn [fst snd] in *.
      split; [exact H2|].
      intros k [<-|Hk]; [|now apply H3].
      apply (live_unchanged _ _ _ H2 Hl). now left.
Qed.

Lemma sorted_desc_incl {A} (key : A -> Q) (l : list A) : incl (Py.sorted_desc key l) l.
Proof. intros x Hx. now apply (sorted_desc_In key). Qed.

Lemma firstn_incl {A} n (l : list A) : incl (firstn n l) l.
Proof.
  intros x Hx. rewrite <- (firstn_skipn n l). apply in_or_app. now left.
Qed.

Lemma filter_incl {A} (p : A -> bool) (l : list A) : incl (List.filter p l) l.
Proof. intros x Hx. apply filter_In in Hx. tauto. Qed.

(** One refinement keeps the plan's references live. *)
Lemma apply_one_live h plan o :
  live h (prioritized_actions plan) ->
  live (fst (apply_one (h, plan) o)) (prioritized_actions (snd (apply_one (h, plan) o))).
Proof.
  intros Hl. unfold apply_one.
  repeat match goal with
         | |- context [if ?c then _ else _] => destruct c
         end; cbn [fst snd]; try exact Hl.
  - unfold _apply_decomposition_refinement.
    destruct (decompose_loop_spec (target_actions o) (prioritized_actions plan) h Hl)
      as (_ & H).
    destruct (decompose_loop _ _ _) as [h' acts]. exact H.
  - unfold _apply_cost_optimization_refinement. cbn [prioritized_actions with_actions].
    eapply live_incl; [apply sorted_desc_incl | exact Hl].
  - unfold _apply_sequencing_refinement. cbn [prioritized_actions with_actions].
    repeat apply live_app; (eapply live_incl; [apply filter_incl | exact Hl]).
  - unfold _apply_impact_refinement. cbn [prioritized_actions with_actions].
    eapply live_incl; [apply firstn_incl|].
    eapply live_incl; [apply sorted_desc_incl | exact Hl].
  - unfold _apply_learning_refinement. cbn [fst snd prioritized_actions with_actions].
    eapply live_preserved; [apply annotate_all_preserved | exact Hl].
Qed.

Lemma apply_refinements_live opps : forall h plan,
  live h (prioritized_actions plan) ->
  live (fst (_apply_refinements h plan opps))
       (prioritized_actions (snd (_apply_refinements h plan opps))).
Proof.
  unfold _apply_refinements.
  induction opps as [|o r IH]; intros h plan Hl; cbn [fold_left]; [exact Hl|].
  pose proof (apply_one_live h plan o Hl) as H1.
  destruct (apply_one (h, plan) o) as [h1 p1]. now apply IH.
Qed.

(** X8. [refine_plan] removes no dictionary from the store and
    changes an existing one at most in its ["implementation_tips"]: the
    twelve other keys keep their values.  When the references of the
    input plan point into the store, so do those of the refined plan. *)
Theorem refine_plan_frame (h : gmap nat Intervention)
    (synthesis : SynthesisResult nat) (history : list RefinementRecord) :
  let h' := fst (refine_plan h synthesis history) in
  let r := snd (refine_plan h synthesis history) in
  (forall l v, h !! l = Some v ->
     exists v', h' !! l = Some v'
                /\ domain v' = domain v /\ action v' = action v
                /\ impact v' = impact v /\ priority v' = priority v
                /\ co2_reduction v' = co2_reduction v
                /\ cost_impact v' = cost_impact v
                /\ feasibility v' = feasibility v /\ urgency v' = urgency v
                /\ synergy_multiplier v' = synergy_multiplier v
                /\ success_criteria v' = success_criteria v
                /\ timeline v' = timeline v
                /\ resources_needed v' = resources_needed v)
  /\ (live h (prioritized_actions synthesis) ->
      live h' (prioritized_actions (refined_plan r))).
Proof.
  cbv zeta. unfold refine_plan.
  set (opps := _identify_refinement_opportunities h synthesis history
                 (_assess_plan_quality h synthesis)).
  pose proof (apply_refinements_preserved opps h synthesis) as Hp.
  pose proof (apply_refinements_live opps h synthesis) as Hl.
  destruct (_apply_refinements h synthesis opps) as [h' refined].
  cbn [fst snd refined_plan] in *. split; [|exact Hl].
  intros l v Hv. destruct (Hp l v Hv) as (v' & Hv' & E).
  exists v'. split; [exact Hv'|].
  unfold strip_tips in E. injection E. intros. repeat split; assumption.
Qed.

Lemma apply_one_unchanged h plan o :
  no_learning o -> live h (prioritized_actions plan) ->
  unchanged h (fst (apply_one (h, plan) o)).
Proof.
  intros Hn Hl. unfold apply_one.
  destruct (String.eqb (refinement_strategy o) "adaptive_learning") eqn:E.
  { apply String.eqb_eq in E. contradiction. }
  repeat match goal with
         | |- context [if ?c then _ else _] => destruct c
         end; cbn [fst snd]; try apply unchanged_refl.
  unfold _apply_decomposition_refinement.
  destruct (decompose_loop_spec (target_actions o) (prioritized_actions plan) h Hl)
    as (H & _).
  destruct (decompose_loop _ _ _) as [h' acts]. exact H.
Qed.

Lemma apply_refinements_unchanged opps : forall h plan,
  Forall no_learning opps -> live h (prioritized_actions plan) ->
  unchanged h (fst (_apply_refinements h plan opps)).
Proof.
  unfold _apply_refinements.
  induction opps as [|o r IH]; intros h plan Hn Hl; cbn [fold_left];
    [apply unchanged_refl|].
  inversion Hn as [|? ? Ho Hr]; subst.
  pose proof (apply_one_unchanged h plan o Ho Hl) as H1.
  pose proof (apply_one_live h plan o Hl) as H2.
  destruct (apply_one (h, plan) o) as [h1 p1]. cbn [fst snd] in *.
  eapply unchanged_trans; [exact H1 | now apply IH].
Qed.

Lemma opportunities_without_history h s history q :
  _identify_recurring_issues history = [] ->
  Forall no_learning (_identify_refinement_opportunities h s history q).
Proof.
  intros E. unfold _identify_refinement_opportunities. rewrite E. cbn [map].
  rewrite app_nil_r.
  repeat match goal with
         | |- context [if ?c then _ else _] => destruct c
         end; cbn [app]; repeat constructor; unfold no_learning; cbn; discriminate.
Qed.

(** X9. When no opportunity type occurs twice in the history,
    [refine_plan] leaves every dictionary of the store as it is: the
    caller's plan is not annotated. *)
Theorem refine_plan_leaves_input_without_recurrence (h : gmap nat Intervention)
    (synthesis : SynthesisResult nat) (history : list RefinementRecord) :
  live h (prioritized_actions synthesis) ->
  _identify_recurring_issues history = [] ->
  let h' := fst (refine_plan h synthesis history) in
  (forall l v, h !! l = Some v -> h' !! l = Some v)
  /\ view h' (prioritized_actions synthesis) = view h (prioritized_actions synthesis).
Proof.
  intros Hl Hrec. cbv zeta. unfold refine_plan.
  set (opps := _identify_refinement_opportunities h synthesis history
                 (_assess_plan_quality h synthesis)).
  pose proof (apply_refinements_unchanged opps h synthesis
                (opportunities_without_history _ _ _ _ Hrec) Hl) as Hu.
  destruct (_apply_refinements h synthesis opps) as [h' refined].
  cbn [fst] in *. split; [exact Hu|].
  unfold view. apply map_ext_in. intros l Hin. unfold deref.
  specialize (Hl l Hin). destruct (h !! l) as [v|] eqn:E; [|congruence].
  now rewrite (Hu l v E).
Qed.


(** X11. [_decompose_action] splits an action into two or three
    steps, the first of high feasibility; every step keeps the domain,
    impact, priority, reduction, cost, urgency and multiplier of the
    action, and no step of an action of low feasibility is less
    feasible than the action. *)
Theorem decompose_action_inherits (a : Intervention) :
  let subs := _decompose_action a in
  (length subs = 2 \/ length subs = 3)%nat
  /\ (exists first rest, subs = first :: rest /\ feasibility first = Some "high")
  /\ (forall s, In s subs ->
        domain s = domain a /\ impact s = impact a /\ priority s = priority a
        /\ co2_reduction s = co2_reduction a /\ cost_impact s = cost_impact a
        /\ urgency s = urgency a /\ synergy_multiplier s = synergy_multiplier a
        /\ (feasibility a = Some "low" ->
            (feasibility_value a <= feasibility_value s)%Q)).
Proof.
  cbv zeta. unfold _decompose_action. cbv zeta.
  destruct (Py.contains "solar panels" _); [|destruct (Py.contains "electric vehicle" _)].
  all: split; [cbn [length]; auto|].
  all: split; [eexists; eexists; split; reflexivity|].
  all: intros s Hs; cbn [In] in Hs.
  all: repeat (destruct Hs as [<-|Hs];
               [ repeat (split; [reflexivity|]); intros E;
                 unfold feasibility_value; cbn [derive feasibility get]; rewrite ?E;
                 cbn; unfold Qle; cbn; lia |]).
  all: contradiction.
Qed.

(** X12. The cost optimisation only reorders the prioritized
    actions, by decreasing cost-effectiveness score. *)
Theorem cost_reordering_sorts (h : gmap nat Intervention)
    (plan : SynthesisResult nat) (o : Opportunity) :
  let reordered := prioritized_actions (_apply_cost_optimization_refinement h plan o) in
  Permutation reordered (prioritized_actions plan)
  /\ StronglySorted (ge_key (fun l => cost_effectiveness_score (deref h l))) reordered.
Proof.
  cbv zeta. unfold _apply_cost_optimization_refinement.
  cbn [prioritized_actions with_actions].
  split; [apply sorted_desc_perm | apply sorted_desc_sorted].
Qed.

(** X13. The impact refinement keeps the six actions of highest
    impact score (all of them when there are fewer), sorted by
    decreasing score and taken from the plan. *)
Theorem impact_refinement_keeps_top_six (h : gmap nat Intervention)
    (plan : SynthesisResult nat) (o : Opportunity) :
  let kept := prioritized_actions (_apply_impact_refinement h plan o) in
  length kept = Nat.min 6 (length (prioritized_actions plan))
  /\ incl kept (prioritized_actions plan)
  /\ StronglySorted (ge_key (fun l => impact_score_of (deref h l))) kept
  /\ (forall k d, In k kept -> In d (prioritized_actions plan) -> ~ In d kept ->
        (impact_score_of (deref h d) <= impact_score_of (deref h k))%Q).
Proof.
  cbv zeta. unfold _apply_impact_refinement. cbn [prioritized_actions with_actions].
  set (key := fun l => impact_score_of (deref h l)).
  pose proof (sorted_desc_sorted key (prioritized_actions plan)) as Hs.
  split; [rewrite List.length_firstn, sorted_desc_length; reflexivity|].
  split.
  { intros x Hx. apply (sorted_desc_In key). now apply firstn_incl in Hx. }
  split; [now apply firstn_sorted|].
  intros k d Hk Hd Hn.
  apply (firstn_dominates key 6 _ Hs k d Hk).
  apply (sorted_desc_In key) in Hd.
  rewrite <- (firstn_skipn 6 (Py.sorted_desc key _)) in Hd.
  apply in_app_or in Hd. destruct Hd as [Hd|Hd]; [contradiction | exact Hd].
Qed.

Lemma opt_string_eqb_eq (x y : option string) :
  opt_eqb String.eqb x y = true -> x = y.
Proof.
  destruct x, y; simpl; try discriminate; auto.
  intros H. apply String.eqb_eq in H. now subst.
Qed.

Lemma dict_eqb_action a b : dict_eqb a b = true -> action a = action b.
Proof.
  unfold dict_eqb. intros H.
  repeat (apply andb_prop in H; destruct H as [H ?]).
  now apply opt_string_eqb_eq.
Qed.

Lemma mem_action_mentions h kws l refs :
  mem h l (List.filter (fun t => action_mentions kws (deref h t)) refs) = true ->
  action_mentions kws (deref h l) = true.
Proof.
  unfold mem. intros H. apply existsb_exists in H. destruct H as (t & Ht & E).
  apply filter_In in Ht. destruct Ht as [_ Ht].
  apply orb_prop in E. destruct E as [E|E].
  - apply Nat.eqb_eq in E. now subst.
  - unfold action_mentions in *. now rewrite (dict_eqb_action _ _ E).
Qed.

Lemma mem_app h l r1 r2 : mem h l (r1 ++ r2) = mem h l r1 || mem h l r2.
Proof. unfold mem. apply existsb_app. Qed.

Lemma mem_self h l refs : In l refs -> mem h l refs = true.
Proof.
  intros H. unfold mem. apply existsb_exists. exists l. split; [exact H|].
  now rewrite Nat.eqb_refl.
Qed.

Lemma filter_length_mono {A} (p q : A -> bool) (l : list A) :
  (forall x, In x l -> p x = true -> q x = true) ->
  (length (List.filter p l) <= length (List.filter q l))%nat.
Proof.
  induction l as [|x r IH]; intros H; simpl; [lia|].
  assert (IH' := IH (fun y Hy => H y (or_intror Hy))).
  destruct (p x) eqn:Ep.
  - rewrite (H x (or_introl eq_refl) Ep). simpl. lia.
  - destruct (q x); simpl; lia.
Qed.

Lemma filter_split_length {A} (p : A -> bool) (l : list A) :
  length l = (length (List.filter p l) + length (List.filter (fun x => negb (p x)) l))%nat.
Proof.
  induction l as [|x r IH]; simpl; [reflexivity|].
  destruct (p x); simpl; lia.
Qed.

Lemma filter_or_length {A} (p q : A -> bool) (l : list A) :
  (length (List.filter (fun x => p x || q x) l)
   <= length (List.filter p l) + length (List.filter q l))%nat.
Proof.
  induction l as [|x r IH]; simpl; [lia|].
  destruct (p x), (q x); simpl; lia.
Qed.

(** X14. The sequencing refinement loses no action and adds no
    foreign one; an action that matches several keyword groups is
    listed once per group, so the list may grow. *)
Theorem sequencing_keeps_every_action (h : gmap nat Intervention)
    (plan : SynthesisResult nat) (o : Opportunity) :
  let sequenced := prioritized_actions (_apply_sequencing_refinement h plan o) in
  (forall l, In l sequenced <-> In l (prioritized_actions plan))
  /\ (length (prioritized_actions plan) <= length sequenced)%nat.
Proof.
  cbv zeta. unfold _apply_sequencing_refinement.
  cbn [prioritized_actions with_actions].
  set (acts := prioritized_actions plan).
  set (F := List.filter (fun l => action_mentions foundation_keywords (deref h l)) acts).
  set (M := List.filter (fun l => action_mentions major_keywords (deref h l)) acts).
  set (L := List.filter (fun l => action_mentions lifestyle_keywords (deref h l)) acts).
  assert (Hin : forall l, In l (F ++ M ++ L ++
                   List.filter (fun l => negb (mem h l (F ++ M ++ L))) acts)
                          <-> In l acts).
  { intros l. split.
    - intros H. repeat (apply in_app_or in H; destruct H as [H|H]);
        apply filter_In in H; tauto.
    - intros H. destruct (mem h l (F ++ M ++ L)) eqn:E.
      + rewrite !mem_app in E.
        apply orb_prop in E. destruct E as [E|E];
          [|apply orb_prop in E; destruct E as [E|E]];
          apply mem_action_mentions in E.
        * apply in_or_app. left. apply filter_In. tauto.
        * apply in_or_app. right. apply in_or_app. left. apply filter_In. tauto.
        * apply in_or_app. right. apply in_or_app. right. apply in_or_app. left.
          apply filter_In. tauto.
      + repeat (apply in_or_app; right). apply filter_In. rewrite E. tauto. }
  split; [exact Hin|].
  set (f := fun l => action_mentions foundation_keywords (deref h l)).
  set (m := fun l => action_mentions major_keywords (deref h l)).
  set (k := fun l => action_mentions lifestyle_keywords (deref h l)).
  rewrite (filter_split_length (fun l => f l || (m l || k l)) acts).
  rewrite !length_app.
  pose proof (filter_or_length f (fun l => m l || k l) acts) as H1.
  pose proof (filter_or_length m k acts) as H2.
  assert (H3 : (length (List.filter (fun l => negb (f l || (m l || k l))) acts)
                <= length (List.filter (fun l => negb (mem h l (F ++ M ++ L))) acts))%nat).
  { apply filter_length_mono. intros l _ Hl.
    destruct (mem h l (F ++ M ++ L)) eqn:E; [|reflexivity].
    rewrite !mem_app in E. exfalso.
    apply negb_true_iff in Hl.
    apply orb_false_elim in Hl. destruct Hl as [Hf Hl].
    apply orb_false_elim in Hl. destruct Hl as [Hm Hk].
    apply orb_prop in E. destruct E as [E|E];
      [|apply orb_prop in E; destruct E as [E|E]];
      apply mem_action_mentions in E; unfold f, m, k in *; congruence. }
  fold F in H1. change (List.filter f acts) with F in H1.
  change (List.filter m acts) with M in H2. change (List.filter k acts) with L in H2.
  lia.
Qed.

Lemma refine_plan_leaves_input_without_recurrence_witness :
  live Scenario.one_action_store (prioritized_actions Scenario.one_action_plan)
  /\ _identify_recurring_issues [] = []
  /\ view (fst (refine_plan Scenario.one_action_store Scenario.one_action_plan []))
       (prioritized_actions Scenario.one_action_plan)
     = view Scenario.one_action_store (prioritized_actions Scenario.one_action_plan).
Proof.
  assert (Hl : live Scenario.one_action_store
                 (prioritized_actions Scenario.one_action_plan)).
  { intros l [<-|[]]. vm_compute. discriminate. }
  split; [exact Hl|]. split; [reflexivity|].
  exact (proj2 (refine_plan_leaves_input_without_recurrence Scenario.one_action_store
                  Scenario.one_action_plan [] Hl eq_refl)).
Defined.

End RefinerExtras.

(** ** Evaluator: final score and final plan *)

Module EvaluatorExtras.
Import Store Evaluator PyFacts MorePyFacts Notions EvaluatorNotions.
Local Open Scope Q_scope.

Lemma clamp_mono' x y : x <= y -> Spec.clamp x <= Spec.clamp y.
Proof. apply SynthesizerExtras.clamp_mono. Qed.

Lemma final_eco_score_bounds (b o a f : Q) :
  0 <= _calculate_final_eco_score b o a f /\ _calculate_final_eco_score b o a f <= 100.
Proof.
  unfold _calculate_final_eco_score, alignment_bonus. cbv zeta.
  apply round1_bounds; apply (clamp_bounds (b + o * 20 + a * 15 + f * 10)).
Qed.

(** X15. The final EcoScore lies in [0, 100] and is monotone: a
    higher base score, evaluation score, alignment score or feasibility
    score never lowers it. *)
Theorem final_eco_score_monotone (b o a f b' o' a' f' : Q) :
  b <= b' -> o <= o' -> a <= a' -> f <= f' ->
  _calculate_final_eco_score b o a f <= _calculate_final_eco_score b' o' a' f'
  /\ 0 <= _calculate_final_eco_score b o a f
  /\ _calculate_final_eco_score b o a f <= 100.
Proof.
  intros Hb Ho Ha Hf. unfold _calculate_final_eco_score, alignment_bonus. cbv zeta.
  split.
  - apply round_mono. apply (clamp_mono' (b + o * 20 + a * 15 + f * 10)
                                          (b' + o' * 20 + a' * 15 + f' * 10)). lra.
  - apply round1_bounds; apply (clamp_bounds (b + o * 20 + a * 15 + f * 10)).
Qed.

Lemma points_le_traits c a : (alignment_points_of c a <= scoring_traits c)%nat.
Proof.
  unfold alignment_points_of, scoring_traits. cbv zeta.
  destruct (budget_conscious c), (convenience_focused c), (tech_savvy c),
    (environmentally_conscious c); simpl;
    repeat match goal with |- context [if ?b then _ else _] => destruct b end; lia.
Qed.

Lemma points_total c actions : forall p,
  (fold_left (fun p a => (p + alignment_points_of c a)%nat) actions p
   <= p + scoring_traits c * length actions)%nat.
Proof.
  induction actions as [|x r IH]; intros p; simpl; [lia|].
  specialize (IH (p + alignment_points_of c x)%nat).
  pose proof (points_le_traits c x). lia.
Qed.

(** X16. The alignment score is at least 0 and at most the number
    of detected traits among budget, convenience, technology and
    environment, hence at most 4; a luxury-oriented user earns nothing
    for it. *)
Theorem alignment_score_range (actions : list Intervention) (c : Characteristics) :
  0 <= _calculate_alignment_score actions c
  /\ _calculate_alignment_score actions c <= inject_Z (Z.of_nat (scoring_traits c))
  /\ _calculate_alignment_score actions c <= 4.
Proof.
  unfold _calculate_alignment_score. cbv zeta.
  pose proof (points_total c actions 0%nat) as H. simpl in H.
  set (p := fold_left _ actions 0%nat) in *.
  assert (Hpos : 0 < inject_Z (Z.of_nat (Nat.max (length actions) 1))).
  { unfold Qlt. simpl. lia. }
  assert (Ht : (scoring_traits c <= 4)%nat).
  { unfold scoring_traits. destruct (budget_conscious c), (convenience_focused c),
      (tech_savvy c), (environmentally_conscious c); simpl; lia. }
  assert (Hb : inject_Z (Z.of_nat p) / inject_Z (Z.of_nat (Nat.max (length actions) 1))
               <= inject_Z (Z.of_nat (scoring_traits c))).
  { apply Qle_shift_div_r; [exact Hpos|]. rewrite <- inject_Z_mult.
    rewrite <- Zle_Qle. nia. }
  split; [|split].
  - apply Qle_shift_div_l; [exact Hpos|]. rewrite Qmult_0_l.
    change 0 with (inject_Z 0). rewrite <- Zle_Qle. lia.
  - exact Hb.
  - eapply Qle_trans; [exact Hb|]. change 4 with (inject_Z 4).
    rewrite <- Zle_Qle. lia.
Qed.

Lemma finalize_idem a : finalize (finalize a) = finalize a.
Proof. reflexivity. Qed.

Lemma finalize_fold_notin actions : forall h l,
  ~ In l actions ->
  fold_left (fun h l => <[l := finalize (deref h l)]> h) actions h !! l = h !! l.
Proof.
  induction actions as [|x r IH]; intros h l Hn; simpl; [reflexivity|].
  rewrite IH by (intros Hin; apply Hn; now right).
  apply lookup_insert_ne. intros ->. apply Hn. now left.
Qed.

Lemma finalize_fold_in actions : forall h l,
  In l actions ->
  fold_left (fun h l => <[l := finalize (deref h l)]> h) actions h !! l
  = Some (finalize (deref h l)).
Proof.
  induction actions as [|x r IH]; intros h l Hin; simpl; [destruct Hin|].
  destruct (in_dec Nat.eq_dec l r) as [Hr|Hr].
  - rewrite (IH _ _ Hr). f_equal.
    destruct (Nat.eq_dec x l) as [->|Hne].
    + unfold deref at 1. rewrite lookup_insert_eq. simpl. apply finalize_idem.
    + unfold deref at 1. rewrite lookup_insert_ne by exact Hne. reflexivity.
  - rewrite (finalize_fold_notin _ _ _ Hr).
    destruct Hin as [->|Hin]; [|contradiction].
    apply lookup_insert_eq.
Qed.

(** X17. [_finalize_action_list] returns the first six references
    of the plan but annotates every action of the plan, the ones beyond
    the sixth included: each gets three success criteria, one of four
    timelines and three resources, and keeps its other keys; a
    dictionary outside the plan is not touched. *)
Theorem finalize_action_list_frame (h : gmap nat Intervention)
    (plan : SynthesisResult nat) :
  let h' := fst (_finalize_action_list h plan) in
  snd (_finalize_action_list h plan) = firstn 6 (prioritized_actions plan)
  /\ (forall l, In l (prioritized_actions plan) ->
        h' !! l = Some (finalize (deref h l))
        /\ unannotated (deref h' l) = unannotated (deref h l)
        /\ implementation_tips (deref h' l) = implementation_tips (deref h l)
        /\ (exists c1 c2 c3, success_criteria (deref h' l) = Some [c1; c2; c3])
        /\ (exists r1 r2 r3, resources_needed (deref h' l) = Some [r1; r2; r3])
        /\ In (timeline (deref h' l))
             [Some "1-4 weeks"; Some "1-3 months"; Some "3-6 months"; Some "6-12 months"])
  /\ (forall l, ~ In l (prioritized_actions plan) -> h' !! l = h !! l).
Proof.
  cbv zeta. unfold _finalize_action_list. simpl.
  split; [reflexivity|]. split.
  - intros l Hin. pose proof (finalize_fold_in _ h l Hin) as E.
    assert (Ed : deref (fold_left (fun h l => <[l := finalize (deref h l)]> h)
                          (prioritized_actions plan) h) l = finalize (deref h l)).
    { unfold deref at 1. rewrite E. reflexivity. }
    rewrite !Ed. simpl.
    split; [exact E|]. split; [reflexivity|]. split; [reflexivity|].
    split; [|split].
    + unfold _define_action_success_criteria. cbv zeta.
      repeat match goal with |- context [if ?b then _ else _] => destruct b end;
        eauto.
    + unfold _identify_action_resources. cbv zeta.
      repeat match goal with |- context [if ?b then _ else _] => destruct b end;
        eauto.
    + unfold _estimate_action_timeline. cbv zeta.
      repeat match goal with |- context [if ?b then _ else _] => destruct b end;
        simpl; auto 6.
  - intros l Hn. now apply finalize_fold_notin.
Qed.

Lemma alignment_score_nonneg actions text : 0 <= alignment_score actions text.
Proof.
  unfold alignment_score, _calculate_alignment_score. cbv zeta.
  apply Qle_shift_div_l; [unfold Qlt; simpl; lia|]. rewrite Qmult_0_l.
  change 0 with (inject_Z 0). rewrite <- Zle_Qle. lia.
Qed.

Lemma timeline_of_finalized acts :
  _create_implementation_timeline (map finalize acts)
  = if forallb has_action_key acts then Some (schedule acts) else None.
Proof.
  induction acts as [|a r IH]; [reflexivity|].
  cbn [map _create_implementation_timeline forallb]. rewrite IH.
  cbn [finalize action timeline get].
  assert (Hk : has_action_key a = match action a with Some _ => true | None => false end)
    by reflexivity.
  rewrite Hk. clear Hk.
  destruct (action a) as [text|] eqn:E; [|reflexivity]. cbn [andb].
  destruct (forallb has_action_key r); [|reflexivity].
  unfold schedule. cbn [List.filter immediate short_term medium_term long_term].
  unfold _estimate_action_timeline. cbv zeta.
  change (Py.contains "low" (Py.lower (get (cost_impact a) "medium"))
          || Py.contains "savings" (Py.lower (get (cost_impact a) "medium")))
    with (cheap a).
  change (String.eqb (get (feasibility a) "medium") "high") with (easy a).
  change (String.eqb (get (feasibility a) "medium") "medium") with (moderate a).
  unfold texts.
  destruct (easy a), (cheap a), (moderate a); cbn [andb negb map get];
    rewrite ?E; reflexivity.
Qed.

Lemma scheduled_all acts : scheduled (schedule acts) = length acts.
Proof.
  unfold scheduled, schedule, texts.
  cbn [immediate short_term medium_term long_term].
  rewrite !length_map.
  induction acts as [|a r IH]; [reflexivity|].
  cbn [List.filter]. destruct (easy a), (cheap a), (moderate a); cbn [andb negb length];
    lia.
Qed.

Lemma view_finalized h plan refs :
  incl refs (prioritized_actions plan) ->
  view (fst (_finalize_action_list h plan)) refs = map finalize (view h refs).
Proof.
  intros Hi. unfold view. rewrite map_map. apply map_ext_in. intros l Hl.
  unfold _finalize_action_list. cbn [fst]. unfold deref at 1.
  rewrite (finalize_fold_in _ h l (Hi _ Hl)). reflexivity.
Qed.

Lemma firstn_incl' {A} n (l : list A) : incl (firstn n l) l.
Proof.
  intros x Hx. rewrite <- (firstn_skipn n l). apply in_or_app. now left.
Qed.

Lemma generate_final_plan_spec h synthesis refinements :
  let base := base_plan synthesis refinements in
  let final := firstn 6 (prioritized_actions base) in
  snd (_generate_final_plan h synthesis refinements)
  = if forallb has_action_key (view h final)
    then Some (mkFinalPlan final (schedule (view h final))
                 (_define_expected_outcomes (map finalize (view h final))))
    else None.
Proof.
  cbv zeta. unfold _generate_final_plan.
  pose proof (view_finalized h (base_plan synthesis refinements)
                (firstn 6 (prioritized_actions (base_plan synthesis refinements)))
                (firstn_incl' _ _)) as Hv.
  destruct (_finalize_action_list h (base_plan synthesis refinements)) as [h' final] eqn:E.
  assert (Ef : final = firstn 6 (prioritized_actions (base_plan synthesis refinements))).
  { unfold _finalize_action_list in E. now injection E as _ <-. }
  subst final. cbn [fst snd] in *. rewrite Hv, timeline_of_finalized.
  destruct (forallb has_action_key _); reflexivity.
Qed.

(** X18. [_generate_final_plan] raises exactly when one
    of the first six actions of the base plan has no ["action"] key.
    Otherwise every final action is in exactly one bucket of the
    timeline: immediate when it is highly feasible and cheap, short term
    when highly feasible, medium term when of medium feasibility, long
    term otherwise. *)
Theorem final_plan_schedules_every_action (h : gmap nat Intervention)
    (synthesis : SynthesisResult nat) (refinements : list Refiner.RefinementRecord) :
  let final := firstn 6 (prioritized_actions (base_plan synthesis refinements)) in
  match snd (_generate_final_plan h synthesis refinements) with
  | Some p =>
      forallb has_action_key (view h final) = true
      /\ final_actions p = final
      /\ final_timeline p = schedule (view h final)
      /\ (scheduled (final_timeline p) = length (final_actions p))%nat
      /\ (length (final_actions p) <= 6)%nat
  | None => exists l, In l final /\ action (deref h l) = None
  end.
Proof.
  cbv zeta. rewrite generate_final_plan_spec. cbv zeta.
  destruct (forallb has_action_key _) eqn:E.
  - cbn [final_actions final_timeline]. split; [reflexivity|]. split; [reflexivity|].
    split; [reflexivity|]. split.
    + rewrite scheduled_all. unfold view. apply length_map.
    + apply List.firstn_le_length.
  - unfold view in E.
    induction (firstn 6 (prioritized_actions (base_plan synthesis refinements)))
      as [|l r IH]; [discriminate|].
    cbn [map forallb] in E. apply andb_false_iff in E as [E|E].
    + exists l. split; [now left|]. unfold has_action_key in E.
      destruct (action (deref h l)); [discriminate|reflexivity].
    + destruct (IH E) as (l' & Hl & Ha). exists l'. split; [now right|exact Ha].
Qed.

Lemma final_eco_score_monotone_witness :
  50 <= 60 /\ 0.5 <= 0.6
  /\ _calculate_final_eco_score 50 0.5 0.5 0.5
     <= _calculate_final_eco_score 60 0.6 0.6 0.6.
Proof.
  assert (H1 : 50 <= 60) by (vm_compute; discriminate).
  assert (H2 : 0.5 <= 0.6) by (vm_compute; discriminate).
  split; [exact H1|]. split; [exact H2|].
  exact (proj1 (final_eco_score_monotone 50 0.5 0.5 0.5 60 0.6 0.6 0.6 H1 H2 H2 H2)).
Defined.
End EvaluatorExtras.

(** ** Evaluator: criteria, validation and the complete evaluation *)

Module ScoringFacts.
Import EvaluatorScoring PyFacts MorePyFacts Notions ScoringNotions.
Local Open Scope Q_scope.

Lemma size1_pos {A} (l : list A) : 0 < size1 l.
Proof. unfold size1, Qlt. simpl. lia. Qed.

Lemma size_nonneg {A} (l : list A) : 0 <= size l.
Proof. unfold size, Qle. simpl. lia. Qed.

Lemma size_le_size1 {A} (l : list A) : size l <= size1 l.
Proof. unfold size, size1. rewrite <- Zle_Qle. lia. Qed.

Lemma number_nonneg n : 0 <= number n.
Proof. unfold number, Qle. simpl. lia. Qed.

Lemma number_plus a b : number (a + b) == number a + number b.
Proof. unfold number. rewrite Nat2Z.inj_add, inject_Z_plus. reflexivity. Qed.

Lemma size_number {A} (l : list A) : size l = number (length l).
Proof. reflexivity. Qed.

(** A weighted share: weights between 0 and 1 on disjoint groups. *)
Lemma weighted_share (a b c n : nat) (N : Q) (wa wb wc : Q) :
  (a + b + c <= n)%nat -> number n <= N -> 0 < N ->
  0 <= wa -> wa <= 1 -> 0 <= wb -> wb <= 1 -> 0 <= wc -> wc <= 1 ->
  0 <= (number a * wa + number b * wb + number c * wc) / N
  /\ (number a * wa + number b * wb + number c * wc) / N <= 1.
Proof.
  intros Hs Hn HN Ha Ha' Hb Hb' Hc Hc'.
  pose proof (number_nonneg a) as Pa. pose proof (number_nonneg b) as Pb.
  pose proof (number_nonneg c) as Pc.
  assert (Hsum : number a + number b + number c <= number n).
  { rewrite <- !number_plus. unfold number. rewrite <- Zle_Qle. lia. }
  split.
  - apply Qle_shift_div_l; [exact HN|]. rewrite Qmult_0_l.
    assert (0 <= number a * wa) by (apply Qmult_le_0_compat; assumption).
    assert (0 <= number b * wb) by (apply Qmult_le_0_compat; assumption).
    assert (0 <= number c * wc) by (apply Qmult_le_0_compat; assumption).
    lra.
  - apply Qle_shift_div_r; [exact HN|]. rewrite Qmult_1_l.
    assert (number a * wa <= number a).
    { nra. }
    assert (number b * wb <= number b).
    { nra. }
    assert (number c * wc <= number c).
    { nra. }
    lra.
Qed.

Lemma label_cases a :
  (labelled "high" a = true /\ labelled "medium" a = false /\ labelled "low" a = false
   /\ known_feasibility a = true)
  \/ (labelled "high" a = false /\ labelled "medium" a = true /\ labelled "low" a = false
      /\ known_feasibility a = true)
  \/ (labelled "high" a = false /\ labelled "medium" a = false /\ labelled "low" a = true
      /\ known_feasibility a = true)
  \/ (labelled "high" a = false /\ labelled "medium" a = false /\ labelled "low" a = false
      /\ known_feasibility a = false).
Proof.
  unfold labelled, known_feasibility, Py.str_in. cbn [existsb].
  destruct (String.eqb_spec (feasibility_label a) "high") as [E|_];
    [rewrite ?E; left; repeat split; reflexivity|].
  destruct (String.eqb_spec (feasibility_label a) "medium") as [E|_];
    [rewrite ?E; right; left; repeat split; reflexivity|].
  destruct (String.eqb_spec (feasibility_label a) "low") as [E|_];
    [rewrite ?E; right; right; left; repeat split; reflexivity|].
  right; right; right. repeat split; reflexivity.
Qed.

Lemma feasibility_counts_known actions : forall h m l,
  forallb known_feasibility actions = true ->
  feasibility_counts actions (h, m, l)
  = Some ((h + length (List.filter (labelled "high") actions))%nat,
          (m + length (List.filter (labelled "medium") actions))%nat,
          (l + length (List.filter (labelled "low") actions))%nat).
Proof.
  induction actions as [|a r IH]; intros h m l Hk; cbn [feasibility_counts List.filter].
  - simpl. now rewrite !Nat.add_0_r.
  - cbn [forallb] in Hk. apply andb_prop in Hk as [Ha Hr].
    fold (feasibility_label a). fold (labelled "high" a) (labelled "medium" a)
      (labelled "low" a).
    destruct (label_cases a) as [(E1 & E2 & E3 & _)|[(E1 & E2 & E3 & _)
      |[(E1 & E2 & E3 & _)|(_ & _ & _ & E)]]]; try congruence;
      rewrite E1, ?E2, ?E3; rewrite (IH _ _ _ Hr); cbn [length];
      rewrite ?Nat.add_succ_r; reflexivity.
Qed.

Lemma feasibility_counts_unknown actions : forall c,
  forallb known_feasibility actions = false -> feasibility_counts actions c = None.
Proof.
  induction actions as [|a r IH]; intros [[h m] l] Hk; cbn [feasibility_counts].
  - discriminate.
  - cbn [forallb] in Hk.
    fold (feasibility_label a). fold (labelled "high" a) (labelled "medium" a)
      (labelled "low" a).
    destruct (label_cases a) as [(E1 & E2 & E3 & E)|[(E1 & E2 & E3 & E)
      |[(E1 & E2 & E3 & E)|(E1 & E2 & E3 & E)]]];
      rewrite E in Hk; rewrite E1, ?E2, ?E3; try reflexivity;
      apply IH; exact Hk.
Qed.

Lemma label_partition actions :
  (length (List.filter (labelled "high") actions)
   + length (List.filter (labelled "medium") actions)
   + length (List.filter (labelled "low") actions) <= length actions)%nat.
Proof.
  induction actions as [|a r IH]; cbn [List.filter length]; [lia|].
  destruct (label_cases a) as [(E1 & E2 & E3 & _)|[(E1 & E2 & E3 & _)
    |[(E1 & E2 & E3 & _)|(E1 & E2 & E3 & _)]]];
    rewrite E1, E2, E3; cbn [length]; lia.
Qed.

(** Groups selected by mutually exclusive tests. *)
Lemma exclusive_groups {A} (p q r : A -> bool) (l : list A) :
  (forall a, ((if p a then 1 else 0) + (if q a then 1 else 0)
              + (if r a then 1 else 0) <= 1)%nat) ->
  (length (List.filter p l) + length (List.filter q l) + length (List.filter r l)
   <= length l)%nat.
Proof.
  intros H. induction l as [|a t IH]; cbn [List.filter length]; [lia|].
  specialize (H a). destruct (p a), (q a), (r a); cbn [length]; simpl in H; lia.
Qed.

Lemma cost_classes_exclusive a :
  ((if in_class "low" a then 1 else 0) + (if in_class "medium" a then 1 else 0)
   + (if in_class "high" a then 1 else 0) <= 1)%nat.
Proof.
  unfold in_class, cost_class. cbv zeta.
  destruct (_ || _); [reflexivity|]. destruct (Py.contains "high" _); reflexivity.
Qed.

Lemma round_unit n x : unit_interval x -> unit_interval (Py.round n x).
Proof. intros [H0 H1]. apply (round_between n 0 1 x); assumption. Qed.

Lemma feasibility_score_unit actions refinements c :
  _evaluate_feasibility actions refinements = Some c ->
  unit_interval (entry "feasibility_score" (numbers c) 0.5).
Proof.
  unfold _evaluate_feasibility.
  destruct (forallb known_feasibility actions) eqn:Hk.
  - rewrite (feasibility_counts_known _ _ _ _ Hk). intros [= <-].
    cbn [numbers entry String.eqb Ascii.eqb Bool.eqb fst snd]. apply round_unit.
    apply (weighted_share _ _ _ (length actions)).
    + cbn [Nat.add]. apply label_partition.
    + apply size_le_size1.
    + apply size1_pos.
    + lra. + lra. + lra. + lra. + lra. + lra.
  - rewrite (feasibility_counts_unknown _ _ Hk). discriminate.
Qed.

Lemma cost_benefit_score_unit actions :
  unit_interval (entry "cost_benefit_score" (numbers (_evaluate_cost_benefit actions)) 0.5).
Proof.
  unfold _evaluate_cost_benefit. cbv zeta.
  destruct (_estimate_roi actions) as [[annual ten] cat].
  cbn [numbers entry String.eqb Ascii.eqb Bool.eqb fst snd]. apply round_unit.
  rewrite !size_number.
  apply (weighted_share _ _ _ (length actions)).
  + apply exclusive_groups, cost_classes_exclusive.
  + apply size_le_size1.
  + apply size1_pos.
  + lra. + lra. + lra. + lra. + lra. + lra.
Qed.

Lemma share_unit {A} (p : A -> bool) (l : list A) : unit_interval (size (List.filter p l) / size1 l).
Proof.
  pose proof (size1_pos l) as Hpos. pose proof (size_le_size1 l) as Hle.
  pose proof (List.filter_length_le p l) as Hf. split.
  - apply Qle_shift_div_l; [exact Hpos|]. rewrite Qmult_0_l. apply size_nonneg.
  - apply Qle_shift_div_r; [exact Hpos|]. rewrite Qmult_1_l.
    eapply Qle_trans; [|exact Hle]. unfold size. rewrite <- Zle_Qle. lia.
Qed.

Lemma sustainability_score_unit actions :
  unit_interval (entry "sustainability_score" (numbers (_evaluate_sustainability actions)) 0.5).
Proof.
  unfold _evaluate_sustainability. cbv zeta.
  cbn [numbers entry String.eqb Ascii.eqb Bool.eqb fst snd]. apply round_unit.
  destruct (share_unit is_behavioral actions) as [B0 B1].
  destruct (share_unit is_technological actions) as [T0 T1].
  set (b := size (List.filter is_behavioral actions) / size1 actions) in *.
  set (t := size (List.filter is_technological actions) / size1 actions) in *.
  pose proof (Qabs_nonneg (b - t)) as Hn.
  assert (Hle : Qabs (b - t) <= 1) by (apply Qabs_Qle_condition; split; lra).
  split; lra.
Qed.

Lemma max_one_pos x : 0 < Py.max x 1.
Proof. unfold Py.max. destruct (Qlt_le_dec x 1); lra. Qed.

Lemma impact_score_unit {A} (s : SynthesisResult A) :
  0 <= total_potential_reduction (impact_analysis s) ->
  unit_interval (entry "impact_score" (numbers (_evaluate_carbon_impact s)) 0.5).
Proof.
  intros Hp. unfold _evaluate_carbon_impact. cbv zeta.
  destruct (_compare_to_global_average _) as [[g p] st].
  cbn [numbers entry String.eqb Ascii.eqb Bool.eqb fst snd]. apply round_unit.
  pose proof (max_one_pos (total_carbon_footprint s)) as Hm.
  assert (H0 : 0 <= total_potential_reduction (impact_analysis s)
                    / Py.max (total_carbon_footprint s) 1 * 100 / 70).
  { apply Qle_shift_div_l; [lra|]. rewrite Qmult_0_l.
    apply Qmult_le_0_compat; [|lra].
    apply Qle_shift_div_l; [exact Hm|]. lra. }
  unfold Py.min. destruct (Qlt_le_dec _ 1); split; lra.
Qed.
End ScoringFacts.



Module EvaluationExtras.
Import Store EvaluatorScoring EvaluatorValidation PyFacts MorePyFacts.
Import Notions ScoringNotions ScoringFacts EvaluationNotions EvaluatorNotions.
Local Open Scope Q_scope.

(** X19. [_evaluate_feasibility] raises [KeyError] exactly when
    some action carries a feasibility label other than high, medium and
    low.  When it returns, the distribution counts the three labels and
    the feasibility score lies in [0, 1]. *)
Theorem feasibility_evaluation_returns (actions : list Intervention)
    (refinements : list Refiner.RefinementRecord) :
  match _evaluate_feasibility actions refinements with
  | Some c =>
      forallb known_feasibility actions = true
      /\ distribution c
         = [("high", length (List.filter (labelled "high") actions));
            ("medium", length (List.filter (labelled "medium") actions));
            ("low", length (List.filter (labelled "low") actions))]
      /\ 0 <= entry "feasibility_score" (numbers c) 0.5
      /\ entry "feasibility_score" (numbers c) 0.5 <= 1
  | None => exists a, In a actions /\ known_feasibility a = false
  end.
Proof.
  destruct (_evaluate_feasibility actions refinements) as [c|] eqn:E.
  - pose proof (feasibility_score_unit _ _ _ E) as [H0 H1].
    unfold _evaluate_feasibility in E.
    destruct (forallb known_feasibility actions) eqn:Hk.
    + rewrite (feasibility_counts_known _ _ _ _ Hk) in E. injection E as <-.
      cbn [distribution]. repeat split; assumption.
    + rewrite (feasibility_counts_unknown _ _ Hk) in E. discriminate.
  - unfold _evaluate_feasibility in E.
    destruct (forallb known_feasibility actions) eqn:Hk.
    + rewrite (feasibility_counts_known _ _ _ _ Hk) in E. discriminate.
    + clear E. induction actions as [|a r IH]; [discriminate|].
      cbn [forallb] in Hk. apply andb_false_iff in Hk as [Hk|Hk].
      * exists a. split; [now left|exact Hk].
      * destruct (IH Hk) as (a' & Hin & Ha). exists a'. split; [now right|exact Ha].
Qed.

Lemma overall_formula (c f b s : Criterion) (acts : list Intervention) :
  _calculate_overall_evaluation_score
    (mkEvaluation c f b (_evaluate_user_experience acts) s)
  = Py.round 3
      (0 + entry "impact_score" (numbers c) 0.5 * 0.35
       + entry "feasibility_score" (numbers f) 0.5 * 0.25
       + entry "cost_benefit_score" (numbers b) 0.5 * 0.20
       + 0.5 * 0.15
       + entry "sustainability_score" (numbers s) 0.5 * 0.05).
Proof. reflexivity. Qed.

(** X20. The overall evaluation score does not depend on the
    user-experience criterion: that dictionary stores its score under
    ["ux_score"], the overall score reads ["user_experience_score"], and
    the default 0.5 is used for every action list. *)
Theorem overall_score_ignores_user_experience (c f b s : Criterion)
    (acts acts' : list Intervention) :
  _calculate_overall_evaluation_score
    (mkEvaluation c f b (_evaluate_user_experience acts) s)
  = _calculate_overall_evaluation_score
      (mkEvaluation c f b (_evaluate_user_experience acts') s)
  /\ _calculate_overall_evaluation_score
       (mkEvaluation c f b (_evaluate_user_experience acts) s)
     = Py.round 3
         (0 + entry "impact_score" (numbers c) 0.5 * 0.35
          + entry "feasibility_score" (numbers f) 0.5 * 0.25
          + entry "cost_benefit_score" (numbers b) 0.5 * 0.20
          + 0.5 * 0.15
          + entry "sustainability_score" (numbers s) 0.5 * 0.05).
Proof. split; reflexivity. Qed.

Lemma comprehensive_bounds {A} (synthesis : SynthesisResult A)
    (actions : list Intervention) (refinements : list Refiner.RefinementRecord) :
  0 <= total_potential_reduction (impact_analysis synthesis) ->
  match _comprehensive_evaluation synthesis actions refinements with
  | Some (ev, overall) =>
      0.075 <= overall /\ overall <= 0.975
      /\ 0 <= entry "feasibility_score" (numbers (feasibility_eval ev)) 0.5
      /\ entry "feasibility_score" (numbers (feasibility_eval ev)) 0.5 <= 1
  | None => True
  end.
Proof.
  intros Hp. unfold _comprehensive_evaluation.
  destruct (_evaluate_feasibility actions refinements) as [fe|] eqn:E; [|exact I].
  rewrite overall_formula. cbn [feasibility_eval].
  destruct (feasibility_score_unit _ _ _ E) as [F0 F1].
  destruct (cost_benefit_score_unit actions) as [C0 C1].
  destruct (sustainability_score_unit actions) as [S0 S1].
  destruct (impact_score_unit synthesis Hp) as [I0 I1].
  set (i := entry "impact_score" _ _) in *.
  set (f := entry "feasibility_score" _ _) in *.
  set (c := entry "cost_benefit_score" _ _) in *.
  set (s := entry "sustainability_score" _ _) in *.
  split; [|split; [|split; assumption]].
  - assert (E1 : 0.075 == Py.round 3 0.075) by (vm_compute; reflexivity).
    rewrite E1. apply round_mono. lra.
  - assert (E1 : 0.975 == Py.round 3 0.975) by (vm_compute; reflexivity).
    rewrite E1. apply round_mono. lra.
Qed.

(** X21. [_validate_final_plan] lists one critical issue per failed
    check; its score is 1 minus a quarter per failed check, it passes
    with at most one failed check, and the implementation confidence is
    0.95 without failed check, 0.75 with one and 0.4 otherwise: the
    values 0.85 and 0.6 of the code are never returned. *)
Theorem validation_outcomes (actions : list Intervention) :
  let v := _validate_final_plan actions in
  length (critical_issues v) = failed_checks v
  /\ (failed_checks v <= 4)%nat
  /\ validation_score v == 1 - number (failed_checks v) / 4
  /\ (validation_passed v = true <-> (failed_checks v <= 1)%nat)
  /\ _calculate_implementation_confidence v
     = (if (failed_checks v =? 0)%nat then 0.95
        else if (failed_checks v =? 1)%nat then 0.75 else 0.4).
Proof.
  cbv zeta. unfold _validate_final_plan, failed_checks,
    _calculate_implementation_confidence, _identify_critical_issues.
  cbv zeta. cbn [validation_checks critical_issues validation_score validation_passed
                 List.filter flat_map fst snd].
  destruct (passed (_check_completeness actions)),
    (passed (_check_consistency actions)),
    (passed (_check_actionability actions)),
    (passed (_check_measurability actions));
    vm_compute; repeat split; try reflexivity; try discriminate; try lia;
    intros; try discriminate; try lia.
Qed.

Lemma confidence_values v :
  In (_calculate_implementation_confidence (_validate_final_plan v)) [0.95; 0.75; 0.4].
Proof.
  unfold _validate_final_plan, _calculate_implementation_confidence. cbv zeta.
  cbn [validation_score validation_passed List.filter fst snd].
  destruct (passed (_check_completeness v)), (passed (_check_consistency v)),
    (passed (_check_actionability v)), (passed (_check_measurability v));
    vm_compute; auto.
Qed.

Lemma forallb_false_witness {A} (p : A -> bool) (l : list A) :
  forallb p l = false -> exists a, In a l /\ p a = false.
Proof.
  induction l as [|a r IH]; [discriminate|]. cbn [forallb]. intros H.
  apply andb_false_iff in H as [H|H].
  - exists a. split; [now left|exact H].
  - destruct (IH H) as (a' & Hin & Ha). exists a'. split; [now right|exact Ha].
Qed.

(** X22. [evaluate_and_finalize] raises in two cases only: an
    unknown feasibility label among the actions of the synthesis (the
    store is then untouched), or a missing ["action"] key among the
    first six actions of the base plan.  Otherwise the final actions are
    those six, finalised in the store, the final EcoScore lies in
    [0, 100] and the confidence is 0.95, 0.75 or 0.4. *)
Theorem evaluate_and_finalize_returns (h : gmap nat Intervention)
    (synthesis : SynthesisResult nat) (refinements : list Refiner.RefinementRecord)
    (user_input : string) :
  let actions := view h (prioritized_actions synthesis) in
  let final :=
    firstn 6 (prioritized_actions (Evaluator.base_plan synthesis refinements)) in
  match evaluate_and_finalize h synthesis refinements user_input with
  | (h', Some out) =>
      forallb known_feasibility actions = true
      /\ forallb has_action_key (view h final) = true
      /\ Evaluator.final_actions (final_plan out) = final
      /\ view h' final = map Evaluator.finalize (view h final)
      /\ 0 <= final_eco_score out /\ final_eco_score out <= 100
      /\ In (implementation_confidence out) [0.95; 0.75; 0.4]
  | (h', None) =>
      ((exists a, In a actions /\ known_feasibility a = false) /\ h' = h)
      \/ (exists l, In l final /\ action (deref h l) = None)
  end.
Proof.
  cbv zeta. unfold evaluate_and_finalize. cbv zeta.
  unfold _comprehensive_evaluation, _evaluate_feasibility.
  destruct (forallb known_feasibility (view h (prioritized_actions synthesis))) eqn:Hk.
  - rewrite (feasibility_counts_known _ _ _ _ Hk).
    pose proof (EvaluatorExtras.generate_final_plan_spec h synthesis refinements) as Hs.
    cbv zeta in Hs.
    pose proof (EvaluatorExtras.view_finalized h
                  (Evaluator.base_plan synthesis refinements)
                  (firstn 6 (prioritized_actions
                               (Evaluator.base_plan synthesis refinements)))
                  (EvaluatorExtras.firstn_incl' _ _)) as Hv.
    unfold Evaluator._generate_final_plan in *.
    destruct (Evaluator._finalize_action_list h _) as [h' final]. cbn [fst snd] in *.
    rewrite Hs.
    destruct (forallb has_action_key _) eqn:Ha.
    + cbn [final_plan final_eco_score implementation_confidence Evaluator.final_actions].
      split; [reflexivity|]. split; [reflexivity|]. split; [reflexivity|].
      split; [exact Hv|]. split; [|split].
      * apply EvaluatorExtras.final_eco_score_bounds.
      * apply EvaluatorExtras.final_eco_score_bounds.
      * apply confidence_values.
    + right. unfold view in Ha. apply forallb_false_witness in Ha as (a & Hin & Hna).
      apply in_map_iff in Hin as (l & <- & Hl). exists l. split; [exact Hl|].
      unfold has_action_key in Hna. destruct (action (deref h l)); [discriminate|reflexivity].
  - rewrite (feasibility_counts_unknown _ _ Hk). left.
    split; [now apply forallb_false_witness|reflexivity].
Qed.

Lemma assessed_feasibility_known name an rec :
  known_feasibility (Synthesizer.of_recommendation name an rec) = true.
Proof.
  unfold known_feasibility, feasibility_label, Synthesizer.of_recommendation,
    Synthesizer._assess_feasibility.
  cbn [feasibility get]. cbv zeta.
  destruct (_ || _); [reflexivity|]. destruct (Py.contains "medium" _); reflexivity.
Qed.

Lemma prioritized_known a syn :
  forallb known_feasibility (Synthesizer._prioritize_interventions a syn) = true.
Proof.
  apply forallb_forall. apply List.Forall_forall.
  unfold Synthesizer._prioritize_interventions.
  apply firstn_Forall, sorted_desc_Forall. unfold Synthesizer.all_interventions.
  apply List.Forall_app. split.
  - apply List.Forall_flat_map. apply List.Forall_forall. intros da _.
    apply List.Forall_map. apply List.Forall_forall. intros rec _.
    apply assessed_feasibility_known.
  - apply List.Forall_map. apply List.Forall_forall. intros s _. reflexivity.
Qed.

Lemma prioritized_keys a syn :
  forallb has_action_key (Synthesizer._prioritize_interventions a syn) = true.
Proof.
  apply forallb_forall. apply List.Forall_forall.
  eapply List.Forall_impl; [|apply SynthesizerFacts.prioritized_have_action].
  intros i Hi. unfold Synthesizer.has_action in Hi. unfold has_action_key.
  destruct (action i); [reflexivity|congruence].
Qed.

(** X23. The evaluator accepts every result of the synthesizer:
    the multi-criterion evaluation returns an overall score in
    [0.075, 0.975], the timeline of the first six actions is built, and
    the final EcoScore is not below the synthesizer's EcoScore rounded to
    one decimal. *)
Theorem synthesis_is_evaluable (np_std : list Q -> Q) (a : AgentAnalyses) :
  exists r, Synthesizer.synthesize np_std a = Some r
    /\ (forall refinements user_input,
          exists ev overall,
            _comprehensive_evaluation r (prioritized_actions r) refinements
            = Some (ev, overall)
            /\ 0.075 <= overall /\ overall <= 0.975
            /\ Py.round 1 (eco_score r)
               <= Evaluator._calculate_final_eco_score (eco_score r) overall
                    (Evaluator.alignment_score (prioritized_actions r) user_input)
                    (entry "feasibility_score" (numbers (feasibility_eval ev)) 0.5))
    /\ Evaluator._create_implementation_timeline
         (map Evaluator.finalize (firstn 6 (prioritized_actions r)))
       = Some (schedule (firstn 6 (prioritized_actions r))).
Proof.
  destruct (SynthesizerExtras.synthesis_bounds np_std a)
    as (r & Hr & Hpot & Heco0 & Heco1).
  destruct (SynthesizerFacts.synthesize_returns np_std a) as (r' & Hr' & _ & Hp & _).
  rewrite Hr in Hr'. injection Hr' as <-.
  exists r. split; [exact Hr|]. split.
  - intros refinements user_input.
    pose proof (comprehensive_bounds r (prioritized_actions r) refinements Hpot) as Hc.
    destruct (_comprehensive_evaluation r (prioritized_actions r) refinements)
      as [[ev overall]|] eqn:Ec.
    + destruct Hc as (Ho0 & Ho1 & Hf0 & Hf1).
      exists ev, overall. split; [reflexivity|]. split; [exact Ho0|].
      split; [exact Ho1|].
      unfold Evaluator._calculate_final_eco_score, Evaluator.alignment_bonus. cbv zeta.
      apply round_mono.
      pose proof (EvaluatorExtras.alignment_score_nonneg (prioritized_actions r)
                    user_input) as Hal.
      set (al := Evaluator.alignment_score _ _) in *.
      set (f := entry "feasibility_score" _ _) in *.
      unfold Py.min, Py.max.
      destruct (Qlt_le_dec 0 _); destruct (Qlt_le_dec _ 100); lra.
    + exfalso. unfold _comprehensive_evaluation, _evaluate_feasibility in Ec.
      pose proof (prioritized_known a (Synthesizer._identify_synergies a)) as Hk.
      rewrite <- Hp in Hk.
      rewrite (feasibility_counts_known _ _ _ _ Hk) in Ec. discriminate.
  - rewrite EvaluatorExtras.timeline_of_finalized.
    pose proof (prioritized_keys a (Synthesizer._identify_synergies a)) as Hk.
    rewrite <- Hp in Hk.
    assert (H6 : forallb has_action_key (firstn 6 (prioritized_actions r)) = true).
    { apply forallb_forall. intros x Hx. rewrite forallb_forall in Hk. apply Hk.
      now apply (EvaluatorExtras.firstn_incl' 6). }
    rewrite H6. reflexivity.
Qed.
End EvaluationExtras.

(** ** Workflow orchestrator: the outcomes of a run *)

Module WorkflowExtras.
Import Workflow.

Section Runs.
Context `{stages : Stages Supervisor Synthesis Refinement Evaluation}.

Local Abbreviation State :=
  (@WorkflowState Supervisor Synthesis Refinement Evaluation).

(** X24. A run of the workflow ends in one of two ways: some stage
    raised and the result is the one of the [except] clause, or the
    state is complete, holds a synthesis and an evaluation, and the
    result is compiled from it, without partial results. *)
Theorem run_complete_analysis_outcomes (st : State) (sid input : string) :
  let st' := fst (run_complete_analysis st sid input) in
  let result := snd (run_complete_analysis st sid input) in
  (exists e, stage_raises st input e /\ result = failure_result e st')
  \/ (workflow_complete st' = true
      /\ final_evaluation st' <> None
      /\ synthesis_result st' <> None
      /\ result = _compile_final_results st'
      /\ partial_results result = None).
Proof.
  cbv zeta.
  unfold run_complete_analysis, try_block, refinement_step,
    bind, await, update, read, ret.
  destruct (_run_supervisor_analysis input) as [sr|e] eqn:H1.
  2:{ left. exists e. split; [now apply supervisor_raises|reflexivity]. }
  destruct (_run_synthesis (_run_parallel_domain_analysis sr)) as [s|e] eqn:H2.
  2:{ left. exists e. split; [now apply (synthesis_raises _ _ _ sr)|reflexivity]. }
  destruct (_should_refine s) eqn:H3.
  - rewrite WorkflowClaims.history_after_setup.
    destruct (_run_refinement_loop s (refinement_history st)) as [r|e] eqn:H4.
    2:{ left. exists e. split; [now apply (refinement_raises _ _ _ sr s)|reflexivity]. }
    rewrite WorkflowClaims.history_after_refinement, WorkflowClaims.history_after_setup.
    destruct (_run_final_evaluation (get (get_refined_plan r) s)
                (refinement_history st ++ [r]) input) as [ev|e] eqn:H5.
    2:{ left. exists e. split;
          [now apply (evaluation_raises_after_refinement _ _ _ sr s r)|reflexivity]. }
    right. cbn [fst snd]. split; [reflexivity|]. split; [discriminate|].
    split; [discriminate|]. split; [reflexivity|].
    unfold _compile_final_results. cbn [synthesis_result final_evaluation set_evaluation
      append_refinement set_synthesis].
    destruct (_ || _); reflexivity.
  - rewrite WorkflowClaims.history_after_setup.
    destruct (_run_final_evaluation s (refinement_history st) input) as [ev|e] eqn:H5.
    2:{ left. exists e. split; [now apply (evaluation_raises _ _ _ sr s)|reflexivity]. }
    right. cbn [fst snd]. split; [reflexivity|]. split; [discriminate|].
    split; [discriminate|]. split; [reflexivity|].
    unfold _compile_final_results. cbn [synthesis_result final_evaluation set_evaluation
      append_refinement set_synthesis].
    destruct (_ || _); reflexivity.
Qed.

(** X25. A run records its session and input, appends at most
    one entry to the refinement history and never shortens it; a failed
    run does not reset the completion flag, the synthesis or the
    evaluation left by an earlier run. *)
Theorem run_complete_analysis_keeps_history (st : State) (sid input : string) :
  let st' := fst (run_complete_analysis st sid input) in
  session_id st' = Some sid
  /\ user_input st' = Some input
  /\ (exists added, refinement_history st' = refinement_history st ++ added
                    /\ (length added <= 1)%nat)
  /\ (workflow_complete st = true -> workflow_complete st' = true)
  /\ (final_evaluation st <> None -> final_evaluation st' <> None)
  /\ (synthesis_result st <> None -> synthesis_result st' <> None).
Proof.
  cbv zeta.
  unfold run_complete_analysis, try_block, refinement_step,
    bind, await, update, read, ret.
  destruct (_run_supervisor_analysis input) as [sr|e] eqn:H1.
  2:{ cbn. repeat split; auto. exists []. rewrite app_nil_r. split; [reflexivity|]. simpl; lia. }
  destruct (_run_synthesis (_run_parallel_domain_analysis sr)) as [s|e] eqn:H2.
  2:{ cbn. repeat split; auto. exists []. rewrite app_nil_r. split; [reflexivity|]. simpl; lia. }
  destruct (_should_refine s) eqn:H3.
  - rewrite WorkflowClaims.history_after_setup.
    destruct (_run_refinement_loop s (refinement_history st)) as [r|e] eqn:H4.
    2:{ cbn. repeat split; auto; try discriminate. exists []. rewrite app_nil_r.
        split; [reflexivity|]. simpl; lia. }
    rewrite WorkflowClaims.history_after_refinement, WorkflowClaims.history_after_setup.
    destruct (_run_final_evaluation (get (get_refined_plan r) s)
                (refinement_history st ++ [r]) input) as [ev|e] eqn:H5;
      cbn; repeat split; auto; try discriminate; exists [r]; split; try reflexivity;
      simpl; lia.
  - rewrite WorkflowClaims.history_after_setup.
    destruct (_run_final_evaluation s (refinement_history st) input) as [ev|e] eqn:H5;
      cbn; repeat split; auto; try discriminate; exists []; rewrite app_nil_r;
      split; try reflexivity; simpl; lia.
Qed.
End Runs.
End WorkflowExtras.

(** ** Supervisor and live agents *)

Module SupervisorExtras.
Import Workflow Supervisor SupervisorNotions PyFacts MorePyFacts Notions.
Local Open Scope Q_scope.

Lemma priorities_cases (l : Lifestyle) :
  In (_determine_agent_priorities l) priority_profiles.
Proof.
  unfold _determine_agent_priorities, priority_profiles. cbv zeta.
  destruct (String.eqb (luxury_level l) "high");
    destruct (String.eqb (diet_type l) "meat_heavy");
    destruct (String.eqb (transport_intensity l) "high"); simpl; auto 6.
Qed.

Lemma coordinate_agents_input plan u v : coordinate_agents plan u = coordinate_agents plan v.
Proof. reflexivity. Qed.

(** X26. For every user text the four agent priorities sum to 1
    and lie in [0.15, 0.4]; the execution order is a permutation of the
    roster by decreasing priority, and the coordination returns one
    assignment per agent, in that order, with its own weight, a
    positive expected duration, and six focus areas when the priority
    exceeds 0.3, four otherwise. *)
Theorem agent_priorities_normalised (user_input : string) :
  let p := _determine_agent_priorities (_analyze_lifestyle_patterns user_input) in
  let plan := _create_coordination_plan p in
  home_expert p + transport_expert p + diet_expert p + shopping_expert p == 1
  /\ Forall (fun kv => 0.15 <= snd kv /\ snd kv <= 0.4) (items p)
  /\ Permutation (execution_order plan) agent_roster
  /\ StronglySorted (ge_key snd) (Py.sorted_desc snd (items p))
  /\ exists c, coordinate_agents plan user_input = Returned c
               /\ map fst (agent_assignments c) = execution_order plan
               /\ Forall (fun na =>
                            0 < expected_duration (snd na)
                            /\ length (focus_areas (snd na))
                               = (if Py.ltb 0.3 (priority_level (snd na)) then 6 else 4)%nat
                            /\ exists w, lookup_key (fst na) (items p) = Some w
                                         /\ w == priority_level (snd na))
                    (agent_assignments c).
Proof.
  cbv zeta.
  pose proof (priorities_cases (_analyze_lifestyle_patterns user_input)) as Hc.
  set (p := _determine_agent_priorities _) in *.
  split; [|split; [|split; [|split]]].
  - destruct Hc as [<-|[<-|[<-|[<-|[]]]]]; vm_compute; reflexivity.
  - destruct Hc as [<-|[<-|[<-|[<-|[]]]]];
      repeat constructor; vm_compute; discriminate.
  - unfold _create_coordination_plan. cbn [execution_order].
    change agent_roster with (map fst (items p)).
    apply Permutation_map. apply sorted_desc_perm.
  - apply sorted_desc_sorted.
  - rewrite (coordinate_agents_input _ user_input "").
    assert (Hw : well_coordinated p = true).
    { destruct Hc as [<-|[<-|[<-|[<-|[]]]]]; vm_compute; reflexivity. }
    unfold well_coordinated in Hw.
    destruct (coordinate_agents (_create_coordination_plan p) "") as [c|e];
      [|discriminate].
    apply andb_prop in Hw as [Hw H6]. apply andb_prop in Hw as [Ho Ha].
    exists c. split; [reflexivity|]. split.
    + clear - Ho. revert Ho.
      generalize (execution_order (_create_coordination_plan p)).
      generalize (map fst (agent_assignments c)).
      induction l as [|x r IH]; intros [|y t]; simpl; try discriminate; [reflexivity|].
      intros H. apply andb_prop in H as [Hx Hr]. apply String.eqb_eq in Hx.
      f_equal; [exact Hx|now apply IH].
    + apply List.Forall_forall. intros na Hin.
      rewrite forallb_forall in Ha. specialize (Ha na Hin).
      apply andb_prop in Ha as [Ha Hl]. apply andb_prop in Ha as [Hd Hf].
      split; [now apply ltb_spec|]. split; [now apply Nat.eqb_eq|].
      destruct (lookup_key (fst na) (items p)) as [w|]; [|discriminate].
      exists w. split; [reflexivity|]. now apply Qeq_bool_iff.
Qed.
End SupervisorExtras.

Module LiveModeExtras.
Import Workflow Supervisor LiveMode SupervisorNotions SupervisorExtras.
Local Open Scope Q_scope.

Lemma supervisor_returns geocode user_input :
  exists a c, analyze_and_coordinate geocode user_input
              = Returned [("analysis", AnalysisEntry a); ("coordination", CoordinationEntry c)].
Proof.
  unfold analyze_and_coordinate. cbv zeta.
  set (a := analyze_input geocode user_input).
  assert (Hw : well_coordinated (agent_priorities a) = true).
  { destruct (priorities_cases (lifestyle_patterns a)) as [E|[E|[E|[E|[]]]]];
      change (agent_priorities a) with (_determine_agent_priorities (lifestyle_patterns a));
      rewrite <- E; vm_compute; reflexivity. }
  unfold well_coordinated in Hw.
  change (coordination_plan a) with (_create_coordination_plan (agent_priorities a)).
  rewrite (coordinate_agents_input _ user_input "").
  destruct (coordinate_agents _ "") as [c|e]; [|discriminate].
  exists a, c. reflexivity.
Qed.

Section Agents.
Context {Synthesis Refinement Evaluation : Type}.
Variable geocode : string -> outcome (option Place).
Variable analyze : Domain -> Entry -> Entry -> outcome DomainAnalysis.
Variable later : Stages unit Synthesis Refinement Evaluation.

Local Abbreviation live_run := (live_stages geocode analyze later).

(** X27. With live agents the supervisor returns a dictionary
    with the keys ["analysis"] and ["coordination"] only, so each of the
    four estimator calls raises [KeyError] on ["user_input"] before its
    expert is called: whatever the user wrote, the domain analyses are
    the four fallbacks, with a synthesized footprint of 12.5 t/year and
    an EcoScore of 18.3. *)
Theorem live_estimators_always_fall_back (user_input : string) :
  exists sr,
    _run_supervisor_analysis (Stages := live_run) user_input = Returned sr
    /\ (forall d, run_estimator (Stages := live_run) d sr = Raised "'user_input'")
    /\ _run_parallel_domain_analysis (stages := live_run) sr
       = [("home", _get_fallback_home_analysis);
          ("transport", _get_fallback_transport_analysis);
          ("diet", _get_fallback_diet_analysis);
          ("shopping", _get_fallback_shopping_analysis)]
    /\ Synthesizer._calculate_total_footprint
         (_run_parallel_domain_analysis (stages := live_run) sr) == 12.5
    /\ Synthesizer._calculate_eco_score
         (_run_parallel_domain_analysis (stages := live_run) sr)
         (Synthesizer._calculate_total_footprint
            (_run_parallel_domain_analysis (stages := live_run) sr)) == 18.3
    /\ forall st sid,
         let st' := fst (run_complete_analysis (stages := live_run) st sid user_input) in
         supervisor_analysis st' = Some sr
         /\ domain_analyses st' = _run_parallel_domain_analysis (stages := live_run) sr.
Proof.
  destruct (supervisor_returns geocode user_input) as (a & c & Hs).
  eexists. split; [exact Hs|].
  assert (He : forall d, run_estimator (Stages := live_run) d
                           [("analysis", AnalysisEntry a);
                            ("coordination", CoordinationEntry c)]
                         = Raised "'user_input'") by (intros d; reflexivity).
  assert (Hd : _run_parallel_domain_analysis (stages := live_run)
                 [("analysis", AnalysisEntry a); ("coordination", CoordinationEntry c)]
               = [("home", _get_fallback_home_analysis);
                  ("transport", _get_fallback_transport_analysis);
                  ("diet", _get_fallback_diet_analysis);
                  ("shopping", _get_fallback_shopping_analysis)]) by reflexivity.
  split; [exact He|]. split; [exact Hd|]. rewrite Hd.
  split; [vm_compute; reflexivity|]. split; [vm_compute; reflexivity|].
  intros st sid. cbv zeta.
  unfold run_complete_analysis, try_block, refinement_step,
    bind, await, update, read, ret.
  change (_run_supervisor_analysis (Stages := live_run) user_input)
    with (analyze_and_coordinate geocode user_input).
  rewrite Hs.
  set (sr := [("analysis", AnalysisEntry a); ("coordination", CoordinationEntry c)]) in *.
  destruct (_run_synthesis _) as [s|e]; [|split; reflexivity].
  destruct (_should_refine s).
  - destruct (_run_refinement_loop s _) as [r|e]; [|split; reflexivity].
    destruct (_run_final_evaluation _ _ user_input) as [ev|e]; split; reflexivity.
  - destruct (_run_final_evaluation _ _ user_input) as [ev|e]; split; reflexivity.
Qed.
End Agents.
End LiveModeExtras.

(** ** Transport and diet estimators *)

Module EstimatorExtras.
Import PyFacts MorePyFacts.
Local Open Scope Q_scope.

Lemma first_category_range table text dflt :
  In (Transport.first_category table text dflt) (dflt :: map fst table).
Proof.
  induction table as [|[name kws] r IH]; simpl; [now left|].
  destruct (Py.any_in kws text); [right; now left|].
  destruct IH as [IH|IH]; [now left|right; now right].
Qed.

Lemma read_int_nonneg s : forall acc, (0 <= acc)%Z -> (0 <= fst (Transport.read_int acc s))%Z.
Proof.
  induction s as [|c r IH]; intros acc Ha; simpl; [exact Ha|].
  destruct (Py.is_digit c); [|exact Ha].
  apply IH. pose proof (SynthesizerExtras.digit_val_nonneg c). lia.
Qed.

Lemma distance_here_nonneg s n u :
  Transport.distance_here s = Some (n, u) -> (0 <= n)%Z.
Proof.
  unfold Transport.distance_here. destruct s as [|c r]; [discriminate|].
  destruct (Py.is_digit c); [|discriminate].
  pose proof (read_int_nonneg (String c r) 0 (Z.le_refl 0)) as H.
  destruct (Transport.read_int 0 (String c r)) as [m rest]. cbn [fst] in H.
  destruct (Py.startswith "km" _); [intros [= <- _]; exact H|].
  destruct (Py.startswith "mile" _); [intros [= <- _]; exact H|discriminate].
Qed.

Lemma first_distance_nonneg s : forall n u,
  Transport.first_distance s = Some (n, u) -> (0 <= n)%Z.
Proof.
  induction s as [|c r IH]; intros n u; cbn [Transport.first_distance].
  - destruct (Transport.distance_here "") as [[m v]|] eqn:E; [|discriminate].
    intros [= <- _]. exact (distance_here_nonneg _ _ _ E).
  - destruct (Transport.distance_here (String c r)) as [[m v]|] eqn:E.
    + intros [= <- _]. exact (distance_here_nonneg _ _ _ E).
    + apply IH.
Qed.

Lemma flight_pattern_nonneg text :
  (0 <= fst (Transport.flight_pattern text))%Z
  /\ (0 <= snd (Transport.flight_pattern text))%Z.
Proof.
  unfold Transport.flight_pattern.
  destruct (Py.any_in _ text); [|simpl; lia].
  destruct (Py.contains "daily" text); [simpl; lia|].
  destruct (Py.contains "weekly" text); [simpl; lia|].
  destruct (Py.contains "private jet" text); simpl; lia.
Qed.

Lemma daily_distance_nonneg text :
  0 <= daily_distance (Transport._analyze_transport_patterns text).
Proof.
  unfold Transport._analyze_transport_patterns. cbv zeta. cbn [daily_distance].
  destruct (Transport.first_distance (Py.lower text)) as [[n u]|] eqn:E; [|lra].
  pose proof (first_distance_nonneg _ _ _ E) as Hn.
  assert (0 <= inject_Z n) by (change 0 with (inject_Z 0); now rewrite <- Zle_Qle).
  destruct (Py.str_in u _); lra.
Qed.

Lemma detected_vehicle_facts v :
  In v ["private_jet"; "helicopter"; "luxury_car"; "suv"; "hybrid"; "electric";
        "motorcycle"; "sedan"] ->
  0 <= Transport.vehicle_scores v /\ Transport.vehicle_scores v <= 0.9
  /\ exists f, Transport.emission_factors v = Some f /\ 0.05 <= f.
Proof.
  intros Hin. simpl in Hin.
  destruct Hin as [<-|[<-|[<-|[<-|[<-|[<-|[<-|[<-|[]]]]]]]]];
    (split; [vm_compute; discriminate|]); (split; [vm_compute; discriminate|]);
    eexists; (split; [reflexivity|]); vm_compute; discriminate.
Qed.

(** X28. For every user text whose distance, if it names one, has at
    most 300 digits, the detected vehicle is one of the eight keyword
    categories, the transport efficiency lies in [0, 0.9], the
    transport footprint is not negative, and a positive daily distance
    gives positive vehicle emissions.  (A distance beyond the largest
    double makes the code raise OverflowError when it multiplies the
    integer by 1.6 or by the emission factor.) *)
Theorem transport_estimate_range (user_input : string) :
  TransportNotions.convertible_distance user_input ->
  let p := Transport._analyze_transport_patterns user_input in
  In (primary_vehicle p)
    ["private_jet"; "helicopter"; "luxury_car"; "suv"; "hybrid"; "electric";
     "motorcycle"; "sedan"]
  /\ 0 <= Transport._calculate_transport_efficiency p
  /\ Transport._calculate_transport_efficiency p <= 0.9
  /\ 0 <= Transport._calculate_transport_carbon_footprint p
  /\ (0 < daily_distance p -> 0 < Transport.annual_vehicle_emissions p).
Proof.
  intros _. cbv zeta.
  pose proof (daily_distance_nonneg user_input) as Hd.
  assert (Hv : In (primary_vehicle (Transport._analyze_transport_patterns user_input))
                 ("sedan" :: map fst Transport.vehicle_keywords))
    by exact (first_category_range Transport.vehicle_keywords (Py.lower user_input)
                "sedan").
  set (p := Transport._analyze_transport_patterns user_input) in *.
  assert (Hf : (0 <= weekly_flights p)%Z /\ (0 <= flight_distance p)%Z).
  { exact (flight_pattern_nonneg (Py.lower user_input)). }
  assert (Hin : In (primary_vehicle p)
                  ["private_jet"; "helicopter"; "luxury_car"; "suv"; "hybrid";
                   "electric"; "motorcycle"; "sedan"]).
  { clearbody p. cbn [map fst Transport.vehicle_keywords] in Hv. simpl in Hv. simpl.
    tauto. }
  split; [exact Hin|].
  assert (Hs : 0 <= Transport.vehicle_scores (primary_vehicle p)
               /\ Transport.vehicle_scores (primary_vehicle p) <= 0.9
               /\ exists f, Transport.emission_factors (primary_vehicle p) = Some f
                            /\ 0.05 <= f).
  { exact (detected_vehicle_facts _ Hin). }
  destruct Hs as (S0 & S1 & f & Ef & Hf5).
  split; [|split; [|split]].
  - unfold Transport._calculate_transport_efficiency, Py.max, Py.min. cbv zeta.
    repeat match goal with |- context [if ?b then _ else _] => destruct b end; lra.
  - unfold Transport._calculate_transport_efficiency, Py.max, Py.min. cbv zeta.
    set (s := Transport.vehicle_scores (primary_vehicle p)) in *.
    destruct (Py.ltb 100 _); [|destruct (Py.ltb 50 _)];
      destruct (0 <? weekly_flights p)%Z;
      repeat match goal with |- context [Qlt_le_dec ?a ?b] => destruct (Qlt_le_dec a b) end;
      lra.
  - unfold Transport._calculate_transport_carbon_footprint.
    apply SynthesizerExtras.round_nonneg.
    unfold Transport.annual_vehicle_emissions, Transport.annual_flight_emissions.
    cbv zeta. rewrite Ef. cbn [get].
    destruct Hf as [W0 D0].
    assert (0 <= inject_Z (weekly_flights p))
      by (change 0 with (inject_Z 0); now rewrite <- Zle_Qle).
    assert (0 <= inject_Z (flight_distance p))
      by (change 0 with (inject_Z 0); now rewrite <- Zle_Qle).
    set (d := daily_distance p) in *.
    set (w := inject_Z (weekly_flights p)) in *.
    set (fd := inject_Z (flight_distance p)) in *.
    assert (0 <= d * f) by nra.
    assert (0 <= w * fd) by nra.
    destruct (String.eqb _ _).
    + assert (0 <= w * fd * 2.5 * 52 / 1000) by (apply Qle_shift_div_l; lra).
      assert (0 <= d * f * 365 / 1000) by (apply Qle_shift_div_l; lra). lra.
    + assert (0 <= w * fd * 0.25 * 52 / 1000) by (apply Qle_shift_div_l; lra).
      assert (0 <= d * f * 365 / 1000) by (apply Qle_shift_div_l; lra). lra.
  - intros Hpos. unfold Transport.annual_vehicle_emissions. cbv zeta.
    rewrite Ef. cbn [get]. set (d := daily_distance p) in *.
    assert (0 < d * f) by nra.
    apply Qlt_shift_div_l; lra.
Qed.

Lemma transport_estimate_range_witness :
  let text := "I drive my SUV 40 miles to work" in
  let p := Transport._analyze_transport_patterns text in
  TransportNotions.convertible_distance text
  /\ 0 <= Transport._calculate_transport_efficiency p
  /\ Transport._calculate_transport_efficiency p <= 0.9
  /\ 0 <= Transport._calculate_transport_carbon_footprint p.
Proof.
  cbv zeta.
  assert (H : TransportNotions.convertible_distance "I drive my SUV 40 miles to work")
    by (vm_compute; reflexivity).
  pose proof (transport_estimate_range "I drive my SUV 40 miles to work" H) as R.
  cbv zeta in R. destruct R as (_ & R1 & R2 & R3 & _).
  repeat split; assumption.
Defined.

Lemma vegan_is_meatless p : Diet.is_vegan p = true -> Diet.meatless p = true.
Proof.
  unfold Diet.is_vegan, Diet.meatless. intros H. apply String.eqb_eq in H.
  rewrite H. reflexivity.
Qed.

Lemma frequency_multiplier_range f :
  0.3 <= Diet.frequency_multipliers f /\ Diet.frequency_multipliers f <= 1.5.
Proof.
  unfold Diet.frequency_multipliers.
  repeat match goal with |- context [if ?b then _ else _] => destruct b end;
    split; vm_compute; discriminate.
Qed.

(** The emissions charged for one of the three meats: nothing for a
    meatless diet, at most [top] kg otherwise. *)
Lemma meat_emissions_range p food amount factor top :
  Diet.base_consumption p food = (if Diet.meatless p then 0 else amount) ->
  Diet.food_emissions food = factor ->
  0 <= amount -> 0 <= factor ->
  amount * 1.5 * (if String.eqb food "beef" then 2 else 1) * factor <= top ->
  0 <= Diet.meat_emissions p food /\ Diet.meat_emissions p food <= top
  /\ (Diet.meatless p = true -> Diet.meat_emissions p food == 0).
Proof.
  intros Eb Ef Ha Hf Ht. unfold Diet.meat_emissions. cbv zeta. rewrite Eb, Ef.
  destruct (frequency_multiplier_range (meat_frequency p)) as [M0 M1].
  set (m := Diet.frequency_multipliers _) in *.
  assert (0 <= amount * factor) by nra.
  assert (Hm : 0 <= amount * m * factor /\ amount * m * factor <= amount * 1.5 * factor)
    by (split; nra).
  destruct (Py.str_in food _);
    [|split; [lra|split; [destruct (String.eqb food "beef"); nra|intros _; lra]]].
  destruct (Diet.meatless p).
  - destruct (_ && _); split; try lra; split;
      try (destruct (String.eqb food "beef"); nra); intros _; lra.
  - destruct (String.eqb food "beef"); rewrite ?andb_false_r, ?andb_true_r;
      [destruct (luxury_foods p)|]; split; try nra; split; try nra;
      intros H'; discriminate.
Qed.

Lemma diet_sum p :
  Diet._calculate_diet_carbon_footprint p
  = Py.round 2
      ((0 + Diet.meat_emissions p "beef" + Diet.meat_emissions p "pork"
        + Diet.meat_emissions p "chicken"
        + (if negb (Diet.is_vegan p)
           then (if Py.str_in "fish" (meat_types p)
                 then Diet.base_consumption p "fish" * 1.5
                 else Diet.base_consumption p "fish") * Diet.food_emissions "fish"
                + Diet.base_consumption p "dairy" * Diet.food_emissions "milk"
           else 0)
        + Diet.plant_emissions p "vegetables" + Diet.plant_emissions p "fruits"
        + Diet.base_consumption p "grains" * Diet.food_emissions "wheat") / 1000).
Proof.
  unfold Diet._calculate_diet_carbon_footprint. cbv zeta. cbn [fold_left].
  apply round_proper. destruct (negb (Diet.is_vegan p)); cbn [negb]; field.
Qed.

(** X29. The diet footprint lies in [0.24, 4.73] t/year for all
    dietary patterns; it is 0.25 for a vegan diet (0.24 with the organic
    preference), whatever meats the text names, and at most 0.71 for a
    meatless diet. *)
Theorem diet_footprint_range (p : DietaryPatterns) :
  0.24 <= Diet._calculate_diet_carbon_footprint p
  /\ Diet._calculate_diet_carbon_footprint p <= 4.73
  /\ (diet_type p = "vegan" ->
      Diet._calculate_diet_carbon_footprint p
      == (if organic_preference p then 0.24 else 0.25))
  /\ (Diet.meatless p = true -> Diet._calculate_diet_carbon_footprint p <= 0.71).
Proof.
  rewrite diet_sum.
  destruct (meat_emissions_range p "beef" 20 60 3600 eq_refl eq_refl
              ltac:(unfold Qle; simpl; lia) ltac:(unfold Qle; simpl; lia)
              ltac:(unfold Qle; simpl; lia)) as (B0 & B1 & B2).
  destruct (meat_emissions_range p "pork" 15 7.2 162 eq_refl eq_refl
              ltac:(unfold Qle; simpl; lia) ltac:(unfold Qle; simpl; lia)
              ltac:(unfold Qle; simpl; lia)) as (P0 & P1 & P2).
  destruct (meat_emissions_range p "chicken" 25 6.9 258.75 eq_refl eq_refl
              ltac:(unfold Qle; simpl; lia) ltac:(unfold Qle; simpl; lia)
              ltac:(unfold Qle; simpl; lia)) as (C0 & C1 & C2).
  set (beef := Diet.meat_emissions p "beef") in *.
  set (pork := Diet.meat_emissions p "pork") in *.
  set (chicken := Diet.meat_emissions p "chicken") in *.
  assert (Hplants :
            Diet.plant_emissions p "vegetables" + Diet.plant_emissions p "fruits"
            + Diet.base_consumption p "grains" * Diet.food_emissions "wheat"
            == (if organic_preference p then 235.2 else 252)).
  { unfold Diet.plant_emissions. cbv zeta.
    destruct (organic_preference p); vm_compute; reflexivity. }
  set (veg := Diet.plant_emissions p "vegetables") in *.
  set (fruit := Diet.plant_emissions p "fruits") in *.
  set (grain := Diet.base_consumption p "grains" * Diet.food_emissions "wheat") in *.
  assert (Hfish :
            0 <= (if Py.str_in "fish" (meat_types p)
                  then Diet.base_consumption p "fish" * 1.5
                  else Diet.base_consumption p "fish") * Diet.food_emissions "fish"
                 + Diet.base_consumption p "dairy" * Diet.food_emissions "milk"
            /\ (if Py.str_in "fish" (meat_types p)
                then Diet.base_consumption p "fish" * 1.5
                else Diet.base_consumption p "fish") * Diet.food_emissions "fish"
               + Diet.base_consumption p "dairy" * Diet.food_emissions "milk"
               <= 457.25).
  { unfold Diet.base_consumption. cbn [String.eqb Ascii.eqb Bool.eqb].
    destruct (Py.str_in "fish" _), (Diet.is_vegan p); split; vm_compute; discriminate. }
  set (animal := (if Py.str_in "fish" (meat_types p) then _ else _) * _ + _) in *.
  assert (E24 : 0.24 == Py.round 2 0.2352) by (vm_compute; reflexivity).
  assert (E473 : 4.73 == Py.round 2 4.73) by (vm_compute; reflexivity).
  assert (E71 : 0.71 == Py.round 2 0.70925) by (vm_compute; reflexivity).
  assert (Hp0 : 235.2 <= veg + fruit + grain /\ veg + fruit + grain <= 252).
  { rewrite Hplants. destruct (organic_preference p); split; lra. }
  destruct Hfish as [F0 F1]. destruct Hp0 as [L0 L1].
  split; [|split; [|split]].
  - rewrite E24. apply round_mono. apply Qle_shift_div_l; [lra|].
    destruct (negb (Diet.is_vegan p)); lra.
  - rewrite E473. apply round_mono. apply Qle_shift_div_r; [lra|].
    destruct (negb (Diet.is_vegan p)); lra.
  - intros E. assert (Hvg : Diet.is_vegan p = true).
    { unfold Diet.is_vegan. rewrite E. reflexivity. }
    pose proof (vegan_is_meatless p Hvg) as Hm.
    rewrite Hvg. cbn [negb].
    assert (Es : (0 + beef + pork + chicken + 0 + veg + fruit + grain) / 1000
                 == (if organic_preference p then 235.2 else 252) / 1000).
    { rewrite <- Hplants. rewrite (B2 Hm), (P2 Hm), (C2 Hm). field. }
    rewrite (round_proper 2 _ _ Es).
    destruct (organic_preference p); vm_compute; reflexivity.
  - intros Hm. rewrite E71. apply round_mono. apply Qle_shift_div_r; [lra|].
    pose proof (B2 Hm). pose proof (P2 Hm). pose proof (C2 Hm).
    destruct (negb (Diet.is_vegan p)); lra.
Qed.
End EstimatorExtras.

(** ** Home estimator *)

Module HomeExtras.
Import Home PyFacts MorePyFacts.
Local Open Scope Q_scope.

Lemma intensity_positive country :
  85 <= carbon_intensity (_get_electricity_carbon_intensity country).
Proof.
  unfold _get_electricity_carbon_intensity, country_codes. cbv zeta.
  cbn [carbon_intensity].
  repeat match goal with |- context [if ?b then _ else _] => destruct b end;
    vm_compute; discriminate.
Qed.

Lemma degree_days_nonneg reading :
  0 <= heating_degree_days (_get_weather_data reading)
  /\ 0 <= cooling_degree_days (_get_weather_data reading).
Proof.
  destruct reading as [[[t hi] lo]|]; cbn [_get_weather_data heating_degree_days
    cooling_degree_days]; [|split; lra].
  unfold Py.max. split; destruct (Qlt_le_dec 0 _); lra.
Qed.

Lemma consumption_bounds size level :
  5600 <= base_consumption size * efficiency_multipliers level.
Proof.
  unfold base_consumption, efficiency_multipliers.
  repeat match goal with |- context [if ?b then _ else _] => destruct b end;
    vm_compute; discriminate.
Qed.

(** X30. For every text, country and weather reading the home
    estimator reports a positive footprint, an efficiency in [0, 1] and
    one to four recommendations, the last one being the smart thermostat
    and LED lighting.  Its recommendations carry ["cost"], not
    ["cost_impact"]: the synthesizer reads each of them as of medium
    cost and medium feasibility, so none is a quick win. *)
Theorem home_analysis_range (user_input : string) (country : option string)
    (reading : option (option Q * option Q * option Q)) :
  let a := analyze user_input country reading in
  let recs := get (recommendations a) [] in
  0 < get (carbon_footprint a) 0
  /\ 0 <= get (efficiency_score a) 0 /\ get (efficiency_score a) 0 <= 1
  /\ (1 <= length recs <= 4)%nat
  /\ (exists earlier,
         recs = earlier
                ++ [recommendation "Install smart thermostat and LED lighting"
                      "Reduce energy consumption by 15-25%" "low" "0.5-1.5 tons/year"])
  /\ Forall (fun rec =>
               let i := Synthesizer.of_recommendation "home" a rec in
               cost_impact i = Some "Medium" /\ feasibility i = Some "medium"
               /\ Synthesizer.is_quick_win i = false)
       recs.
Proof.
  cbv zeta. unfold analyze. cbv zeta.
  cbn [carbon_footprint efficiency_score recommendations get].
  set (p := _analyze_energy_patterns user_input).
  set (ci := _get_electricity_carbon_intensity country).
  set (w := _get_weather_data reading).
  split; [|split; [|split; [|split; [|split]]]].
  - unfold _calculate_home_carbon_footprint. cbv zeta.
    pose proof (intensity_positive country) as Hi. fold ci in Hi.
    destruct (degree_days_nonneg reading) as [Hh Hc]. fold w in Hh, Hc.
    pose proof (consumption_bounds (home_size p) (appliance_efficiency p)) as Hb.
    set (c := base_consumption _ * efficiency_multipliers _) in *.
    set (k := carbon_intensity ci) in *.
    set (hd := heating_degree_days w) in *. set (cd := cooling_degree_days w) in *.
    assert (Hadj : 0 <= (hd + cd) / 10 * 100).
    { apply Qmult_le_0_compat; [|lra]. apply Qle_shift_div_l; lra. }
    set (adj := (hd + cd) / 10 * 100) in *.
    assert (Hx : 0.14 <= (if renewable_energy p then (c + adj) * 0.3 else c + adj)
                         * k / 1000 / 1000).
    { apply Qle_shift_div_l; [lra|]. apply Qle_shift_div_l; [lra|].
      destruct (renewable_energy p); nra. }
    assert (E : 0.14 == Py.round 2 0.14) by (vm_compute; reflexivity).
    eapply Qlt_le_trans; [|apply (round_mono 2 _ _ Hx)]. rewrite <- E. lra.
  - unfold _calculate_efficiency_score, Py.max, Py.min. cbv zeta.
    repeat match goal with |- context [Qlt_le_dec ?a ?b] => destruct (Qlt_le_dec a b) end;
      lra.
  - unfold _calculate_efficiency_score, Py.max, Py.min. cbv zeta.
    repeat match goal with |- context [Qlt_le_dec ?a ?b] => destruct (Qlt_le_dec a b) end;
      lra.
  - unfold _generate_recommendations.
    repeat match goal with |- context [if ?b then _ else _] => destruct b end;
      simpl; lia.
  - unfold _generate_recommendations. rewrite !app_assoc. eexists. reflexivity.
  - apply List.Forall_forall. intros rec Hin.
    assert (Hc : cost_impact rec = None).
    { unfold _generate_recommendations in Hin.
      repeat match type of Hin with
             | context [if ?b then _ else _] => destruct b
             end; simpl in Hin;
        repeat match type of Hin with
               | _ \/ _ => destruct Hin as [<-|Hin]
               | False => destruct Hin
               end; reflexivity. }
    unfold Synthesizer.of_recommendation, Synthesizer.is_quick_win,
      Synthesizer._assess_feasibility.
    cbn [cost_impact feasibility]. rewrite Hc. cbn [get].
    repeat split; reflexivity.
Qed.
End HomeExtras.
